(** * micro-task-template: an API gateway in front of a users and an orders service

    A shallow embedding of the three Node.js programs of the repository
    (api_gateway/index.js, service_users/index.js, service_orders/index.js and
    the gateway's domain-events module) and the properties of their
    request-dispatch core.

    Layout: the models come first, one module per source file or component;
    the lemmas and theorems follow, grouped the same way. *)

From stdpp Require Import base strings list gmap pretty.
From Stdlib Require Import ZArith Lia Ascii Sorted Permutation.

Open Scope Z_scope.

(* ===================================================================== *)
(** * JavaScript values *)
(* ===================================================================== *)

Module Js.

(** JSON-like values as the handlers see them. [JUndef] is the result of
    reading a property an object does not have. Numbers are the integers:
    identifiers, quantities, prices and millisecond clocks of these programs
    are integral, and the model does not cover fractional amounts. *)
#[warnings="-register-all"]
Inductive JsVal : Type :=
| JUndef
| JNull
| JBool (b : bool)
| JNum (n : Z)
| JStr (s : string)
| JArr (items : list JsVal)
| JObj (fields : list (string * JsVal)).

(** ToBoolean. *)
Definition truthy (v : JsVal) : bool :=
  match v with
  | JUndef | JNull => false
  | JBool b => b
  | JNum n => negb (n =? 0)
  | JStr s => negb (String.eqb s "")
  | JArr _ | JObj _ => true
  end.

(** [a || b] on values. *)
Definition orElse (a b : JsVal) : JsVal := if truthy a then a else b.

Fixpoint assoc {A} (k : string) (fields : list (string * A)) : option A :=
  match fields with
  | [] => None
  | (k', v) :: rest => if String.eqb k' k then Some v else assoc k rest
  end.

(** [o[k]] on an object that is known to be one: a missing key reads
    [undefined]. *)
Definition field (k : string) (fields : list (string * JsVal)) : JsVal :=
  match assoc k fields with Some v => v | None => JUndef end.

(** [v.k]. Reading a property of [undefined] or [null] throws a TypeError
    ([None]); a primitive has none of the properties the handlers read. *)
Definition get (v : JsVal) (k : string) : option JsVal :=
  match v with
  | JUndef | JNull => None
  | JObj fields => Some (field k fields)
  | _ => Some JUndef
  end.

(** The number read by following the keys [ks] from [v], if there is one. *)
Fixpoint numberAt (ks : list string) (v : JsVal) : option Z :=
  match ks with
  | [] => match v with JNum n => Some n | _ => None end
  | k :: rest =>
      match get v k with
      | Some x => numberAt rest x
      | None => None
      end
  end.

(** [const { k, ...rest } = o]: the object without the key [k]. *)
Definition omit (k : string) (v : JsVal) : JsVal :=
  match v with
  | JObj fields => JObj (List.filter (fun kv => negb (String.eqb (fst kv) k)) fields)
  | _ => JObj []
  end.

(** Whether the key [k] occurs anywhere in the serialised value. *)
Fixpoint mentions (k : string) (v : JsVal) : bool :=
  match v with
  | JArr items => existsb (mentions k) items
  | JObj fields =>
      existsb (fun kv => String.eqb (fst kv) k || mentions k (snd kv)) fields
  | _ => false
  end.

Definition strings (l : list string) : JsVal := JArr (map JStr l).

(** A number that may be NaN, as JSON.stringify writes it. *)
Definition numOrNull (n : option Z) : JsVal :=
  match n with Some z => JNum z | None => JNull end.

Definition strOrNull (s : option string) : JsVal :=
  match s with
  | Some t => if String.eqb t "" then JNull else JStr t
  | None => JNull
  end.

(** A string that is there and truthy: not [undefined], not empty. *)
Definition given (s : option string) : option string :=
  match s with
  | Some t => if String.eqb t "" then None else Some t
  | None => None
  end.

(** [Array.prototype.includes] / [String.prototype.includes]. *)
Definition includes (x : string) (l : list string) : bool :=
  existsb (String.eqb x) l.

Definition strIncludes (needle hay : string) : bool :=
  match String.index 0 needle hay with Some _ => true | None => false end.

(** [Array.prototype.sort] with a comparator: stable, an element moves behind
    another one only when the comparator is positive. *)
Fixpoint insertBy {A} (cmp : A -> A -> Z) (x : A) (l : list A) : list A :=
  match l with
  | [] => [x]
  | y :: rest => if 0 <? cmp x y then y :: insertBy cmp x rest else x :: y :: rest
  end.

Definition sortBy {A} (cmp : A -> A -> Z) (l : list A) : list A :=
  fold_right (fun x acc => insertBy cmp x acc) [] l.

(** [Array.prototype.slice(start, end)] for integral bounds, with NaN read
    as 0 as the language does. *)
Definition slice {A} (start stop : option Z) (l : list A) : list A :=
  let s := Z.to_nat (default 0 start) in
  let e := Z.to_nat (default 0 stop) in
  take (e - s)%nat (drop s l).

(** [Math.ceil(a / b)] for a non-negative [a] and a positive [b]. *)
Definition ceilDiv (a b : Z) : Z := (a + b - 1) / b.

(** The built-ins and libraries the programs call and whose code is not
    theirs. [None] stands for NaN ([parseInt], [dateValue]) or for a thrown
    exception ([jwt_verify]). *)
Class Platform := {
  parseInt : string -> option Z;
  toLowerCase : string -> string;
  isEmail : string -> bool;
  dateValue : string -> option Z;
  jsLt : JsVal -> JsVal -> bool;
  looseEq : JsVal -> JsVal -> bool;
  jwt_sign : JsVal -> string -> string;
  jwt_verify : string -> string -> option JsVal;
  env_JWT_SECRET : option string
}.

(** [process.env.JWT_SECRET || 'dev-secret-change-me'] *)
Definition JWT_SECRET `{Platform} : string :=
  match env_JWT_SECRET with
  | Some s => if String.eqb s "" then "dev-secret-change-me" else s
  | None => "dev-secret-change-me"
  end.

(** An HTTP response: status code and JSON body. *)
Record Response := { statusCode : Z; body : JsVal }.

Definition json (status : Z) (b : JsVal) : Response :=
  {| statusCode := status; body := b |}.

End Js.

Import Js.

(* ===================================================================== *)
(** * Request validation (the zod schemas' checks) *)
(* ===================================================================== *)

Module Zod.

(** One entry of [validation.error.errors]. *)
Record Issue := { path : list string; message : string }.

(** [safeParse]: the issues found, or the parsed (and stripped) data. *)
Definition Parsed (A : Type) : Type := (list Issue + A)%type.

Definition ok {A} (a : A) : Parsed A := inr a.

Definition fail {A} (p : list string) (m : string) : Parsed A :=
  inl [{| path := p; message := m |}].

(** An object schema checks every key and reports all issues. *)
Definition both {A B} (x : Parsed A) (y : Parsed B) : Parsed (A * B) :=
  match x, y with
  | inr a, inr b => inr (a, b)
  | inl e, inr _ => inl e
  | inr _, inl e => inl e
  | inl e1, inl e2 => inl (e1 ++ e2)
  end.

Definition pmap {A B} (f : A -> B) (x : Parsed A) : Parsed B :=
  match x with inl e => inl e | inr a => inr (f a) end.

Fixpoint collect {A} (l : list (Parsed A)) : Parsed (list A) :=
  match l with
  | [] => ok []
  | x :: rest => pmap (fun p => fst p :: snd p) (both x (collect rest))
  end.

Definition typeName (v : JsVal) : string :=
  match v with
  | JUndef => "undefined"
  | JNull => "null"
  | JBool _ => "boolean"
  | JNum _ => "number"
  | JStr _ => "string"
  | JArr _ => "array"
  | JObj _ => "object"
  end.

Definition invalidType {A} (p : list string) (expected : string) (v : JsVal)
  : Parsed A :=
  match v with
  | JUndef => fail p "Required"
  | _ => fail p ("Expected " +:+ expected +:+ ", received " +:+ typeName v)
  end.

(** [z.string().min(1, msg)] *)
Definition zStringMin1 (msg : string) (p : list string) (v : JsVal)
  : Parsed string :=
  match v with
  | JStr s => if String.eqb s "" then fail p msg else ok s
  | _ => invalidType p "string" v
  end.

(** [z.string().email(msg)] *)
Definition zEmail `{Platform} (msg : string) (p : list string) (v : JsVal)
  : Parsed string :=
  match v with
  | JStr s => if isEmail s then ok s else fail p msg
  | _ => invalidType p "string" v
  end.

(** [z.number()] with one bound check [lo <= n]. *)
Definition zNumberMin (lo : Z) (msg : string) (p : list string) (v : JsVal)
  : Parsed Z :=
  match v with
  | JNum n => if lo <=? n then ok n else fail p msg
  | _ => invalidType p "number" v
  end.

(** [util.joinValues(opts)]: the options of an enum as its messages list
    them. *)
Definition joinValues (opts : list string) : string :=
  String.concat " | " (map (fun o => "'" +:+ o +:+ "'") opts).

(** [z.enum(opts)]: a value that is not a string is a type issue whose
    expected type is the list of the options. *)
Definition zEnum (opts : list string) (p : list string) (v : JsVal)
  : Parsed string :=
  match v with
  | JStr s =>
      if includes s opts then ok s
      else fail p ("Invalid enum value. Expected " +:+ joinValues opts
                   +:+ ", received '" +:+ s +:+ "'")
  | _ => invalidType p (joinValues opts) v
  end.

(** [inner.optional()] *)
Definition zOptional {A} (inner : list string -> JsVal -> Parsed A)
  (p : list string) (v : JsVal) : Parsed (option A) :=
  match v with
  | JUndef => ok None
  | _ => pmap Some (inner p v)
  end.

(** [inner.default(d)] *)
Definition zDefault {A} (d : A) (inner : list string -> JsVal -> Parsed A)
  (p : list string) (v : JsVal) : Parsed A :=
  match v with
  | JUndef => ok d
  | _ => inner p v
  end.

(** [z.array(inner)], each element checked under its index. *)
Definition zArray {A} (inner : list string -> JsVal -> Parsed A)
  (p : list string) (v : JsVal) : Parsed (list A) :=
  match v with
  | JArr items =>
      collect (imap (fun i x => inner (p ++ [pretty i]) x) items)
  | _ => invalidType p "array" v
  end.

(** [z.array(inner).min(1, msg)] *)
Definition zArrayMin1 {A} (msg : string)
  (inner : list string -> JsVal -> Parsed A)
  (p : list string) (v : JsVal) : Parsed (list A) :=
  match v with
  | JArr [] => fail p msg
  | _ => zArray inner p v
  end.

(** [z.object({...})] applied to a value: the keys are read from an object,
    anything else is one type issue. *)
Definition zObject {A} (p : list string)
  (keys : list (string * JsVal) -> Parsed A) (v : JsVal) : Parsed A :=
  match v with
  | JObj fields => keys fields
  | _ => invalidType p "object" v
  end.

(** [err.path.join('.')] *)
Fixpoint joinPath (p : list string) : string :=
  match p with
  | [] => ""
  | [x] => x
  | x :: rest => x +:+ "." +:+ joinPath rest
  end.

(** [errors.map(err => ({ field: err.path.join('.'), message: err.message }))] *)
Definition fieldErrors (errs : list Issue) : JsVal :=
  JArr (map (fun e => JObj [("field", JStr (joinPath (path e)));
                            ("message", JStr (message e))]) errs).

End Zod.

Import Zod.

(* ===================================================================== *)
(** * In-memory stores *)
(* ===================================================================== *)

Module Store.

(** [fakeUsersDb] and [fakeOrdersDb] are objects keyed by the records'
    numeric ids. The language enumerates such keys in ascending order
    ([Object.values]), so a store is kept as a list sorted by key. *)
Section Db.
Context {A : Type}.

Fixpoint dbGet (k : Z) (db : list (Z * A)) : option A :=
  match db with
  | [] => None
  | (k', v) :: rest => if k' =? k then Some v else dbGet k rest
  end.

(** [db[k] = v] *)
Fixpoint dbSet (k : Z) (v : A) (db : list (Z * A)) : list (Z * A) :=
  match db with
  | [] => [(k, v)]
  | (k', v') :: rest =>
      if k =? k' then (k, v) :: rest
      else if k <? k' then (k, v) :: (k', v') :: rest
      else (k', v') :: dbSet k v rest
  end.

(** [delete db[k]] *)
Definition dbDelete (k : Z) (db : list (Z * A)) : list (Z * A) :=
  List.filter (fun kv => negb (fst kv =? k)) db.

(** [Object.values(db)] *)
Definition values (db : list (Z * A)) : list A := map snd db.

Definition keys (db : list (Z * A)) : list Z := map fst db.

(** The keys a step added to the store. *)
Definition addedKeys (before after : list (Z * A)) : list Z :=
  List.filter (fun k => negb (existsb (Z.eqb k) (keys before))) (keys after).

End Db.

End Store.

Import Store.

(* ===================================================================== *)
(** * service_users/index.js *)
(* ===================================================================== *)

(** The service in its later revision, which adds the register, login and
    profile routes and the paginating list to the routes of
    service_users/index.js; the routes the two have in common are the same
    code. *)
Module UsersService.

Section Service.
Context `{Platform}.

Definition ROLES_CUSTOMER : string := "Customer".

Definition RoleEnum : list string := ["Customer"; "Engineer"; "Manager"; "Admin"].

(** A record of [fakeUsersDb], as [createUserModel] builds it. *)
Record User := {
  id : Z;
  email : string;
  passwordHash : string;
  name : string;
  roles : list string;
  createdAt : string;
  updatedAt : string
}.

(** The record as the object the program holds and serialises. *)
Definition userObj (u : User) : JsVal :=
  JObj [("id", JNum (id u));
        ("email", JStr (email u));
        ("passwordHash", JStr (passwordHash u));
        ("name", JStr (name u));
        ("roles", strings (roles u));
        ("createdAt", JStr (createdAt u));
        ("updatedAt", JStr (updatedAt u))].

(** [let fakeUsersDb = {}; let currentId = 1;] The counter is an unbounded
    integer: a JavaScript number counts exactly far beyond any number of
    requests a process serves. *)
Record State := { fakeUsersDb : list (Z * User); currentId : Z }.

Definition init : State := {| fakeUsersDb := []; currentId := 1 |}.

(** Parsed request data. *)
Record CreateUserData := {
  cu_email : string;
  cu_password : option string;
  cu_passwordHash : option string;
  cu_name : string;
  cu_roles : list string
}.

Record UpdateUserData := {
  uu_email : option string;
  uu_password : option string;
  uu_passwordHash : option string;
  uu_name : option string;
  uu_roles : option (list string)
}.

(** Whether every key of the body of [POST /users] has the type its schema
    expects, the checks of the strings apart: a key of another type, or a
    role that is not one of the enum, aborts the parse of the object. *)
Definition createUserTyped (v : JsVal) : bool :=
  match v with
  | JObj f =>
      let isString x := match x with JStr _ => true | _ => false end in
      let isOptionalString x :=
        match x with JUndef | JStr _ => true | _ => false end in
      isString (field "email" f)
      && isOptionalString (field "password" f)
      && isOptionalString (field "passwordHash" f)
      && isString (field "name" f)
      && match field "roles" f with
         | JUndef => true
         | JArr rs =>
             forallb (fun r => match r with
                               | JStr s => includes s RoleEnum
                               | _ => false
                               end) rs
         | _ => false
         end
  | _ => false
  end.

(** [data.password || data.passwordHash] on the body. *)
Definition givesCredential (v : JsVal) : bool :=
  match v with
  | JObj f => truthy (field "password" f) || truthy (field "passwordHash" f)
  | _ => false
  end.

(** The issue of [.refine(data => data.password || data.passwordHash, ...)]. *)
Definition credentialIssue : Issue :=
  {| path := ["password"];
     message := "Either password or passwordHash is required" |}.

(** [createUserSchema]. The refinement runs on every body whose parse was
    not aborted, so also after a check of a string has failed: an empty
    [password] counts as none there. *)
Definition createUserSchema (v : JsVal) : Parsed CreateUserData :=
  match
    zObject [] (fun f =>
      both (zEmail "Invalid email format" ["email"] (field "email" f))
     (both (zOptional (zStringMin1 "Password is required") ["password"]
              (field "password" f))
     (both (zOptional (zStringMin1 "Password is required") ["passwordHash"]
              (field "passwordHash" f))
     (both (zStringMin1 "Name is required" ["name"] (field "name" f))
           (zDefault [ROLES_CUSTOMER] (zArray (zEnum RoleEnum)) ["roles"]
              (field "roles" f)))))) v
  with
  | inl errs =>
      if createUserTyped v && negb (givesCredential v)
      then inl (errs ++ [credentialIssue])
      else inl errs
  | inr (e, (pw, (ph, (n, rs)))) =>
      match pw, ph with
      | None, None => inl [credentialIssue]
      | _, _ =>
          ok {| cu_email := e; cu_password := pw; cu_passwordHash := ph;
                cu_name := n; cu_roles := rs |}
      end
  end.

Definition minMessage : string := "String must contain at least 1 character(s)".

Definition updateUserSchema (v : JsVal) : Parsed UpdateUserData :=
  pmap (fun '(e, (pw, (ph, (n, rs)))) =>
          {| uu_email := e; uu_password := pw; uu_passwordHash := ph;
             uu_name := n; uu_roles := rs |})
    (zObject [] (fun f =>
      both (zOptional (zEmail "Invalid email format") ["email"] (field "email" f))
     (both (zOptional (zStringMin1 minMessage) ["password"] (field "password" f))
     (both (zOptional (zStringMin1 minMessage) ["passwordHash"]
              (field "passwordHash" f))
     (both (zOptional (zStringMin1 "Name cannot be empty") ["name"]
              (field "name" f))
           (zOptional (zArray (zEnum RoleEnum)) ["roles"] (field "roles" f))))))
      v).

(** [{ email, password, name }] *)
Definition registerSchema (v : JsVal) : Parsed (string * (string * string)) :=
  zObject [] (fun f =>
    both (zEmail "Invalid email format" ["email"] (field "email" f))
   (both (zStringMin1 "Password is required" ["password"] (field "password" f))
         (zStringMin1 "Name is required" ["name"] (field "name" f)))) v.

(** [{ email, password }] *)
Definition loginSchema (v : JsVal) : Parsed (string * string) :=
  zObject [] (fun f =>
    both (zEmail "Invalid email format" ["email"] (field "email" f))
         (zStringMin1 "Password is required" ["password"] (field "password" f)))
    v.

(** [{ email?, name? }] *)
Definition updateProfileSchema (v : JsVal)
  : Parsed (option string * option string) :=
  zObject [] (fun f =>
    both (zOptional (zEmail "Invalid email format") ["email"] (field "email" f))
         (zOptional (zStringMin1 "Name cannot be empty") ["name"]
            (field "name" f))) v.

(** [return currentId++;] *)
Definition generateUserId (st : State) : Z * State :=
  (currentId st,
   {| fakeUsersDb := fakeUsersDb st; currentId := currentId st + 1 |}).

(** [userData.passwordHash || userData.password]. The schemas leave at least
    one of the two present and non-empty; the empty string stands for data
    that never reaches the function. *)
Definition credential (ph pw : option string) : string :=
  match ph with
  | Some h => if String.eqb h "" then default "" pw else h
  | None => default "" pw
  end.

Definition createUserModel (userData : CreateUserData) (now : string)
  (st : State) : User * State :=
  let (userId, st') := generateUserId st in
  ({| id := userId;
      email := cu_email userData;
      passwordHash := credential (cu_passwordHash userData) (cu_password userData);
      name := cu_name userData;
      roles := cu_roles userData;
      createdAt := now;
      updatedAt := now |}, st').

Definition updateUserModel (existingUser : User) (updates : UpdateUserData)
  (now : string) : User :=
  {| id := id existingUser;
     email := default (email existingUser) (uu_email updates);
     passwordHash := default (passwordHash existingUser) (uu_passwordHash updates);
     name := default (name existingUser) (uu_name updates);
     roles := default (roles existingUser) (uu_roles updates);
     createdAt := createdAt existingUser;
     updatedAt := now |}.

(** [const { passwordHash, ...safeUser } = user; return safeUser;] *)
Definition sanitizeUser (user : User) : JsVal :=
  omit "passwordHash" (userObj user).

(** [jwt.sign({ id, roles }, JWT_SECRET, { expiresIn: '1h' })] *)
Definition generateJwtForUser (user : User) : string :=
  jwt_sign (JObj [("id", JNum (id user)); ("roles", strings (roles user))])
    JWT_SECRET.

Definition setDb (db : list (Z * User)) (st : State) : State :=
  {| fakeUsersDb := db; currentId := currentId st |}.

Definition errorEnvelope (msg : string) : JsVal :=
  JObj [("success", JBool false); ("error", JObj [("message", JStr msg)])].

Definition validationEnvelope (errs : list Issue) : JsVal :=
  JObj [("success", JBool false);
        ("error", JObj [("message", JStr "Validation failed");
                        ("details", fieldErrors errs)])].

Definition validationFailed (errs : list Issue) : JsVal :=
  JObj [("error", JStr "Validation failed"); ("errors", fieldErrors errs)].

Definition findByEmail (e : string) (db : list (Z * User)) : option User :=
  List.find (fun u => String.eqb (email u) e) (values db).

(** [fakeUsersDb[parseInt(req.params.userId)]]; NaN names no record. *)
Definition lookupParam (param : string) (st : State) : option (Z * User) :=
  match parseInt param with
  | Some n => match dbGet n (fakeUsersDb st) with
              | Some u => Some (n, u)
              | None => None
              end
  | None => None
  end.

(** [Object.values(fakeUsersDb).find(u => u.email === e && u.id !== userId)] *)
Definition emailTakenByOther (e : string) (userId : Z) (db : list (Z * User))
  : bool :=
  existsb (fun u => String.eqb (email u) e && negb (id u =? userId)) (values db).

(** The query of [GET /users], each parameter given once at most and as
    the text the URL has for it. A parameter that is repeated or written
    with brackets reaches the handler as an array or an object; a filter can
    then throw, which the catch of the handler answers with 500. Such
    queries are not modelled. *)
Record ListQuery := {
  q_page : option string;
  q_limit : option string;
  q_role : option string;
  q_email : option string;
  q_name : option string;
  q_sortBy : option string;
  q_sortOrder : option string
}.

(** [new Date(v)] as its time value; an invalid date (NaN) compares like
    [undefined]. *)
Definition newDate (v : JsVal) : JsVal :=
  match v with
  | JStr s => match dateValue s with Some ms => JNum ms | None => JUndef end
  | _ => JUndef
  end.

(** The value the comparator of [GET /users] compares for one record. *)
Definition sortKey (sortBy : string) (u : User) : JsVal :=
  let v := match userObj u with JObj f => field sortBy f | _ => JUndef end in
  let v := if String.eqb sortBy "createdAt" || String.eqb sortBy "updatedAt"
           then newDate v else v in
  match v with
  | JStr s => JStr (toLowerCase s)
  | _ => v
  end.

Definition compareUsers (sortBy sortOrder : string) (a b : User) : Z :=
  let aValue := sortKey sortBy a in
  let bValue := sortKey sortBy b in
  if String.eqb sortOrder "desc"
  then (if jsLt aValue bValue then 1 else if jsLt bValue aValue then -1 else 0)
  else (if jsLt bValue aValue then 1 else if jsLt aValue bValue then -1 else 0).

(** [Math.max(1, parseInt(page, 10))], [page = 1] when the query has none. *)
Definition pageOf (page : option string) : option Z :=
  Z.max 1 <$> (match page with None => Some 1 | Some s => parseInt s end).

(** [Math.min(100, Math.max(1, parseInt(limit, 10)))], [limit = 10] by default. *)
Definition limitOf (limit : option string) : option Z :=
  (fun n => Z.min 100 (Z.max 1 n)) <$>
  (match limit with None => Some 10 | Some s => parseInt s end).

Definition startIndexOf (pageNum limitNum : option Z) : option Z :=
  match pageNum, limitNum with
  | Some p, Some l => Some ((p - 1) * l)
  | _, _ => None
  end.

Definition endIndexOf (startIndex limitNum : option Z) : option Z :=
  match startIndex, limitNum with
  | Some s, Some l => Some (s + l)
  | _, _ => None
  end.

Definition paginationObj (pageNum limitNum : option Z) (total : Z) : JsVal :=
  JObj [("page", numOrNull pageNum);
        ("limit", numOrNull limitNum);
        ("total", JNum total);
        ("totalPages", numOrNull (ceilDiv total <$> limitNum))].

Definition listUsers (q : ListQuery) (st : State) : Response :=
  let sortBy := default "createdAt" (q_sortBy q) in
  let sortOrder := default "desc" (q_sortOrder q) in
  let users := values (fakeUsersDb st) in
  let users := match given (q_role q) with
               | Some role => List.filter (fun u => includes role (roles u)) users
               | None => users
               end in
  let users := match given (q_email q) with
               | Some e => List.filter (fun u => strIncludes (toLowerCase e)
                                              (toLowerCase (email u))) users
               | None => users
               end in
  let users := match given (q_name q) with
               | Some n => List.filter (fun u => strIncludes (toLowerCase n)
                                              (toLowerCase (name u))) users
               | None => users
               end in
  let users := Js.sortBy (compareUsers sortBy sortOrder) users in
  let pageNum := pageOf (q_page q) in
  let limitNum := limitOf (q_limit q) in
  let startIndex := startIndexOf pageNum limitNum in
  let endIndex := endIndexOf startIndex limitNum in
  let totalUsers := Z.of_nat (length users) in
  let paginatedUsers := slice startIndex endIndex users in
  let sanitizedUsers := map sanitizeUser paginatedUsers in
  json 200 (JObj [("success", JBool true);
                  ("users", JArr sanitizedUsers);
                  ("pagination", paginationObj pageNum limitNum totalUsers);
                  ("filters", JObj [("role", strOrNull (q_role q));
                                    ("email", strOrNull (q_email q));
                                    ("name", strOrNull (q_name q))]);
                  ("sorting", JObj [("sortBy", JStr sortBy);
                                    ("sortOrder", JStr sortOrder)])]).

(** The routes of the service. [ListAll] is [GET /users] of
    service_users/index.js, which has no query; [List] is the paginating one
    of the later revision; the other routes are the same in both. *)
Inductive Request :=
| Register (body : JsVal)
| Login (body : JsVal)
| GetProfile (userId : string)
| PutProfile (userId : string) (body : JsVal)
| ListAll
| List (q : ListQuery)
| Create (body : JsVal)
| Health
| Status
| Get (userId : string)
| Put (userId : string) (body : JsVal)
| Delete (userId : string).

Definition userNotFound : Response :=
  json 404 (JObj [("error", JStr "User not found")]).

Definition emailExists : Response :=
  json 409 (JObj [("error", JStr "User with this email already exists")]).

Definition register (body : JsVal) (now : string) (st : State)
  : Response * State :=
  match registerSchema body with
  | inl errs => (json 400 (validationEnvelope errs), st)
  | inr (e, (password, n)) =>
      match findByEmail e (fakeUsersDb st) with
      | Some _ =>
          (json 409 (errorEnvelope "User with this email already exists"), st)
      | None =>
          let (newUser, st1) :=
            createUserModel {| cu_email := e; cu_password := Some password;
                               cu_passwordHash := None; cu_name := n;
                               cu_roles := [ROLES_CUSTOMER] |} now st in
          let st2 := setDb (dbSet (id newUser) newUser (fakeUsersDb st1)) st1 in
          let token := generateJwtForUser newUser in
          (json 201 (JObj [("success", JBool true);
                           ("data", JObj [("token", JStr token);
                                          ("user", sanitizeUser newUser)])]),
           st2)
      end
  end.

Definition login (body : JsVal) (st : State) : Response :=
  match loginSchema body with
  | inl errs => json 400 (validationEnvelope errs)
  | inr (e, password) =>
      match findByEmail e (fakeUsersDb st) with
      | Some user =>
          if String.eqb (passwordHash user) password
          then json 200 (JObj [("success", JBool true);
                               ("data", JObj [("token", JStr (generateJwtForUser user));
                                              ("user", sanitizeUser user)])])
          else json 401 (errorEnvelope "Invalid email or password")
      | None => json 401 (errorEnvelope "Invalid email or password")
      end
  end.

Definition getProfile (param : string) (st : State) : Response :=
  match lookupParam param st with
  | None => json 404 (errorEnvelope "User not found")
  | Some (_, user) =>
      json 200 (JObj [("success", JBool true);
                      ("data", JObj [("user", sanitizeUser user)])])
  end.

Definition putProfile (param : string) (body : JsVal) (now : string)
  (st : State) : Response * State :=
  match lookupParam param st with
  | None => (json 404 (errorEnvelope "User not found"), st)
  | Some (userId, user) =>
      match updateProfileSchema body with
      | inl errs => (json 400 (validationEnvelope errs), st)
      | inr (e, n) =>
          if match given e with
             | Some e' => emailTakenByOther e' userId (fakeUsersDb st)
             | None => false
             end
          then (json 409 (errorEnvelope "User with this email already exists"), st)
          else
            let updatedUser :=
              {| id := id user;
                 email := default (email user) e;
                 passwordHash := passwordHash user;
                 name := default (name user) n;
                 roles := roles user;
                 createdAt := createdAt user;
                 updatedAt := now |} in
            (json 200 (JObj [("success", JBool true);
                             ("data", JObj [("user", sanitizeUser updatedUser)])]),
             setDb (dbSet userId updatedUser (fakeUsersDb st)) st)
      end
  end.

Definition create (body : JsVal) (now : string) (st : State)
  : Response * State :=
  match createUserSchema body with
  | inl errs => (json 400 (validationFailed errs), st)
  | inr userData =>
      match findByEmail (cu_email userData) (fakeUsersDb st) with
      | Some _ => (emailExists, st)
      | None =>
          let (newUser, st1) := createUserModel userData now st in
          (json 201 (sanitizeUser newUser),
           setDb (dbSet (id newUser) newUser (fakeUsersDb st1)) st1)
      end
  end.

Definition getUser (param : string) (st : State) : Response :=
  match lookupParam param st with
  | None => userNotFound
  | Some (_, user) => json 200 (sanitizeUser user)
  end.

Definition putUser (param : string) (body : JsVal) (now : string)
  (st : State) : Response * State :=
  match lookupParam param st with
  | None => (userNotFound, st)
  | Some (userId, user) =>
      match updateUserSchema body with
      | inl errs => (json 400 (validationFailed errs), st)
      | inr updates =>
          if match given (uu_email updates) with
             | Some e' => emailTakenByOther e' userId (fakeUsersDb st)
             | None => false
             end
          then (emailExists, st)
          else
            let updatedUser := updateUserModel user updates now in
            (json 200 (sanitizeUser updatedUser),
             setDb (dbSet userId updatedUser (fakeUsersDb st)) st)
      end
  end.

Definition deleteUser (param : string) (st : State) : Response * State :=
  match lookupParam param st with
  | None => (userNotFound, st)
  | Some (userId, deletedUser) =>
      (json 200 (JObj [("message", JStr "User deleted");
                       ("user", sanitizeUser deletedUser)]),
       setDb (dbDelete userId (fakeUsersDb st)) st)
  end.

(** One request served at the time [now] (an ISO timestamp). *)
Definition handle (rq : Request) (now : string) (st : State)
  : Response * State :=
  match rq with
  | Register body => register body now st
  | Login body => (login body st, st)
  | GetProfile p => (getProfile p st, st)
  | PutProfile p body => putProfile p body now st
  | ListAll => (json 200 (JArr (map sanitizeUser (values (fakeUsersDb st)))), st)
  | List q => (listUsers q st, st)
  | Create body => create body now st
  | Health => (json 200 (JObj [("status", JStr "OK");
                               ("service", JStr "Users Service");
                               ("timestamp", JStr now)]), st)
  | Status => (json 200 (JObj [("status", JStr "Users service is running")]), st)
  | Get p => (getUser p st, st)
  | Put p body => putUser p body now st
  | Delete p => deleteUser p st
  end.

(** What one request can do to the store: nothing, add the record the
    counter numbers, replace the record under a key it has, or delete. *)
Inductive Effect (st : State) : State -> Prop :=
| Unchanged : Effect st st
| Created (u : User) :
    id u = currentId st ->
    Effect st {| fakeUsersDb := dbSet (currentId st) u (fakeUsersDb st);
                 currentId := currentId st + 1 |}
| Updated (k : Z) (u : User) :
    In k (keys (fakeUsersDb st)) ->
    Effect st (setDb (dbSet k u (fakeUsersDb st)) st)
| Deleted (k : Z) :
    Effect st (setDb (dbDelete k (fakeUsersDb st)) st).

(** The store is sorted by key and the counter is above every key. *)
Definition Inv (st : State) : Prop :=
  StronglySorted Z.lt (keys (fakeUsersDb st))
  /\ Forall (fun x => x < currentId st) (keys (fakeUsersDb st)).

(** A run of the service: the requests in arrival order with their times. *)
Fixpoint run (rqs : list (Request * string)) (st : State)
  : list Response * State :=
  match rqs with
  | [] => ([], st)
  | (rq, now) :: rest =>
      let (r, st1) := handle rq now st in
      let (rs, st2) := run rest st1 in
      (r :: rs, st2)
  end.

(** The id a creation returns: [data.user.id] of the answer 201 to a
    registration, [id] of the answer 201 to [POST /users]; no other answer
    issues one. *)
Definition issuedId (rq : Request) (r : Response) : option Z :=
  if statusCode r =? 201
  then match rq with
       | Register _ => numberAt ["data"; "user"; "id"] (body r)
       | Create _ => numberAt ["id"] (body r)
       | _ => None
       end
  else None.

(** The ids the creations of a run return, in the order of the answers. *)
Fixpoint issuedIds (rqs : list (Request * string)) (st : State) : list Z :=
  match rqs with
  | [] => []
  | (rq, now) :: rest =>
      let (r, st1) := handle rq now st in
      match issuedId rq r with
      | Some n => n :: issuedIds rest st1
      | None => issuedIds rest st1
      end
  end.

(** The number of answers with the status 201. *)
Definition countCreated (rs : list Response) : nat :=
  length (List.filter (fun r => statusCode r =? 201) rs).

End Service.

End UsersService.

(* ===================================================================== *)
(** * service_orders/index.js *)
(* ===================================================================== *)

Module OrdersService.

Section Service.
Context `{Platform}.

Definition ORDER_STATUS_CREATED : string := "created".

Definition StatusEnum : list string :=
  ["created"; "in_progress"; "completed"; "cancelled"].

(** An item as [OrderItemSchema] parses it. *)
Record OrderItem := {
  productId : string;
  productName : string;
  quantity : Z;
  price : Z
}.

(** An item of a stored order: [{ ...item, subtotal }]. *)
Record ProcessedItem := { item : OrderItem; subtotal : Z }.

(** A record of [fakeOrdersDb], as [createOrderModel] builds it. *)
Record Order := {
  id : Z;
  userId : Z;
  items : list ProcessedItem;
  status : string;
  totalAmount : Z;
  createdAt : string;
  updatedAt : string
}.

Definition itemObj (i : ProcessedItem) : JsVal :=
  JObj [("productId", JStr (productId (item i)));
        ("productName", JStr (productName (item i)));
        ("quantity", JNum (quantity (item i)));
        ("price", JNum (price (item i)));
        ("subtotal", JNum (subtotal i))].

Definition orderObj (o : Order) : JsVal :=
  JObj [("id", JNum (id o));
        ("userId", JNum (userId o));
        ("items", JArr (map itemObj (items o)));
        ("status", JStr (status o));
        ("totalAmount", JNum (totalAmount o));
        ("createdAt", JStr (createdAt o));
        ("updatedAt", JStr (updatedAt o))].

(** [let fakeOrdersDb = {}; let currentId = 1;] *)
Record State := { fakeOrdersDb : list (Z * Order); currentId : Z }.

Definition init : State := {| fakeOrdersDb := []; currentId := 1 |}.

Record CreateOrderData := {
  co_userId : Z;
  co_items : list OrderItem;
  co_totalAmount : option Z;
  co_status : string
}.

Record UpdateOrderData := {
  uo_items : option (list OrderItem);
  uo_totalAmount : option Z;
  uo_status : option string
}.

Definition OrderItemSchema (p : list string) (v : JsVal) : Parsed OrderItem :=
  pmap (fun '(pid, (pname, (q, pr))) =>
          {| productId := pid; productName := pname; quantity := q; price := pr |})
    (zObject p (fun f =>
      both (zStringMin1 "Product ID is required" (p ++ ["productId"])
              (field "productId" f))
     (both (zStringMin1 "Product name is required" (p ++ ["productName"])
              (field "productName" f))
     (both (zNumberMin 1 "Quantity must be at least 1" (p ++ ["quantity"])
              (field "quantity" f))
           (zNumberMin 0 "Price must be non-negative" (p ++ ["price"])
              (field "price" f))))) v).

Definition createOrderSchema (v : JsVal) : Parsed CreateOrderData :=
  pmap (fun '(u, (its, (t, s))) =>
          {| co_userId := u; co_items := its; co_totalAmount := t;
             co_status := s |})
    (zObject [] (fun f =>
      both (zNumberMin 1 "User ID must be a positive integer" ["userId"]
              (field "userId" f))
     (both (zArrayMin1 "Order must contain at least one item" OrderItemSchema
              ["items"] (field "items" f))
     (both (zOptional (zNumberMin 0 "Total amount must be non-negative")
              ["totalAmount"] (field "totalAmount" f))
           (zDefault ORDER_STATUS_CREATED (zEnum StatusEnum) ["status"]
              (field "status" f))))) v).

Definition updateOrderSchema (v : JsVal) : Parsed UpdateOrderData :=
  pmap (fun '(its, (t, s)) =>
          {| uo_items := its; uo_totalAmount := t; uo_status := s |})
    (zObject [] (fun f =>
      both (zOptional (zArray OrderItemSchema) ["items"] (field "items" f))
     (both (zOptional (zNumberMin 0 "Total amount must be non-negative")
              ["totalAmount"] (field "totalAmount" f))
           (zOptional (zEnum StatusEnum) ["status"] (field "status" f)))) v).

(** [items.map(item => ({ ...item, subtotal: item.quantity * item.price }))].
    The product is the one of the integers; the one of the code is the same
    as long as it is a safe integer (at most 2^53 - 1), and rounded above. *)
Definition processOrderItems (its : list OrderItem) : list ProcessedItem :=
  map (fun i => {| item := i; subtotal := quantity i * price i |}) its.

(** [processedItems.reduce((sum, item) => sum + item.subtotal, 0)], with the
    same proviso as for the products. *)
Definition sumSubtotals (its : list ProcessedItem) : Z :=
  fold_left (fun sum i => sum + subtotal i) its 0.

(** [return currentId++;] *)
Definition generateOrderId (st : State) : Z * State :=
  (currentId st,
   {| fakeOrdersDb := fakeOrdersDb st; currentId := currentId st + 1 |}).

Definition createOrderModel (orderData : CreateOrderData) (now : string)
  (st : State) : Order * State :=
  let processedItems := processOrderItems (co_items orderData) in
  let totalAmount :=
    match co_totalAmount orderData with
    | Some t => if t =? 0 then sumSubtotals processedItems else t
    | None => sumSubtotals processedItems
    end in
  let (orderId, st') := generateOrderId st in
  ({| id := orderId;
      userId := co_userId orderData;
      items := processedItems;
      status := if String.eqb (co_status orderData) ""
                then ORDER_STATUS_CREATED else co_status orderData;
      totalAmount := totalAmount;
      createdAt := now;
      updatedAt := now |}, st').

Definition updateOrderModel (existingOrder : Order) (updateData : UpdateOrderData)
  (now : string) : Order :=
  let spreadTotal := default (totalAmount existingOrder) (uo_totalAmount updateData) in
  {| id := id existingOrder;
     userId := userId existingOrder;
     items := match uo_items updateData with
              | Some its => processOrderItems its
              | None => items existingOrder
              end;
     status := default (status existingOrder) (uo_status updateData);
     totalAmount :=
       match uo_items updateData with
       | Some its =>
           match uo_totalAmount updateData with
           | Some t => if t =? 0 then sumSubtotals (processOrderItems its) else t
           | None => sumSubtotals (processOrderItems its)
           end
       | None => spreadTotal
       end;
     createdAt := createdAt existingOrder;
     updatedAt := now |}.

Definition setDb (db : list (Z * Order)) (st : State) : State :=
  {| fakeOrdersDb := db; currentId := currentId st |}.

(** [fakeOrdersDb[req.params.orderId]]: the parameter is the property name
    itself, so it names the record whose id prints as that string. The
    store of the code is a plain object, which also answers to the names
    every object inherits ([constructor], [toString], [__proto__], ...): the
    code finds a value there that is no order, and an update leaves a record
    under such a name. These names are not part of the model, which holds
    the orders under their numeric ids. *)
Definition lookupParam (param : string) (st : State) : option (Z * Order) :=
  List.find (fun kv => String.eqb (pretty (fst kv)) param) (fakeOrdersDb st).

Definition failure (status : Z) (msg : string) : Response :=
  json status (JObj [("success", JBool false); ("error", JStr msg)]).

Definition success (status : Z) (data : JsVal) : Response :=
  json status (JObj [("success", JBool true); ("data", data)]).

Definition validationFailed (errs : list Issue) : Response :=
  json 400 (JObj [("success", JBool false);
                  ("error", JStr "Validation failed");
                  ("errors", fieldErrors errs)]).

(** [new Date(v)] as its time value, [None] for an invalid date. *)
Definition timeOf (s : string) : option Z := dateValue s.

(** [(a, b) => new Date(b.createdAt) - new Date(a.createdAt)]; a NaN
    difference leaves the pair in place. *)
Definition newestFirst (a b : Order) : Z :=
  match timeOf (createdAt b), timeOf (createdAt a) with
  | Some tb, Some ta => tb - ta
  | _, _ => 0
  end.

(** The query of [GET /orders]. *)
Record ListQuery := { q_userId : option string; q_status : option string }.

Definition byUser (n : option Z) (o : Order) : bool :=
  match n with Some u => userId o =? u | None => false end.

Definition listOrders (q : ListQuery) (st : State) : Response :=
  let orders := values (fakeOrdersDb st) in
  let orders := match given (q_userId q) with
                | Some u => List.filter (byUser (parseInt u)) orders
                | None => orders
                end in
  let orders := match given (q_status q) with
                | Some s => List.filter (fun o => String.eqb (status o) s) orders
                | None => orders
                end in
  success 200 (JArr (map orderObj (sortBy newestFirst orders))).

(** The query of [GET /orders/user/:userId]. *)
Record UserQuery := {
  uq_status : option string;
  uq_sortBy : option string;
  uq_sortOrder : option string;
  uq_page : option string;
  uq_limit : option string
}.

Definition sortKey (sortBy : string) (o : Order) : JsVal :=
  let v := match orderObj o with JObj f => field sortBy f | _ => JUndef end in
  if String.eqb sortBy "createdAt" || String.eqb sortBy "updatedAt"
  then match v with
       | JStr s => match dateValue s with Some ms => JNum ms | None => JUndef end
       | _ => JUndef
       end
  else v.

Definition compareOrders (sortBy sortOrder : string) (a b : Order) : Z :=
  let valueA := sortKey sortBy a in
  let valueB := sortKey sortBy b in
  if String.eqb sortOrder "asc"
  then (if jsLt valueB valueA then 1 else if jsLt valueA valueB then -1 else 0)
  else (if jsLt valueA valueB then 1 else if jsLt valueB valueA then -1 else 0).

(** [parseInt(x) || d] *)
Definition parseOr (d : Z) (x : option string) : Z :=
  match x with
  | Some s => match parseInt s with
              | Some n => if n =? 0 then d else n
              | None => d
              end
  | None => d
  end.

Definition listUserOrders (param : string) (q : UserQuery) (st : State)
  : Response :=
  let orders := List.filter (byUser (parseInt param)) (values (fakeOrdersDb st)) in
  let orders := match given (uq_status q) with
                | Some s => List.filter (fun o => String.eqb (status o) s) orders
                | None => orders
                end in
  let sortBy := default "createdAt" (given (uq_sortBy q)) in
  let sortOrder := default "desc" (given (uq_sortOrder q)) in
  let orders := Js.sortBy (compareOrders sortBy sortOrder) orders in
  let pageNum := Z.max 1 (parseOr 1 (uq_page q)) in
  let limitNum := Z.min 100 (Z.max 1 (parseOr 10 (uq_limit q))) in
  let startIndex := (pageNum - 1) * limitNum in
  let endIndex := startIndex + limitNum in
  let totalOrders := Z.of_nat (length orders) in
  let totalPages := ceilDiv totalOrders limitNum in
  let paginatedOrders := slice (Some startIndex) (Some endIndex) orders in
  json 200 (JObj [("success", JBool true);
                  ("orders", JArr (map orderObj paginatedOrders));
                  ("pagination", JObj [("page", JNum pageNum);
                                       ("limit", JNum limitNum);
                                       ("total", JNum totalOrders);
                                       ("totalPages", JNum totalPages)]);
                  ("filters", JObj [("status", strOrNull (uq_status q))]);
                  ("sorting", JObj [("sortBy", JStr sortBy);
                                    ("sortOrder", JStr sortOrder)])]).

(** [POST /orders]. [userExists] is the outcome of [checkUserExists]: whether
    the users service answered the lookup of the id with a 2xx status, or
    [true] when the lookup itself failed. *)
Definition create (body : JsVal) (userExists : Z -> bool) (now : string)
  (st : State) : Response * State :=
  match createOrderSchema body with
  | inl errs => (validationFailed errs, st)
  | inr orderData =>
      if userExists (co_userId orderData)
      then
        let (newOrder, st1) := createOrderModel orderData now st in
        (success 201 (orderObj newOrder),
         setDb (dbSet (id newOrder) newOrder (fakeOrdersDb st1)) st1)
      else (failure 404 "User not found", st)
  end.

Definition getOrder (param : string) (st : State) : Response :=
  match lookupParam param st with
  | None => failure 404 "Order not found"
  | Some (_, order) => success 200 (orderObj order)
  end.

Definition putOrder (param : string) (body : JsVal) (now : string) (st : State)
  : Response * State :=
  match lookupParam param st with
  | None => (failure 404 "Order not found", st)
  | Some (key, existingOrder) =>
      match updateOrderSchema body with
      | inl errs => (validationFailed errs, st)
      | inr updateData =>
          let updatedOrder := updateOrderModel existingOrder updateData now in
          (success 200 (orderObj updatedOrder),
           setDb (dbSet key updatedOrder (fakeOrdersDb st)) st)
      end
  end.

Definition deleteOrder (param : string) (st : State) : Response * State :=
  match lookupParam param st with
  | None => (failure 404 "Order not found", st)
  | Some (key, deletedOrder) =>
      (json 200 (JObj [("success", JBool true);
                       ("message", JStr "Order deleted successfully");
                       ("data", orderObj deletedOrder)]),
       setDb (dbDelete key (fakeOrdersDb st)) st)
  end.

Inductive Request :=
| Status
| Health
| Get (orderId : string)
| List (q : ListQuery)
| ListUser (userId : string) (q : UserQuery)
| Create (body : JsVal)
| Put (orderId : string) (body : JsVal)
| Delete (orderId : string).

(** One request served at the time [now]. *)
Definition handle (rq : Request) (userExists : Z -> bool) (now : string)
  (st : State) : Response * State :=
  match rq with
  | Status => (json 200 (JObj [("status", JStr "Orders service is running")]), st)
  | Health => (json 200 (JObj [("status", JStr "OK");
                               ("service", JStr "Orders Service");
                               ("timestamp", JStr now)]), st)
  | Get p => (getOrder p st, st)
  | List q => (listOrders q st, st)
  | ListUser p q => (listUserOrders p q st, st)
  | Create body => create body userExists now st
  | Put p body => putOrder p body now st
  | Delete p => deleteOrder p st
  end.

Inductive Effect (st : State) : State -> Prop :=
| Unchanged : Effect st st
| Created (o : Order) :
    id o = currentId st ->
    Effect st {| fakeOrdersDb := dbSet (currentId st) o (fakeOrdersDb st);
                 currentId := currentId st + 1 |}
| Updated (k : Z) (o : Order) :
    In k (keys (fakeOrdersDb st)) ->
    Effect st (setDb (dbSet k o (fakeOrdersDb st)) st)
| Deleted (k : Z) :
    Effect st (setDb (dbDelete k (fakeOrdersDb st)) st).

Definition Inv (st : State) : Prop :=
  StronglySorted Z.lt (keys (fakeOrdersDb st))
  /\ Forall (fun x => x < currentId st) (keys (fakeOrdersDb st)).

(** A run of the orders service: the requests in arrival order, each with
    the outcome of the user lookup and its time. *)
Fixpoint run (rqs : list (Request * (Z -> bool) * string)) (st : State)
  : list Response * State :=
  match rqs with
  | [] => ([], st)
  | (rq, userExists, now) :: rest =>
      let (r, st1) := handle rq userExists now st in
      let (rs, st2) := run rest st1 in
      (r :: rs, st2)
  end.

(** The id a creation returns: [data.id] of the answer 201 to [POST /orders];
    no other answer issues one. *)
Definition issuedId (rq : Request) (r : Response) : option Z :=
  if statusCode r =? 201
  then match rq with
       | Create _ => numberAt ["data"; "id"] (body r)
       | _ => None
       end
  else None.

(** The ids the creations of a run return, in the order of the answers. *)
Fixpoint issuedIds (rqs : list (Request * (Z -> bool) * string)) (st : State)
  : list Z :=
  match rqs with
  | [] => []
  | (rq, userExists, now) :: rest =>
      let (r, st1) := handle rq userExists now st in
      match issuedId rq r with
      | Some n => n :: issuedIds rest st1
      | None => issuedIds rest st1
      end
  end.

(** The number of answers with the status 201. *)
Definition countCreated (rs : list Response) : nat :=
  length (List.filter (fun r => statusCode r =? 201) rs).

End Service.

End OrdersService.

(* ===================================================================== *)
(** * The circuit breaker *)
(* ===================================================================== *)

Module Breaker.

(** Modelled from the spec: the breaker the gateway instantiates
    ([new CircuitBreaker(action, circuitOptions)]) is a dependency whose code
    is not in the repository. The state machine below follows the component
    design of the specification (states Closed, Open and Half-Open, the
    transition and timeout policies, the fallback); its constants are the
    ones of [circuitOptions] in api_gateway/index.js. The specification does
    not say how the rolling window forgets old calls, so the window statistics
    are the calls recorded since the counters were last reset. *)
Inductive Phase := Closed | Open | HalfOpen.

Record WindowStats := { requests : Z; failures : Z }.

Record State := {
  state : Phase;
  consecutiveFailures : Z;
  windowStats : WindowStats;
  openedAt : Z
}.

Record Options := {
  timeout : Z;
  errorThresholdPercentage : Z;
  resetTimeout : Z;
  minimumSamples : Z
}.

(** [const circuitOptions = { timeout: 3000, errorThresholdPercentage: 50,
    resetTimeout: 3000 }]. The minimum sample size is not set there and is
    left to the caller. *)
Definition circuitOptions (samples : Z) : Options :=
  {| timeout := 3000;
     errorThresholdPercentage := 50;
     resetTimeout := 3000;
     minimumSamples := samples |}.

Definition init : State :=
  {| state := Closed;
     consecutiveFailures := 0;
     windowStats := {| requests := 0; failures := 0 |};
     openedAt := 0 |}.

(** Modelled from the spec: the breaker's transition test, which is part of
    the dependency. The failure ratio of the window exceeds the threshold, on
    a sample that is large enough. *)
Definition tripped (o : Options) (w : WindowStats) : bool :=
  (minimumSamples o <=? requests w)
  && (errorThresholdPercentage o * requests w <? 100 * failures w).

Inductive Admission := Pass (st : State) | ShortCircuit.

(** Modelled from the spec: the breaker's handling of an incoming call,
    which is part of the dependency. In Closed the call passes; in Open it is
    short-circuited until the cool-down has elapsed since [openedAt], then
    the breaker turns Half-Open and the call is its probe; while a probe is
    out, every other call is short-circuited. *)
Definition entry (o : Options) (now : Z) (st : State) : Admission :=
  match state st with
  | Closed => Pass st
  | Open =>
      if resetTimeout o <=? now - openedAt st
      then Pass {| state := HalfOpen;
                   consecutiveFailures := consecutiveFailures st;
                   windowStats := windowStats st;
                   openedAt := openedAt st |}
      else ShortCircuit
  | HalfOpen => ShortCircuit
  end.

Definition record (succeeded : bool) (w : WindowStats) : WindowStats :=
  {| requests := requests w + 1;
     failures := if succeeded then failures w else failures w + 1 |}.

(** Modelled from the spec: the breaker's bookkeeping, which is part of the
    dependency. The outcome of a call that was let through is recorded at the
    time [now]: a probe closes the breaker and resets the counters, or opens
    it again; a call through the closed breaker is counted and opens it when
    the window then exceeds the threshold. *)
Definition settle (o : Options) (now : Z) (succeeded : bool) (st : State)
  : State :=
  match state st with
  | HalfOpen =>
      if succeeded
      then {| state := Closed;
              consecutiveFailures := 0;
              windowStats := {| requests := 0; failures := 0 |};
              openedAt := openedAt st |}
      else {| state := Open;
              consecutiveFailures := consecutiveFailures st + 1;
              windowStats := windowStats st;
              openedAt := now |}
  | Closed =>
      let w := record succeeded (windowStats st) in
      let c := if succeeded then 0 else consecutiveFailures st + 1 in
      if tripped o w
      then {| state := Open; consecutiveFailures := c; windowStats := w;
              openedAt := now |}
      else {| state := Closed; consecutiveFailures := c; windowStats := w;
              openedAt := openedAt st |}
  | Open => st
  end.

(** What the network made of one outbound request: a response with its
    status and body after [elapsed] milliseconds, a transport failure
    (connection refused, DNS failure), or no answer at all. *)
Inductive Transport :=
| Responded (elapsed : Z) (status : Z) (data : JsVal)
| Failed
| Silent.

Inductive Settled := Resolved (v : JsVal) | Rejected.

(** [validateStatus: () => true] *)
Definition validateStatus (status : Z) : bool := true.

(** The action both breakers wrap, from api_gateway/index.js:
    [const response = await axios({ url, ...options, validateStatus: () => true });
     return { data: response.data, status: response.status };]
    The HTTP client resolves a response whose status [validateStatus] accepts
    and rejects the others and the transport failures. *)
Definition action (t : Transport) : Settled :=
  match t with
  | Responded _ status data =>
      if validateStatus status
      then Resolved (JObj [("data", data); ("status", JNum status)])
      else Rejected
  | Failed => Rejected
  | Silent => Rejected
  end.

(** Modelled from the spec: the breaker's timeout, which is part of the
    dependency. The call is bounded by the timeout: an answer that takes
    longer, or never comes, is a failure. *)
Definition timedOut (o : Options) (t : Transport) : bool :=
  match t with
  | Responded elapsed _ _ => timeout o <? elapsed
  | Failed => false
  | Silent => true
  end.

(** The result the breaker sees for a call that was let through. *)
Definition outcome (o : Options) (t : Transport) : Settled :=
  if timedOut o t then Rejected else action t.

(** Whether the breaker records the call as a failure. *)
Definition isFailure (o : Options) (t : Transport) : bool :=
  match outcome o t with Resolved _ => false | Rejected => true end.

(** Closed, with no failure in the window. *)
Definition Healthy (b : State) : Prop :=
  state b = Closed /\ failures (windowStats b) = 0 /\ 0 <= requests (windowStats b).

End Breaker.

(* ===================================================================== *)
(** * The rate limiter *)
(* ===================================================================== *)

Module RateLimiter.

(** Modelled from the spec: the limiter middleware ([rateLimit({...})]) is a
    dependency whose code is not in the repository. The model follows the
    component design of the specification: one counting window per client
    key and limiter, reset when the window has elapsed; on a limiter that
    skips successful requests, a request that ends with a status below 400
    gives its slot back. The options are the ones api_gateway/index.js
    passes. *)
Record Bucket := { windowStart : Z; count : Z }.

Record Options := {
  windowMs : Z;
  max : Z;
  message : JsVal;
  skipSuccessfulRequests : bool
}.

Definition generalLimiter : Options :=
  {| windowMs := 15 * 60 * 1000;
     max := 100;
     message := JObj [("success", JBool false);
                      ("error", JStr "Too many requests from this IP, please try again later.")];
     skipSuccessfulRequests := false |}.

Definition authLimiter : Options :=
  {| windowMs := 15 * 60 * 1000;
     max := 5;
     message := JObj [("success", JBool false);
                      ("error", JStr "Too many authentication attempts, please try again later.")];
     skipSuccessfulRequests := true |}.

(** Modelled from the spec: the limiter's window, which is part of the
    dependency. The client's bucket at the time [now] is the stored one while
    its window lasts, a fresh one otherwise. *)
Definition current (o : Options) (now : Z) (b : option Bucket) : Bucket :=
  match b with
  | Some b =>
      if now <? windowStart b + windowMs o then b
      else {| windowStart := now; count := 0 |}
  | None => {| windowStart := now; count := 0 |}
  end.

(** Modelled from the spec: the limiter's counting, which is part of the
    dependency. One request of the client is counted; the result is the count
    it reached. *)
Definition hit (o : Options) (now : Z) (clientKey : string)
  (store : gmap string Bucket) : Z * gmap string Bucket :=
  let b := current o now (store !! clientKey) in
  (count b + 1,
   <[clientKey := {| windowStart := windowStart b; count := count b + 1 |}]> store).

(** Modelled from the spec: the limiter's verdict, which is part of the
    dependency. Throttled once the count exceeds the maximum. *)
Definition throttled (o : Options) (hits : Z) : bool := max o <? hits.

(** Modelled from the spec: the limiter's treatment of a request that
    succeeded, which is part of the dependency. Its slot is given back. *)
Definition refund (clientKey : string) (store : gmap string Bucket)
  : gmap string Bucket :=
  match store !! clientKey with
  | Some b =>
      <[clientKey := {| windowStart := windowStart b;
                        count := Z.max 0 (count b - 1) |}]> store
  | None => store
  end.

(** Modelled from the spec: what the limiter takes for a request that
    succeeded, which is part of the dependency. *)
Definition succeeded (r : Response) : bool := statusCode r <? 400.

End RateLimiter.

(* ===================================================================== *)
(** * The gateway's domain events module *)
(* ===================================================================== *)

Module Events.

Definition ORDER_CREATED : string := "order.created".
Definition ORDER_STATUS_UPDATED : string := "order.status.updated".
Definition ORDER_CANCELLED : string := "order.cancelled".

(** [class DomainEvent]. The id is
    [`${Date.now()}-${Math.random().toString(36).substr(2, 9)}`] and the
    timestamp the current time; both are given by the caller. *)
Record DomainEvent := {
  id : string;
  type : string;
  data : JsVal;
  aggregateId : JsVal;
  timestamp : string;
  version : string
}.

Definition newDomainEvent (eventId now : string) (type : string) (data : JsVal)
  (aggregateId : JsVal) : DomainEvent :=
  {| id := eventId; type := type; data := data; aggregateId := aggregateId;
     timestamp := now; version := "1.0" |}.

(** [new OrderCreatedEvent(order)], [order] being an object. *)
Definition OrderCreatedEvent (eventId now : string)
  (order : list (string * JsVal)) : DomainEvent :=
  newDomainEvent eventId now ORDER_CREATED
    (JObj [("orderId", field "id" order);
           ("userId", field "userId" order);
           ("items", field "items" order);
           ("totalAmount", field "totalAmount" order);
           ("status", field "status" order);
           ("createdAt", field "createdAt" order)])
    (field "id" order).

Definition OrderStatusUpdatedEvent (eventId now : string)
  (orderId oldStatus newStatus updatedBy : JsVal) : DomainEvent :=
  newDomainEvent eventId now ORDER_STATUS_UPDATED
    (JObj [("orderId", orderId);
           ("oldStatus", oldStatus);
           ("newStatus", newStatus);
           ("updatedBy", updatedBy);
           ("updatedAt", JStr now)])
    orderId.

Definition OrderCancelledEvent (eventId now : string)
  (orderId reason cancelledBy : JsVal) : DomainEvent :=
  newDomainEvent eventId now ORDER_CANCELLED
    (JObj [("orderId", orderId);
           ("reason", orElse reason (JStr "Cancelled by user request"));
           ("cancelledBy", cancelledBy);
           ("cancelledAt", JStr now)])
    orderId.

(** The methods of [OrderEventHandlers] the gateway subscribes. *)
Inductive Handler :=
| handleOrderCreated
| handleOrderStatusUpdated
| handleOrderCancelled.

(** A handler reads the fields of [event.data] it logs; it fails when
    [event.data] is not there to read. *)
Definition runHandler (h : Handler) (e : DomainEvent) : option JsVal :=
  match h with
  | handleOrderCreated =>
      orderId ← get (data e) "orderId";
      userId ← get (data e) "userId";
      totalAmount ← get (data e) "totalAmount";
      Some (JObj [("orderId", orderId); ("userId", userId);
                  ("totalAmount", totalAmount)])
  | handleOrderStatusUpdated =>
      orderId ← get (data e) "orderId";
      oldStatus ← get (data e) "oldStatus";
      newStatus ← get (data e) "newStatus";
      updatedBy ← get (data e) "updatedBy";
      Some (JObj [("orderId", orderId); ("oldStatus", oldStatus);
                  ("newStatus", newStatus); ("updatedBy", updatedBy)])
  | handleOrderCancelled =>
      orderId ← get (data e) "orderId";
      reason ← get (data e) "reason";
      cancelledBy ← get (data e) "cancelledBy";
      Some (JObj [("orderId", orderId); ("reason", reason);
                  ("cancelledBy", cancelledBy)])
  end.

(** [class EventPublisher]: the subscribers by event type, the dormant broker
    (never connected: [messageBroker = null]) and its switch, and what the
    publisher did so far: the events handed to
    [publish], the local deliveries that succeeded and the events sent to the
    broker. *)
Record EventPublisher := {
  subscribers : gmap string (list Handler);
  messageBroker : option string;
  isMessageBrokerEnabled : bool;
  published : list DomainEvent;
  delivered : list (Handler * DomainEvent);
  brokered : list DomainEvent
}.

Definition newEventPublisher : EventPublisher :=
  {| subscribers := ∅; messageBroker := None; isMessageBrokerEnabled := false;
     published := []; delivered := []; brokered := [] |}.

Definition subscribe (eventType : string) (handler : Handler)
  (p : EventPublisher) : EventPublisher :=
  {| subscribers :=
       <[eventType := default [] (subscribers p !! eventType) ++ [handler]]>
         (subscribers p);
     messageBroker := messageBroker p;
     isMessageBrokerEnabled := isMessageBrokerEnabled p;
     published := published p;
     delivered := delivered p;
     brokered := brokered p |}.

(** [notifyLocalSubscribers]: the handlers of the event's type in
    subscription order; a failing handler is logged and skipped. *)
Definition notifyLocalSubscribers (e : DomainEvent) (p : EventPublisher)
  : list (Handler * DomainEvent) :=
  let handlers := default [] (subscribers p !! type e) in
  omap (fun h => match runHandler h e with
                 | Some _ => Some (h, e)
                 | None => None
                 end) handlers.

Definition publish (e : DomainEvent) (p : EventPublisher) : EventPublisher :=
  {| subscribers := subscribers p;
     messageBroker := messageBroker p;
     isMessageBrokerEnabled := isMessageBrokerEnabled p;
     published := published p ++ [e];
     delivered := delivered p ++ notifyLocalSubscribers e p;
     brokered := if isMessageBrokerEnabled p && bool_decide (is_Some (messageBroker p))
                 then brokered p ++ [e]
                 else brokered p |}.

(** The publisher as api_gateway/index.js sets it up. *)
Definition eventPublisher : EventPublisher :=
  subscribe ORDER_CANCELLED handleOrderCancelled
    (subscribe ORDER_STATUS_UPDATED handleOrderStatusUpdated
       (subscribe ORDER_CREATED handleOrderCreated newEventPublisher)).

End Events.

(* ===================================================================== *)
(** * api_gateway/index.js *)
(* ===================================================================== *)

(** The gateway in the revision that has the rate limiters, the role guard
    on every protected route and the domain events; the two breakers, their
    fallbacks and the forwarding handlers are the same code in the other
    revisions. *)
Module Gateway.

Import Breaker RateLimiter.

Inductive Circuit := usersCircuit | ordersCircuit.

Inductive Method := GET | POST | PUT | DELETE | PATCH.

(** The second argument of [circuit.fire(url, options)]; [options = {}] is a
    GET without data. *)
Record AxiosOptions := { method : Method; data : JsVal }.

Definition noOptions : AxiosOptions := {| method := GET; data := JUndef |}.

(** An outbound request as it leaves the gateway. *)
Record Outbound := { circuit : Circuit; url : string; options : AxiosOptions }.

(** What a handler reads of the inbound request: the client address, the
    Authorization header, the path parameter of the route ([:userId] or
    [:orderId]), the query, the JSON body, and [req.user] once the token is
    verified. *)
Record Request := {
  ip : string;
  authorization : option string;
  param : string;
  query : list (string * string);
  body : JsVal;
  user : JsVal
}.

(** The clock and the randomness one request consumes: [Date.now()], the
    same instant as an ISO string, and the id of the event it may create. *)
Record Clock := { nowMs : Z; nowIso : string; eventId : string }.

(** The state of the gateway process: the stores of the two limiters, the
    two breakers, the publisher, and the outbound requests sent so far. *)
Record State := {
  generalStore : gmap string Bucket;
  authStore : gmap string Bucket;
  users : Breaker.State;
  orders : Breaker.State;
  publisher : Events.EventPublisher;
  sent : list Outbound
}.

Definition init : State :=
  {| generalStore := ∅; authStore := ∅;
     users := Breaker.init; orders := Breaker.init;
     publisher := Events.eventPublisher; sent := [] |}.

Definition USERS_SERVICE_URL : string := "http://service_users:8000".
Definition ORDERS_SERVICE_URL : string := "http://service_orders:8000".

(** [usersCircuit.fallback(...)], [ordersCircuit.fallback(...)] *)
Definition fallback (c : Circuit) : JsVal :=
  match c with
  | usersCircuit => JObj [("error", JStr "Users service temporarily unavailable")]
  | ordersCircuit => JObj [("error", JStr "Orders service temporarily unavailable")]
  end.

Definition breaker (c : Circuit) (st : State) : Breaker.State :=
  match c with usersCircuit => users st | ordersCircuit => orders st end.

Definition setBreaker (c : Circuit) (b : Breaker.State) (st : State) : State :=
  {| generalStore := generalStore st; authStore := authStore st;
     users := match c with usersCircuit => b | ordersCircuit => users st end;
     orders := match c with usersCircuit => orders st | ordersCircuit => b end;
     publisher := publisher st; sent := sent st |}.

Definition logSent (rq : Outbound) (st : State) : State :=
  {| generalStore := generalStore st; authStore := authStore st;
     users := users st; orders := orders st;
     publisher := publisher st; sent := sent st ++ [rq] |}.

Definition setPublisher (p : Events.EventPublisher) (st : State) : State :=
  {| generalStore := generalStore st; authStore := authStore st;
     users := users st; orders := orders st;
     publisher := p; sent := sent st |}.

(** The two limiter instances and their stores. *)
Inductive Limiter := general | auth.

Definition limiterOptions (l : Limiter) : RateLimiter.Options :=
  match l with general => generalLimiter | auth => authLimiter end.

Definition store (l : Limiter) (st : State) : gmap string Bucket :=
  match l with general => generalStore st | auth => authStore st end.

Definition setStore (l : Limiter) (s : gmap string Bucket) (st : State) : State :=
  {| generalStore := match l with general => s | auth => generalStore st end;
     authStore := match l with general => authStore st | auth => s end;
     users := users st; orders := orders st;
     publisher := publisher st; sent := sent st |}.

(** Template literals: [`${v}`]. *)
Fixpoint toStr (v : JsVal) : string :=
  match v with
  | JUndef => "undefined"
  | JNull => "null"
  | JBool b => if b then "true" else "false"
  | JNum n => pretty n
  | JStr s => s
  | JArr items =>
      String.concat ","
        (map (fun x => match x with JUndef | JNull => "" | _ => toStr x end) items)
  | JObj _ => "[object Object]"
  end.

(** [v === n] for a number [n]. *)
Definition isNum (n : Z) (v : JsVal) : bool :=
  match v with JNum m => m =? n | _ => false end.

(** [res.status(status).json(body)]. A status that is not an integer from
    100 to 999 makes the framework throw before anything is sent ([None]). *)
Definition send (status body : JsVal) : option Response :=
  match status with
  | JNum n => if (100 <=? n) && (n <=? 999) then Some (json n body) else None
  | _ => None
  end.

(** [res.status(result.status).json(result.data)] *)
Definition respond (result : JsVal) : option Response :=
  status ← get result "status";
  data ← get result "data";
  send status data.

Definition internalError : Response :=
  json 500 (JObj [("error", JStr "Internal server error")]).

Definition internalErrorEnvelope : Response :=
  json 500 (JObj [("success", JBool false); ("error", JStr "Internal server error")]).

Section Dispatch.
Context `{Platform}.

(** The world outside the gateway: its state and what it answers to an
    outbound request. [samples] is the breakers' minimum sample size. *)
Context {W : Type}.
Variable net : Outbound -> W -> Transport * W.
Variable samples : Z.

(** Effects of the gateway: its own state and the world. *)
Definition M (A : Type) : Type := State * W -> A * (State * W).

Definition ret {A} (a : A) : M A := fun s => (a, s).

Definition bind {A B} (m : M A) (k : A -> M B) : M B :=
  fun s => let (a, s') := m s in k a s'.

Notation "'let*' x ':=' m 'in' k" := (bind m (fun x => k))
  (at level 10, x name, k at level 200).

Definition modify (f : State -> State) : M unit :=
  fun s => (tt, (f (fst s), snd s)).

(** Modelled from the spec: [circuit.fire(url, options)], the method of the
    breaker dependency, around the action and the fallback the gateway
    registers. The call is short-circuited to the fallback or sent to the
    network; a rejected or timed-out call yields the fallback too. *)
Definition fire (k : Clock) (c : Circuit) (u : string) (o : AxiosOptions)
  : M JsVal :=
  fun s =>
    let (st, w) := s in
    match entry (circuitOptions samples) (nowMs k) (breaker c st) with
    | ShortCircuit => (fallback c, (st, w))
    | Pass b =>
        let rq := {| circuit := c; url := u; options := o |} in
        let (t, w') := net rq w in
        let b' := settle (circuitOptions samples) (nowMs k)
                    (negb (isFailure (circuitOptions samples) t)) b in
        (match outcome (circuitOptions samples) t with
         | Resolved v => v
         | Rejected => fallback c
         end,
         (setBreaker c b' (logSent rq st), w'))
    end.

Definition Handler : Type := Clock -> Request -> M Response.

(** An Express middleware: it answers itself or calls [next]. *)
Definition Middleware : Type := Clock -> Request -> (Request -> M Response) -> M Response.

(** Modelled from the spec: the middleware [rateLimit(options)] returns,
    which is part of the limiter dependency, on the store of the limiter
    [l]. A throttled request gets the configured message with status 429 and
    goes no further. *)
Definition rateLimit (l : Limiter) : Middleware :=
  fun k req next s =>
    let (st, w) := s in
    let o := limiterOptions l in
    let (hits, store') := hit o (nowMs k) (ip req) (store l st) in
    let st1 := setStore l store' st in
    if throttled o hits then (json 429 (message o), (st1, w))
    else
      let '(res, (st2, w2)) := next req (st1, w) in
      if skipSuccessfulRequests o && succeeded res
      then (res, (setStore l (refund (ip req) (store l st2)) st2, w2))
      else (res, (st2, w2)).

Definition unauthorized (msg : string) : Response :=
  json 401 (JObj [("success", JBool false); ("error", JObj [("message", JStr msg)])]).

Definition forbidden (msg : string) : Response :=
  json 403 (JObj [("success", JBool false); ("error", JObj [("message", JStr msg)])]).

(** [authHeader && authHeader.startsWith('Bearer ') ? authHeader.substring(7) : null] *)
Definition bearerToken (authHeader : option string) : option string :=
  match authHeader with
  | Some h =>
      if String.prefix "Bearer " h
      then Some (String.substring 7 (String.length h - 7) h)
      else None
  | None => None
  end.

Definition withUser (decoded : JsVal) (req : Request) : Request :=
  {| ip := ip req; authorization := authorization req; param := param req;
     query := query req; body := body req; user := decoded |}.

Definition authenticateJWT : Middleware :=
  fun k req next =>
    match given (bearerToken (authorization req)) with
    | None => ret (unauthorized "Access token is missing or invalid")
    | Some token =>
        match jwt_verify token JWT_SECRET with
        | Some decoded => next (withUser decoded req)
        | None => ret (unauthorized "Invalid or expired token")
        end
    end.

(** [req.user.roles.includes(role)] *)
Definition rolesInclude (roles : list JsVal) (role : string) : bool :=
  existsb (fun v => match v with JStr s => String.eqb s role | _ => false end)
    roles.

(** [allowedRoles.some(role => req.user.roles.includes(role))] *)
Definition hasPermission (allowedRoles : list string) (roles : list JsVal) : bool :=
  existsb (rolesInclude roles) allowedRoles.

Definition requireRoles (allowedRoles : list string) : Middleware :=
  fun k req next =>
    if negb (truthy (user req))
    then ret (unauthorized "Authentication required")
    else
      match get (user req) "roles" with
      | Some (JArr roles) =>
          if hasPermission allowedRoles roles then next req
          else ret (forbidden ("Access denied. Required roles: "
                               +:+ String.concat ", " allowedRoles))
      | _ => ret (forbidden "User roles not found")
      end.

(** The handlers that only forward:
    [const result = await circuit.fire(url, options);
     res.status(result.status).json(result.data);]
    inside [try]/[catch], the [catch] answering 500. The URL is [None] when
    building it throws. *)
Definition proxy (c : Circuit) (u : option string) (o : AxiosOptions)
  (k : Clock) : M Response :=
  match u with
  | None => ret internalError
  | Some u =>
      let* result := fire k c u o in
      ret (default internalError (respond result))
  end.

(** [result.status === n && result.data && result.data.success] *)
Definition succeededWith (n : Z) (result : JsVal) : bool :=
  match get result "status", get result "data" with
  | Some s, Some d =>
      isNum n s && truthy d
      && match get d "success" with Some v => truthy v | None => false end
  | _, _ => false
  end.

Definition publish (e : option Events.DomainEvent) : M unit :=
  match e with
  | Some e => modify (fun st => setPublisher (Events.publish e (publisher st)) st)
  | None => ret tt
  end.

(** The event of [POST /orders]; [None] when building it throws, which the
    handler logs and ignores. *)
Definition orderCreatedEvent (k : Clock) (req : Request) (result : JsVal)
  : option Events.DomainEvent :=
  d ← get result "data";
  dd ← get d "data";
  let orderData := orElse dd d in
  orderId ← get orderData "id";
  userId ← get (user req) "id";
  items ← get orderData "items";
  items' ← (if truthy items then Some items else get (body req) "items");
  totalAmount ← get orderData "totalAmount";
  status ← get orderData "status";
  createdAt ← get orderData "createdAt";
  Some (Events.OrderCreatedEvent (eventId k) (nowIso k)
          [("id", orderId);
           ("userId", userId);
           ("items", items');
           ("totalAmount", totalAmount);
           ("status", orElse status (JStr "pending"));
           ("createdAt", orElse createdAt (JStr (nowIso k)))]).

(** [POST /orders] *)
Definition createOrder : Handler :=
  fun k req =>
    let* result := fire k ordersCircuit (ORDERS_SERVICE_URL +:+ "/orders")
                     {| method := POST; data := body req |} in
    let* _ := (if succeededWith 201 result
               then publish (orderCreatedEvent k req result)
               else ret tt) in
    ret (default internalError (respond result)).

(** The status the order had, read for the event only. *)
Definition oldStatusOf (currentOrderResult : JsVal) : JsVal :=
  match get currentOrderResult "status", get currentOrderResult "data" with
  | Some s, Some d =>
      if isNum 200 s && truthy d
      then match get d "data" with
           | Some dd => match get (orElse dd d) "status" with
                        | Some v => v
                        | None => JNull
                        end
           | None => JNull
           end
      else JNull
  | _, _ => JNull
  end.

(** [PATCH /orders/:orderId/status] *)
Definition patchOrderStatus : Handler :=
  fun k req =>
    match get (body req) "status" with
    | None => ret internalError
    | Some newStatus =>
        let orderId := param req in
        let* currentOrderResult :=
          fire k ordersCircuit (ORDERS_SERVICE_URL +:+ "/orders/" +:+ orderId)
            noOptions in
        let oldStatus := oldStatusOf currentOrderResult in
        let* result :=
          fire k ordersCircuit
            (ORDERS_SERVICE_URL +:+ "/orders/" +:+ orderId +:+ "/status")
            {| method := PATCH; data := body req |} in
        let* _ := (if succeededWith 200 result
                   then publish (updatedBy ← get (user req) "id";
                                 Some (Events.OrderStatusUpdatedEvent (eventId k)
                                         (nowIso k) (JStr orderId) oldStatus
                                         newStatus updatedBy))
                   else ret tt) in
        ret (default internalError (respond result))
    end.

(** [PATCH /orders/:orderId/cancel] *)
Definition cancelOrder : Handler :=
  fun k req =>
    let orderId := param req in
    let* result :=
      fire k ordersCircuit
        (ORDERS_SERVICE_URL +:+ "/orders/" +:+ orderId +:+ "/cancel")
        {| method := PATCH; data := JUndef |} in
    let* _ := (if succeededWith 200 result
               then publish (reason ← get (body req) "reason";
                             cancelledBy ← get (user req) "id";
                             Some (Events.OrderCancelledEvent (eventId k) (nowIso k)
                                     (JStr orderId)
                                     (orElse reason (JStr "Cancelled by admin/manager"))
                                     cancelledBy))
               else ret tt) in
    ret (default internalError (respond result)).

(** [data.filter(order => order.userId == userId)]; [None] when reading
    [order.userId] throws. *)
Fixpoint ordersOf (userId : string) (l : list JsVal) : option (list JsVal) :=
  match l with
  | [] => Some []
  | order :: rest =>
      v ← get order "userId";
      rest' ← ordersOf userId rest;
      Some (if looseEq v (JStr userId) then order :: rest' else rest')
  end.

(** [ordersResult.data.data ? ordersResult.data.data.filter(...) : []] *)
Definition userOrders (userId : string) (ordersResult : JsVal)
  : option (list JsVal) :=
  d ← get ordersResult "data";
  dd ← get d "data";
  if truthy dd
  then match dd with
       | JArr l => ordersOf userId l
       | _ => None
       end
  else Some [].

(** What [GET /users/:userId/details] answers once both calls are back. *)
Definition aggregate (userId : string) (userResult ordersResult : JsVal)
  : Response :=
  match get userResult "status" with
  | None => internalErrorEnvelope
  | Some s =>
      if isNum 404 s
      then json 404 (JObj [("success", JBool false); ("error", JStr "User not found")])
      else
        match userOrders userId ordersResult, get userResult "data" with
        | Some orders, Some u =>
            json 200 (JObj [("success", JBool true);
                            ("data", JObj [("user", u); ("orders", JArr orders)])])
        | _, _ => internalErrorEnvelope
        end
  end.

(** [GET /users/:userId/details]: both calls are started, then awaited. *)
Definition userDetails : Handler :=
  fun k req =>
    let userId := param req in
    let* userResult :=
      fire k usersCircuit (USERS_SERVICE_URL +:+ "/users/" +:+ userId) noOptions in
    let* ordersResult :=
      fire k ordersCircuit (ORDERS_SERVICE_URL +:+ "/orders") noOptions in
    ret (aggregate userId userResult ordersResult).

(** The routes of the gateway (all under [/api/v1]). *)
Inductive Route :=
| UsersStatus | UsersHealth | GetProfile | PutProfile | GetUser | CreateUser
| ListUsers | DeleteUser | PutUser | Register | Login
| OrdersHealth | OrdersStatus | MyOrders | GetOrder | CreateOrder | ListOrders
| DeleteOrder | PatchOrderStatus | CancelOrder | PutOrder
| UserDetails | Health | Status.

(** The middlewares a route is declared with, after the general limiter
    that [app.use] puts before every route. *)
Inductive Guard :=
| AuthLimiter
| AuthenticateJWT
| RequireRoles (allowedRoles : list string).

Definition guards (r : Route) : list Guard :=
  match r with
  | UsersStatus | UsersHealth => []
  | GetProfile | PutProfile => [AuthenticateJWT]
  | GetUser => [AuthenticateJWT; RequireRoles ["Manager"; "Admin"]]
  | CreateUser => [AuthenticateJWT; RequireRoles ["Admin"]]
  | ListUsers => [AuthenticateJWT; RequireRoles ["Manager"; "Admin"]]
  | DeleteUser => [AuthenticateJWT; RequireRoles ["Admin"]]
  | PutUser => [AuthenticateJWT; RequireRoles ["Admin"]]
  | Register | Login => [AuthLimiter]
  | OrdersHealth | OrdersStatus => []
  | MyOrders => [AuthenticateJWT]
  | GetOrder => [AuthenticateJWT; RequireRoles ["Engineer"; "Manager"; "Admin"]]
  | CreateOrder => [AuthenticateJWT; RequireRoles ["Customer"; "Manager"; "Admin"]]
  | ListOrders => [AuthenticateJWT; RequireRoles ["Engineer"; "Manager"; "Admin"]]
  | DeleteOrder => [AuthenticateJWT; RequireRoles ["Manager"; "Admin"]]
  | PatchOrderStatus => [AuthenticateJWT; RequireRoles ["Engineer"; "Manager"; "Admin"]]
  | CancelOrder => [AuthenticateJWT; RequireRoles ["Manager"; "Admin"]]
  | PutOrder => [AuthenticateJWT; RequireRoles ["Manager"; "Admin"]]
  | UserDetails => [AuthenticateJWT; RequireRoles ["Manager"; "Admin"]]
  | Health | Status => []
  end.

Definition middleware (g : Guard) : Middleware :=
  match g with
  | AuthLimiter => rateLimit auth
  | AuthenticateJWT => authenticateJWT
  | RequireRoles allowedRoles => requireRoles allowedRoles
  end.

(** The handlers whose answers the properties below do not depend on: the
    paginating list of users, the caller's own orders and the health report
    are taken as they come. *)
Variable listUsersHandler myOrdersHandler healthHandler : Handler.

(** [`${USERS_SERVICE_URL}/users/profile/${req.user.id}`] *)
Definition profileUrl (req : Request) : option string :=
  userId ← get (user req) "id";
  Some (USERS_SERVICE_URL +:+ "/users/profile/" +:+ toStr userId).

Definition handler (r : Route) : Handler :=
  fun k req =>
    match r with
    | UsersStatus =>
        proxy usersCircuit (Some (USERS_SERVICE_URL +:+ "/users/status")) noOptions k
    | UsersHealth =>
        proxy usersCircuit (Some (USERS_SERVICE_URL +:+ "/users/health")) noOptions k
    | GetProfile => proxy usersCircuit (profileUrl req) noOptions k
    | PutProfile =>
        proxy usersCircuit (profileUrl req) {| method := PUT; data := body req |} k
    | GetUser =>
        proxy usersCircuit (Some (USERS_SERVICE_URL +:+ "/users/" +:+ param req))
          noOptions k
    | CreateUser =>
        proxy usersCircuit (Some (USERS_SERVICE_URL +:+ "/users"))
          {| method := POST; data := body req |} k
    | ListUsers => listUsersHandler k req
    | DeleteUser =>
        proxy usersCircuit (Some (USERS_SERVICE_URL +:+ "/users/" +:+ param req))
          {| method := DELETE; data := JUndef |} k
    | PutUser =>
        proxy usersCircuit (Some (USERS_SERVICE_URL +:+ "/users/" +:+ param req))
          {| method := PUT; data := body req |} k
    | Register =>
        proxy usersCircuit (Some (USERS_SERVICE_URL +:+ "/users/register"))
          {| method := POST; data := body req |} k
    | Login =>
        proxy usersCircuit (Some (USERS_SERVICE_URL +:+ "/users/login"))
          {| method := POST; data := body req |} k
    | OrdersHealth =>
        proxy ordersCircuit (Some (ORDERS_SERVICE_URL +:+ "/orders/health")) noOptions k
    | OrdersStatus =>
        proxy ordersCircuit (Some (ORDERS_SERVICE_URL +:+ "/orders/status")) noOptions k
    | MyOrders => myOrdersHandler k req
    | GetOrder =>
        proxy ordersCircuit (Some (ORDERS_SERVICE_URL +:+ "/orders/" +:+ param req))
          noOptions k
    | CreateOrder => createOrder k req
    | ListOrders =>
        proxy ordersCircuit (Some (ORDERS_SERVICE_URL +:+ "/orders")) noOptions k
    | DeleteOrder =>
        proxy ordersCircuit (Some (ORDERS_SERVICE_URL +:+ "/orders/" +:+ param req))
          {| method := DELETE; data := JUndef |} k
    | PatchOrderStatus => patchOrderStatus k req
    | CancelOrder => cancelOrder k req
    | PutOrder =>
        proxy ordersCircuit (Some (ORDERS_SERVICE_URL +:+ "/orders/" +:+ param req))
          {| method := PUT; data := body req |} k
    | UserDetails => userDetails k req
    | Health => healthHandler k req
    | Status => ret (json 200 (JObj [("status", JStr "API Gateway is running")]))
    end.

(** The middlewares of a route in order, then its handler. *)
Fixpoint chain (mws : list Middleware) (h : Handler) (k : Clock) (req : Request)
  : M Response :=
  match mws with
  | [] => h k req
  | mw :: rest => mw k req (fun req' => chain rest h k req')
  end.

(** One inbound request on the route [r]: the general limiter, the route's
    middlewares, the handler. *)
Definition dispatch (r : Route) (k : Clock) (req : Request) : M Response :=
  rateLimit general k req (chain (map middleware (guards r)) (handler r) k).

(** Calls through one breaker, one after the other. *)
Fixpoint fireAll (c : Circuit) (calls : list (Clock * string * AxiosOptions))
  : M (list JsVal) :=
  match calls with
  | [] => ret []
  | (k, u, o) :: rest =>
      let* r := fire k c u o in
      let* rs := fireAll c rest in
      ret (r :: rs)
  end.

(** A request without a credential the Auth Guard accepts: no header, a
    header that carries no bearer token, or a token whose verification
    throws (bad signature, expired, not a token). *)
Definition invalidCredential (req : Request) : Prop :=
  match given (bearerToken (authorization req)) with
  | None => True
  | Some token => jwt_verify token JWT_SECRET = None
  end.

(** The general limiter lets the request of this client through. *)
Definition passesLimiter (k : Clock) (req : Request) (st : State) : Prop :=
  throttled generalLimiter
    (fst (hit generalLimiter (nowMs k) (ip req) (generalStore st))) = false.

(** Several requests one after the other. *)
Fixpoint serve (rqs : list (Route * Clock * Request)) : M (list Response) :=
  match rqs with
  | [] => ret []
  | (r, k, req) :: rest =>
      let* res := dispatch r k req in
      let* more := serve rest in
      ret (res :: more)
  end.

End Dispatch.

End Gateway.

(* ===================================================================== *)
(** * The three programs together *)
(* ===================================================================== *)

Module Deployment.

Import Gateway.

Section World.
Context `{Platform}.

(** The two services as the gateway reaches them (the users service in its
    later revision, which has the register and login routes), the time they
    read when they serve a request, and how long an answer takes. *)
Record World := {
  usersState : UsersService.State;
  ordersState : OrdersService.State;
  serviceTime : string;
  latency : Z
}.

Fixpoint splitOn (sep : ascii) (s : string) : list string :=
  match s with
  | EmptyString => [""]
  | String c rest =>
      if Ascii.eqb c sep then "" :: splitOn sep rest
      else match splitOn sep rest with
           | [] => [String c ""]
           | h :: t => String c h :: t
           end
  end.

(** The path segments and the query of a URL under [base]. *)
Definition target (base u : string) : option (list string * list (string * string)) :=
  if String.prefix base u
  then
    let rest := String.substring (String.length base) (String.length u - String.length base) u in
    match splitOn "?"%char rest with
    | [] => None
    | p :: q =>
        Some (List.tl (splitOn "/"%char p),
              match q with
              | [] => []
              | qs :: _ =>
                  map (fun kv => match splitOn "="%char kv with
                                 | [] => ("", "")
                                 | a :: b => (a, String.concat "=" b)
                                 end) (splitOn "&"%char qs)
              end)
    end
  else None.

(** The router of the users service, in the order the routes are declared.
    Query values are taken as they are written in the URL. *)
Definition usersRoute (m : Method) (segs : list string)
  (q : list (string * string)) (b : JsVal) : option UsersService.Request :=
  match m, segs with
  | POST, ["users"; "register"] => Some (UsersService.Register b)
  | POST, ["users"; "login"] => Some (UsersService.Login b)
  | GET, ["users"; "profile"; p] => Some (UsersService.GetProfile p)
  | PUT, ["users"; "profile"; p] => Some (UsersService.PutProfile p b)
  | GET, ["users"] =>
      Some (UsersService.List
              {| UsersService.q_page := assoc "page" q;
                 UsersService.q_limit := assoc "limit" q;
                 UsersService.q_role := assoc "role" q;
                 UsersService.q_email := assoc "email" q;
                 UsersService.q_name := assoc "name" q;
                 UsersService.q_sortBy := assoc "sortBy" q;
                 UsersService.q_sortOrder := assoc "sortOrder" q |})
  | POST, ["users"] => Some (UsersService.Create b)
  | GET, ["users"; "health"] => Some UsersService.Health
  | GET, ["users"; "status"] => Some UsersService.Status
  | GET, ["users"; p] => Some (UsersService.Get p)
  | PUT, ["users"; p] => Some (UsersService.Put p b)
  | DELETE, ["users"; p] => Some (UsersService.Delete p)
  | _, _ => None
  end.

(** The router of the orders service. *)
Definition ordersRoute (m : Method) (segs : list string)
  (q : list (string * string)) (b : JsVal) : option OrdersService.Request :=
  match m, segs with
  | GET, ["orders"; "status"] => Some OrdersService.Status
  | GET, ["orders"; "health"] => Some OrdersService.Health
  | GET, ["orders"; p] => Some (OrdersService.Get p)
  | GET, ["orders"] =>
      Some (OrdersService.List
              {| OrdersService.q_userId := assoc "userId" q;
                 OrdersService.q_status := assoc "status" q |})
  | GET, ["orders"; "user"; p] =>
      Some (OrdersService.ListUser p
              {| OrdersService.uq_status := assoc "status" q;
                 OrdersService.uq_sortBy := assoc "sortBy" q;
                 OrdersService.uq_sortOrder := assoc "sortOrder" q;
                 OrdersService.uq_page := assoc "page" q;
                 OrdersService.uq_limit := assoc "limit" q |})
  | POST, ["orders"] => Some (OrdersService.Create b)
  | PUT, ["orders"; p] => Some (OrdersService.Put p b)
  | DELETE, ["orders"; p] => Some (OrdersService.Delete p)
  | _, _ => None
  end.

(** [checkUserExists]: the orders service fetches [/users/${userId}] from
    the users service and takes [response.ok]; when the fetch throws, the
    catch answers [true]. [us] is the users service the fetch reaches, [None]
    when it reaches none. *)
Definition checkUserExists (us : option UsersService.State) (userId : Z) : bool :=
  match us with
  | Some us =>
      let response := UsersService.getUser (pretty userId) us in
      (200 <=? statusCode response) && (statusCode response <? 300)
  | None => true
  end.

(** The answer of the framework when no route matches: a 404 whose body is
    its error page, which no handler of the gateway looks into. *)
Definition noRoute : Response := json 404 (JStr "Not Found").

Definition setUsers (us : UsersService.State) (w : World) : World :=
  {| usersState := us; ordersState := ordersState w;
     serviceTime := serviceTime w; latency := latency w |}.

Definition setOrders (os : OrdersService.State) (w : World) : World :=
  {| usersState := usersState w; ordersState := os;
     serviceTime := serviceTime w; latency := latency w |}.

(** A healthy network: every outbound request reaches its service, which
    answers after [latency w] milliseconds. *)
Definition net (rq : Outbound) (w : World) : Breaker.Transport * World :=
  let m := method (options rq) in
  let b := data (options rq) in
  match circuit rq with
  | usersCircuit =>
      match target USERS_SERVICE_URL (url rq) with
      | Some (segs, q) =>
          match usersRoute m segs q b with
          | Some r =>
              let (res, us) := UsersService.handle r (serviceTime w) (usersState w) in
              (Breaker.Responded (latency w) (statusCode res) (Js.body res),
               setUsers us w)
          | None =>
              (Breaker.Responded (latency w) (statusCode noRoute) (Js.body noRoute), w)
          end
      | None => (Breaker.Failed, w)
      end
  | ordersCircuit =>
      match target ORDERS_SERVICE_URL (url rq) with
      | Some (segs, q) =>
          match ordersRoute m segs q b with
          | Some r =>
              let (res, os) :=
                OrdersService.handle r (checkUserExists (Some (usersState w)))
                  (serviceTime w) (ordersState w) in
              (Breaker.Responded (latency w) (statusCode res) (Js.body res),
               setOrders os w)
          | None =>
              (Breaker.Responded (latency w) (statusCode noRoute) (Js.body noRoute), w)
          end
      | None => (Breaker.Failed, w)
      end
  end.

End World.

(** A platform to run the models on: decimal [parseInt], ASCII-only
    helpers, a token that is its payload's subject. It stands in for the
    built-ins only where a concrete run is computed. *)
Definition digitValue (c : ascii) : option Z :=
  let n := Z.of_nat (nat_of_ascii c) in
  if (48 <=? n) && (n <=? 57) then Some (n - 48) else None.

Fixpoint digits (acc : option Z) (s : string) : option Z :=
  match s with
  | EmptyString => acc
  | String c rest =>
      match digitValue c with
      | Some d => digits (Some (10 * default 0 acc + d)) rest
      | None => acc
      end
  end.

Definition demoPlatform : Platform :=
  {| parseInt := digits None;
     toLowerCase := fun s => s;
     isEmail := strIncludes "@";
     dateValue := digits None;
     jsLt := fun a b => match a, b with
                        | JNum x, JNum y => x <? y
                        | JStr x, JStr y => bool_decide (String.compare x y = Lt)
                        | _, _ => false
                        end;
     looseEq := fun a b => match a, b with
                           | JNum x, JNum y => x =? y
                           | JStr x, JStr y => String.eqb x y
                           | JNum x, JStr y => bool_decide (digits None y = Some x)
                           | JStr x, JNum y => bool_decide (digits None x = Some y)
                           | _, _ => false
                           end;
     jwt_sign := fun payload secret =>
                   match payload with
                   | JObj f => "token-" +:+ Gateway.toStr (field "id" f)
                   | _ => "token"
                   end;
     jwt_verify := fun token secret =>
                     if String.eqb token "manager-token"
                     then Some (JObj [("id", JNum 7); ("roles", strings ["Manager"])])
                     else if String.eqb token "customer-token"
                     then Some (JObj [("id", JNum 1); ("roles", strings ["Customer"])])
                     else None;
     env_JWT_SECRET := None |}.

End Deployment.

(* ===================================================================== *)
(** * The scenarios of the specification *)
(* ===================================================================== *)

Module Scenario.

Import Breaker RateLimiter Gateway Deployment.

Section Scenario.
Context `{Platform}.
Variable samples : Z.

(** The outbound request of [POST /users/login]. *)
Definition loginCall (req : Request) : Outbound :=
  {| circuit := usersCircuit;
     url := USERS_SERVICE_URL +:+ "/users/login";
     options := {| method := POST; data := body req |} |}.

(** What the users service answers to a login that fails. *)
Definition invalidLogin : Response :=
  json 401 (UsersService.errorEnvelope "Invalid email or password").

(** What the credential-issuing limiter answers when it throttles. *)
Definition throttledLogin : Response := json 429 (message authLimiter).

(** The body is a well-formed login for an account of the store, with a
    password that is not the account's. *)
Definition wrongPassword (b : JsVal) (us : UsersService.State) : Prop :=
  exists e pw u,
    UsersService.loginSchema b = inr (e, pw)
    /\ UsersService.findByEmail e (UsersService.fakeUsersDb us) = Some u
    /\ UsersService.passwordHash u <> pw.

Definition rightPassword (b : JsVal) (us : UsersService.State) : Prop :=
  exists e pw u,
    UsersService.loginSchema b = inr (e, pw)
    /\ UsersService.findByEmail e (UsersService.fakeUsersDb us) = Some u
    /\ UsersService.passwordHash u = pw.

(** The gateway after a login attempt that was forwarded and failed. *)
Definition afterLogin (k : Clock) (req : Request) (st : State) : State :=
  {| generalStore := snd (hit generalLimiter (nowMs k) (ip req) (generalStore st));
     authStore := snd (hit authLimiter (nowMs k) (ip req) (authStore st));
     users := settle (circuitOptions samples) (nowMs k) true (users st);
     orders := orders st;
     publisher := publisher st;
     sent := sent st ++ [loginCall req] |}.

(** The gateway after a login attempt the limiter has throttled. *)
Definition afterThrottle (k : Clock) (req : Request) (st : State) : State :=
  {| generalStore := snd (hit generalLimiter (nowMs k) (ip req) (generalStore st));
     authStore := snd (hit authLimiter (nowMs k) (ip req) (authStore st));
     users := users st;
     orders := orders st;
     publisher := publisher st;
     sent := sent st |}.

(** The gateway after a login that succeeded. *)
Definition afterSuccess (k : Clock) (req : Request) (st : State) : State :=
  {| generalStore := snd (hit generalLimiter (nowMs k) (ip req) (generalStore st));
     authStore := refund (ip req)
                    (snd (hit authLimiter (nowMs k) (ip req) (authStore st)));
     users := settle (circuitOptions samples) (nowMs k) true (users st);
     orders := orders st;
     publisher := publisher st;
     sent := sent st ++ [loginCall req] |}.

(** The client's two buckets hold [n] requests of the window that began at
    [t1], and the users breaker is healthy. *)
Definition Counted (client : string) (t1 n : Z) (st : State) : Prop :=
  Healthy (users st)
  /\ authStore st !! client = Some {| windowStart := t1; count := n |}
  /\ generalStore st !! client = Some {| windowStart := t1; count := n |}.

(** One login attempt of the client at the time [k]. *)
Definition attempt (req : Request) (k : Clock) : Route * Clock * Request :=
  (Login, k, req).

(** The outbound request of [POST /orders]. *)
Definition createOrderCall (req : Request) : Outbound :=
  {| circuit := ordersCircuit;
     url := ORDERS_SERVICE_URL +:+ "/orders";
     options := {| method := POST; data := body req |} |}.

(** [{ userId, items: [{ productId: "p1", productName, quantity: 2, price: 10 }] }] *)
Definition orderBody (userId : Z) (productName : string) : JsVal :=
  JObj [("userId", JNum userId);
        ("items", JArr [JObj [("productId", JStr "p1");
                              ("productName", JStr productName);
                              ("quantity", JNum 2);
                              ("price", JNum 10)]])].

(** The same without the product name, as the specification's scenario
    writes the item. *)
Definition orderBodyAsSpecified (userId : Z) : JsVal :=
  JObj [("userId", JNum userId);
        ("items", JArr [JObj [("productId", JStr "p1");
                              ("quantity", JNum 2);
                              ("price", JNum 10)]])].

(** The items of the scenario, which are also the items the gateway's API
    document requires of a [CreateOrderRequest]: a product id, a quantity
    and a price. *)
Definition scenarioItems : JsVal :=
  JArr [JObj [("productId", JStr "p1");
              ("quantity", JNum 2);
              ("price", JNum 10)]].

(** The body as the API document describes it: the items only. *)
Definition orderBodyAsDocumented : JsVal := JObj [("items", scenarioItems)].

Definition orderData (userId : Z) (productName : string)
  : OrdersService.CreateOrderData :=
  {| OrdersService.co_userId := userId;
     OrdersService.co_items :=
       [{| OrdersService.productId := "p1";
           OrdersService.productName := productName;
           OrdersService.quantity := 2;
           OrdersService.price := 10 |}];
     OrdersService.co_totalAmount := None;
     OrdersService.co_status := "created" |}.

(** The order the service stores for that body. *)
Definition newOrder (userId : Z) (productName now : string)
  (os : OrdersService.State) : OrdersService.Order :=
  {| OrdersService.id := OrdersService.currentId os;
     OrdersService.userId := userId;
     OrdersService.items :=
       [{| OrdersService.item :=
             {| OrdersService.productId := "p1";
                OrdersService.productName := productName;
                OrdersService.quantity := 2;
                OrdersService.price := 10 |};
           OrdersService.subtotal := 20 |}];
     OrdersService.status := "created";
     OrdersService.totalAmount := 20;
     OrdersService.createdAt := now;
     OrdersService.updatedAt := now |}.

Definition ordersAfter (userId : Z) (productName now : string)
  (os : OrdersService.State) : OrdersService.State :=
  {| OrdersService.fakeOrdersDb :=
       dbSet (OrdersService.currentId os) (newOrder userId productName now os)
         (OrdersService.fakeOrdersDb os);
     OrdersService.currentId := OrdersService.currentId os + 1 |}.

(** The event the gateway builds from the service's answer. *)
Definition createdEvent (k : Clock) (claimedId : JsVal) (o : OrdersService.Order)
  : Events.DomainEvent :=
  Events.OrderCreatedEvent (eventId k) (nowIso k)
    [("id", JNum (OrdersService.id o));
     ("userId", claimedId);
     ("items", JArr (map OrdersService.itemObj (OrdersService.items o)));
     ("totalAmount", JNum (OrdersService.totalAmount o));
     ("status", JStr (OrdersService.status o));
     ("createdAt", orElse (JStr (OrdersService.createdAt o)) (JStr (nowIso k)))].

End Scenario.

End Scenario.

(* ===================================================================== *)
(** * Concrete runs *)
(* ===================================================================== *)

Module Samples.

Import Breaker Gateway Deployment.

(** A network on which every call fails in transport. *)
Definition failingNet (rq : Outbound) (w : unit) : Transport * unit := (Failed, w).

(** A network on which the upstream answers every call with a 500. *)
Definition erroringNet (rq : Outbound) (w : unit) : Transport * unit :=
  (Responded 20 500 (JObj [("error", JStr "Internal server error")]), w).

Definition soon : Clock := {| nowMs := 100; nowIso := "now"; eventId := "e1" |}.

Definition at_ (t : Z) : Clock := {| nowMs := t; nowIso := "now"; eventId := "e1" |}.

Definition openBreaker : Breaker.State :=
  {| state := Open; consecutiveFailures := 3;
     windowStats := {| requests := 4; failures := 3 |}; openedAt := 50 |}.

Definition ann : UsersService.User :=
  {| UsersService.id := 1;
     UsersService.email := "ann@example.com";
     UsersService.passwordHash := "right";
     UsersService.name := "Ann";
     UsersService.roles := ["Customer"];
     UsersService.createdAt := "t0";
     UsersService.updatedAt := "t0" |}.

(** One registered user, no order yet, answers after 20 ms. *)
Definition world : World :=
  {| usersState := {| UsersService.fakeUsersDb := [(1, ann)];
                      UsersService.currentId := 2 |};
     ordersState := OrdersService.init;
     serviceTime := "t1";
     latency := 20 |}.

Definition unmodelled : Handler (W := World) := fun _ _ => ret internalError.

Definition request (authorization : option string) (param : string) (body : JsVal)
  : Request :=
  {| ip := "10.0.0.1"; authorization := authorization; param := param;
     query := []; body := body; user := JUndef |}.

Definition anonymous : Request := request None "1" JUndef.

Definition manager : Request := request (Some "Bearer manager-token") "1" JUndef.

Definition wrongLogin : Request :=
  request None "" (JObj [("email", JStr "ann@example.com"); ("password", JStr "wrong")]).

Definition customerOrder (b : JsVal) : Request :=
  request (Some "Bearer customer-token") "" b.

(** The deployed gateway on the demonstration platform. *)
Definition dispatch : Route -> Clock -> Request -> M (W := World) Response :=
  Gateway.dispatch (H := demoPlatform) (net (H := demoPlatform)) 0
    unmodelled unmodelled unmodelled.

Definition serve : list (Route * Clock * Request) -> M (W := World) (list Response) :=
  Gateway.serve (H := demoPlatform) (net (H := demoPlatform)) 0
    unmodelled unmodelled unmodelled.

End Samples.

(* ===================================================================== *)
(** * Histories of the users service *)
(* ===================================================================== *)

Module Histories.

Section Histories.
Context `{Platform}.

(** The users service after it has served [rqs] from the start of the
    process. *)
Definition usersStore (rqs : list (UsersService.Request * string))
  : UsersService.State :=
  snd (UsersService.run rqs UsersService.init).

(** What a stored user always satisfies: the record sits under its own id,
    its fields passed the checks of the schemas. *)
Definition userWellFormed (k : Z) (u : UsersService.User) : Prop :=
  UsersService.id u = k
  /\ isEmail (UsersService.email u) = true
  /\ UsersService.name u <> ""
  /\ UsersService.passwordHash u <> ""
  /\ Forall (fun r => In r UsersService.RoleEnum) (UsersService.roles u).

(** No two records of the store have the same email. *)
Definition emailsDistinct (db : list (Z * UsersService.User)) : Prop :=
  forall k1 u1 k2 u2,
    In (k1, u1) db -> In (k2, u2) db ->
    UsersService.email u1 = UsersService.email u2 -> k1 = k2.

End Histories.

End Histories.

(* ===================================================================== *)
(** * Steps of the users service *)
(* ===================================================================== *)

Module UsersSteps.

Import UsersService Histories.

Section Steps.
Context `{Platform}.

(** What one request does to the store, with the status it is answered
    with: nothing; a 201 that adds a well-formed record under the counter,
    with an email no record has; a 200 that replaces a record by one with
    the same id and creation time, whose email is the old one or one that no
    other record has; a 200 that deletes a record. *)
Inductive Step (st : State) : Response -> State -> Prop :=
| StepSame r : Step st r st
| StepCreate r u :
    statusCode r = 201 ->
    userWellFormed (currentId st) u ->
    findByEmail (email u) (fakeUsersDb st) = None ->
    Step st r {| fakeUsersDb := dbSet (currentId st) u (fakeUsersDb st);
                 currentId := currentId st + 1 |}
| StepUpdate r k u u' :
    statusCode r = 200 ->
    dbGet k (fakeUsersDb st) = Some u ->
    id u' = id u ->
    createdAt u' = createdAt u ->
    (userWellFormed k u -> userWellFormed k u') ->
    (email u' = email u
     \/ (email u' <> "" -> emailTakenByOther (email u') k (fakeUsersDb st) = false)) ->
    Step st r (setDb (dbSet k u' (fakeUsersDb st)) st)
| StepDelete r k u :
    statusCode r = 200 ->
    dbGet k (fakeUsersDb st) = Some u ->
    Step st r (setDb (dbDelete k (fakeUsersDb st)) st).

(** Every record of the store is well formed. *)
Definition storeWellFormed (db : list (Z * User)) : Prop :=
  forall k u, In (k, u) db -> userWellFormed k u.

End Steps.

End UsersSteps.

(* ===================================================================== *)
(** * Steps and histories of the orders service *)
(* ===================================================================== *)

Module OrdersSteps.

Import OrdersService.

Section Steps.
Context `{Platform}.

(** The orders service after it has served [rqs] from the start of the
    process. *)
Definition ordersStore (rqs : list (Request * (Z -> bool) * string)) : State :=
  snd (run rqs init).

(** What an item of a stored order always satisfies. *)
Definition itemWellFormed (i : ProcessedItem) : Prop :=
  productId (item i) <> ""
  /\ productName (item i) <> ""
  /\ 1 <= quantity (item i)
  /\ 0 <= price (item i)
  /\ subtotal i = quantity (item i) * price (item i).

(** What a stored order always satisfies. *)
Definition orderWellFormed (k : Z) (o : Order) : Prop :=
  id o = k
  /\ 1 <= userId o
  /\ In (status o) StatusEnum
  /\ 0 <= totalAmount o
  /\ Forall itemWellFormed (items o).

(** What one request does to the store, with the status it is answered
    with: nothing; a 201 that adds a well-formed order under the counter; a
    200 that replaces an order by one with the same id, owner and creation
    time; a 200 that deletes an order. *)
Inductive Step (st : State) : Response -> State -> Prop :=
| StepSame r : Step st r st
| StepCreate r o :
    statusCode r = 201 ->
    orderWellFormed (currentId st) o ->
    Step st r {| fakeOrdersDb := dbSet (currentId st) o (fakeOrdersDb st);
                 currentId := currentId st + 1 |}
| StepUpdate r k o o' :
    statusCode r = 200 ->
    In (k, o) (fakeOrdersDb st) ->
    userId o' = userId o ->
    createdAt o' = createdAt o ->
    (orderWellFormed k o -> orderWellFormed k o') ->
    Step st r (setDb (dbSet k o' (fakeOrdersDb st)) st)
| StepDelete r k o :
    statusCode r = 200 ->
    In (k, o) (fakeOrdersDb st) ->
    Step st r (setDb (dbDelete k (fakeOrdersDb st)) st).

Definition storeWellFormed (db : list (Z * Order)) : Prop :=
  forall k o, In (k, o) db -> orderWellFormed k o.

(** The id [k] has been issued, and whatever is stored under it has the
    owner and the creation time of [o1]. *)
Definition settled (k : Z) (o1 : Order) (st : State) : Prop :=
  Inv st /\ k < currentId st
  /\ forall o, dbGet k (fakeOrdersDb st) = Some o ->
       userId o = userId o1 /\ createdAt o = createdAt o1.

(** The sum of quantity times price over the items of a request. *)
Definition itemsTotal (its : list OrderItem) : Z :=
  foldr Z.add 0 (map (fun i => quantity i * price i) its).

(** [Number.MAX_SAFE_INTEGER], 2^53 - 1: on integers up to it the products
    and sums of JavaScript's numbers are the exact ones. *)
Definition MAX_SAFE_INTEGER : Z := 9007199254740991.

(** The items whose exact total is a safe integer. The quantities are at
    least 1 and the prices not negative, so every product and every partial
    sum of the total is one as well, and the arithmetic of the code, which is
    the one of the model on them, is exact. *)
Definition exactlySummed (its : list OrderItem) : Prop :=
  itemsTotal its <= MAX_SAFE_INTEGER.

(** [a] was created no earlier than [b]. *)
Definition notOlder (a b : Order) : Prop :=
  exists ta tb, timeOf (createdAt a) = Some ta /\ timeOf (createdAt b) = Some tb
                /\ tb <= ta.

(** The orders an answer of [GET /orders/user/:userId] lists, and the number
    of pages it announces. *)
Definition listedOrders (r : Response) : list JsVal :=
  match get (body r) "orders" with
  | Some (JArr l) => l
  | _ => []
  end.

Definition announcedPages (r : Response) : Z :=
  match get (body r) "pagination" with
  | Some p => match get p "totalPages" with Some (JNum n) => n | _ => 0 end
  | None => 0
  end.

(** The query [q] asking for the page [page]. *)
Definition onPage (page : string) (q : UserQuery) : UserQuery :=
  {| uq_status := uq_status q; uq_sortBy := uq_sortBy q;
     uq_sortOrder := uq_sortOrder q; uq_page := Some page;
     uq_limit := uq_limit q |}.

End Steps.

End OrdersSteps.

(* ===================================================================== *)
(** * Pages of the orders service *)
(* ===================================================================== *)

Module OrdersPaging.

Import OrdersService.

Section Paging.
Context `{Platform}.

(** The limit [GET /orders/user/:userId] works with, and the orders it
    selects and sorts before it cuts a page out of them. *)
Definition limitNum (q : UserQuery) : Z :=
  Z.min 100 (Z.max 1 (parseOr 10 (uq_limit q))).

Definition selected (param : string) (q : UserQuery) (st : State) : list Order :=
  sortBy (compareOrders (default "createdAt" (given (uq_sortBy q)))
                        (default "desc" (given (uq_sortOrder q))))
    (match given (uq_status q) with
     | Some s => List.filter (fun o => String.eqb (status o) s)
                   (List.filter (byUser (parseInt param)) (values (fakeOrdersDb st)))
     | None => List.filter (byUser (parseInt param)) (values (fakeOrdersDb st))
     end).

(** The creation time of the order is a date the platform can read. *)
Definition dated (o : Order) : Prop :=
  exists t, timeOf (createdAt o) = Some t.

(** Whether an order passes the filters of the request. *)
Definition passes (param : string) (q : UserQuery) (o : Order) : bool :=
  byUser (parseInt param) o
  && match given (uq_status q) with
     | Some s => String.eqb (status o) s
     | None => true
     end.

End Paging.

End OrdersPaging.

(* ===================================================================== *)
(** * The life of an event publisher *)
(* ===================================================================== *)

Module PublisherLife.

Import Events.

(** [connectMessageBroker(brokerConfig)]: the placeholder logs and leaves the
    broker switched off. *)
Definition connectMessageBroker (p : EventPublisher) : EventPublisher :=
  {| subscribers := subscribers p;
     messageBroker := messageBroker p;
     isMessageBrokerEnabled := false;
     published := published p;
     delivered := delivered p;
     brokered := brokered p |}.

(** [disconnect()]: logs when there is a broker, closes nothing. *)
Definition disconnect (p : EventPublisher) : EventPublisher := p.

(** The calls a program can make on a publisher. *)
Inductive Call :=
| Subscribe (eventType : string) (handler : Handler)
| Connect
| Publish (event : DomainEvent)
| Disconnect.

Definition call (c : Call) (p : EventPublisher) : EventPublisher :=
  match c with
  | Subscribe eventType handler => subscribe eventType handler p
  | Connect => connectMessageBroker p
  | Publish event => publish event p
  | Disconnect => disconnect p
  end.

Definition calls (cs : list Call) (p : EventPublisher) : EventPublisher :=
  fold_left (fun p c => call c p) cs p.

(** The events the calls hand to [publish], in order. *)
Definition publishedBy (cs : list Call) : list DomainEvent :=
  omap (fun c => match c with Publish e => Some e | _ => None end) cs.

(** What a handler makes of an event: a delivery, or nothing when it
    throws. *)
Definition delivery (e : DomainEvent) (h : Handler) : list (Handler * DomainEvent) :=
  match runHandler h e with Some _ => [(h, e)] | None => [] end.

End PublisherLife.

(* ===================================================================== *)
(** * Routes and their events *)
(* ===================================================================== *)

Module RouteEvents.

Import Gateway.

(** The routes whose handler is one of the gateway's own functions modelled
    here: all but the paginating list of users, the caller's own orders and
    the health report. *)
Definition modelled (r : Route) : bool :=
  match r with
  | ListUsers | MyOrders | Health => false
  | _ => true
  end.

(** The event a route publishes, and the status of the answer it publishes
    it with. *)
Definition announces (r : Route) : option (string * Z) :=
  match r with
  | CreateOrder => Some (Events.ORDER_CREATED, 201)
  | PatchOrderStatus => Some (Events.ORDER_STATUS_UPDATED, 200)
  | CancelOrder => Some (Events.ORDER_CANCELLED, 200)
  | _ => None
  end.

End RouteEvents.

(* ===================================================================== *)
(** * Requests that only read *)
(* ===================================================================== *)

Module ReadOnly.

(** The requests of the orders service that only read. *)
Definition readOnly (r : OrdersService.Request) : bool :=
  match r with
  | OrdersService.Create _ | OrdersService.Put _ _ | OrdersService.Delete _ => false
  | _ => true
  end.

End ReadOnly.

(* ===================================================================== *)
(** * More concrete runs *)
(* ===================================================================== *)

Module Cases.

Import Breaker Gateway Deployment Scenario Samples.

(** The body of a registration or of a creation. *)
Definition account (email name : string) : JsVal :=
  JObj [("email", JStr email); ("password", JStr "secret"); ("name", JStr name)].

Definition credentials (email password : string) : JsVal :=
  JObj [("email", JStr email); ("password", JStr password)].

(** The users service with Ann registered. *)
Definition annOnly : UsersService.State := usersState world.

(** A short history of the users service: a creation, a registration, a
    change of email, a deletion. *)
Definition usersHistory : list (UsersService.Request * string) :=
  [(UsersService.Create (account "a@x" "A"), "1");
   (UsersService.Register (account "b@x" "B"), "2");
   (UsersService.Put "1" (JObj [("email", JStr "c@x")]), "3");
   (UsersService.Delete "2", "4")].

(** The record the history leaves under the id 1. *)
Definition firstUser : UsersService.User :=
  {| UsersService.id := 1;
     UsersService.email := "c@x";
     UsersService.passwordHash := "secret";
     UsersService.name := "A";
     UsersService.roles := ["Customer"];
     UsersService.createdAt := "1";
     UsersService.updatedAt := "3" |}.

(** An order of the user [userId] for one product. *)
Definition someone (b : bool) (userId : Z) : bool := b.

(** A short history of the orders service: three orders of the user 1, one
    of the user 2, then the first is completed. *)
Definition ordersHistory : list (OrdersService.Request * (Z -> bool) * string) :=
  [(OrdersService.Create (orderBody 1 "Pen"), someone true, "1");
   (OrdersService.Create (orderBody 1 "Ink"), someone true, "2");
   (OrdersService.Create (orderBody 2 "Cap"), someone true, "3");
   (OrdersService.Create (orderBody 1 "Pad"), someone true, "4");
   (OrdersService.Put "1" (JObj [("status", JStr "completed")]), someone true, "5")].

(** The order the history leaves under the id 1. *)
Definition firstOrder : OrdersService.Order :=
  {| OrdersService.id := 1;
     OrdersService.userId := 1;
     OrdersService.items :=
       [{| OrdersService.item :=
             {| OrdersService.productId := "p1";
                OrdersService.productName := "Pen";
                OrdersService.quantity := 2;
                OrdersService.price := 10 |};
           OrdersService.subtotal := 20 |}];
     OrdersService.status := "completed";
     OrdersService.totalAmount := 20;
     OrdersService.createdAt := "1";
     OrdersService.updatedAt := "5" |}.

(** The orders service after that history, on the demonstration platform. *)
Definition fourOrders : OrdersService.State :=
  OrdersSteps.ordersStore (H := demoPlatform) ordersHistory.

(** An update that replaces the items of an order by three pens at 7. *)
Definition threePens : JsVal :=
  JObj [("items", JArr [JObj [("productId", JStr "p1");
                              ("productName", JStr "Pen");
                              ("quantity", JNum 3);
                              ("price", JNum 7)]])].

Definition threePensData : OrdersService.UpdateOrderData :=
  {| OrdersService.uo_items :=
       Some [{| OrdersService.productId := "p1";
                OrdersService.productName := "Pen";
                OrdersService.quantity := 3;
                OrdersService.price := 7 |}];
     OrdersService.uo_totalAmount := None;
     OrdersService.uo_status := None |}.

(** Two orders a page. *)
Definition twoAPage : OrdersService.UserQuery :=
  {| OrdersService.uq_status := None;
     OrdersService.uq_sortBy := None;
     OrdersService.uq_sortOrder := None;
     OrdersService.uq_page := None;
     OrdersService.uq_limit := Some "2" |}.

Definition everyOrder : OrdersService.ListQuery :=
  {| OrdersService.q_userId := None; OrdersService.q_status := None |}.

(** The demonstration platform with one more token, whose claims carry an
    id and no roles. *)
Definition guestPlatform : Platform :=
  {| parseInt := parseInt (Platform := demoPlatform);
     toLowerCase := toLowerCase (Platform := demoPlatform);
     isEmail := isEmail (Platform := demoPlatform);
     dateValue := dateValue (Platform := demoPlatform);
     jsLt := jsLt (Platform := demoPlatform);
     looseEq := looseEq (Platform := demoPlatform);
     jwt_sign := jwt_sign (Platform := demoPlatform);
     jwt_verify := fun token secret =>
                     if String.eqb token "guest-token"
                     then Some (JObj [("id", JNum 9)])
                     else None;
     env_JWT_SECRET := None |}.

Definition guest : Request := request (Some "Bearer guest-token") "1" JUndef.

(** A manager asking for the user 9, whom nobody knows. *)
Definition managerAsksFor (userId : string) : Request :=
  request (Some "Bearer manager-token") userId JUndef.

(** A manager setting the status of the order 1. *)
Definition completing : Request :=
  request (Some "Bearer manager-token") "1" (JObj [("status", JStr "completed")]).

(** The gateway with the users breaker open since the instant 50. *)
Definition usersDown : State := setBreaker usersCircuit openBreaker Gateway.init.

End Cases.

(* ===================================================================== *)
(** * Properties of the stores *)
(* ===================================================================== *)

Module StoreFacts.

Section Db.
Context {A : Type}.
Implicit Types (db : list (Z * A)) (k : Z) (v : A).

Lemma dbGet_In k db v : dbGet k db = Some v -> In k (keys db).
Proof.
  induction db as [|[k' v'] db IH]; simpl; [discriminate|].
  destruct (k' =? k) eqn:E.
  - intros _. left. apply Z.eqb_eq in E. exact E.
  - intros Hg. right. apply IH, Hg.
Qed.

Lemma find_key_In (p : Z * A -> bool) db k v :
  List.find p db = Some (k, v) -> In k (keys db).
Proof.
  intros Hf. apply find_some in Hf as [Hin _].
  unfold keys. apply in_map_iff. exists (k, v). auto.
Qed.

Lemma keys_dbSet k v db x :
  In x (keys (dbSet k v db)) -> x = k \/ In x (keys db).
Proof.
  induction db as [|[k' v'] db IH]; simpl.
  - intros [->|[]]. now left.
  - destruct (k =? k') eqn:E1; [|destruct (k <? k') eqn:E2]; simpl.
    + apply Z.eqb_eq in E1. subst k'. intros [->|Hin]; [now left|right; now right].
    + intros [->|[->|Hin]]; [now left|right; now left|right; now right].
    + intros [->|Hin]; [right; now left|].
      destruct (IH Hin) as [->|Hin']; [now left|right; now right].
Qed.

Lemma keys_dbDelete k db x : In x (keys (dbDelete k db)) -> In x (keys db).
Proof.
  unfold keys, dbDelete. rewrite !in_map_iff.
  intros [kv [Hx Hin]]. apply filter_In in Hin as [Hin _]. eauto.
Qed.

Lemma sorted_dbSet k v db :
  StronglySorted Z.lt (keys db) -> StronglySorted Z.lt (keys (dbSet k v db)).
Proof.
  induction db as [|[k' v'] db IH]; simpl; intros Hs.
  - repeat constructor.
  - apply StronglySorted_inv in Hs as [Hs Hall].
    destruct (k =? k') eqn:E1; [|destruct (k <? k') eqn:E2]; simpl.
    + apply Z.eqb_eq in E1. subst k'. now constructor.
    + apply Z.ltb_lt in E2. constructor.
      * now constructor.
      * constructor; [exact E2|].
        eapply Forall_impl; [exact Hall|]. simpl. intros; lia.
    + apply Z.eqb_neq in E1. apply Z.ltb_ge in E2.
      constructor; [now apply IH|].
      apply List.Forall_forall. intros x Hx.
      destruct (keys_dbSet _ _ _ _ Hx) as [->|Hin]; [lia|].
      rewrite List.Forall_forall in Hall. now apply Hall.
Qed.

Lemma sorted_filter (p : Z -> bool) (l : list Z) :
  StronglySorted Z.lt l -> StronglySorted Z.lt (List.filter p l).
Proof.
  induction l as [|x l IH]; simpl; intros Hs; [constructor|].
  apply StronglySorted_inv in Hs as [Hs Hall].
  destruct (p x); [constructor|]; auto.
  apply List.Forall_forall. intros y Hy. apply filter_In in Hy as [Hy _].
  rewrite List.Forall_forall in Hall. now apply Hall.
Qed.

Lemma sorted_dbDelete k db :
  StronglySorted Z.lt (keys db) -> StronglySorted Z.lt (keys (dbDelete k db)).
Proof.
  induction db as [|[k' v'] db IH]; simpl; intros Hs; [constructor|].
  apply StronglySorted_inv in Hs as [Hs Hall].
  destruct (negb (k' =? k)); simpl; [constructor|]; auto.
  apply List.Forall_forall. intros y Hy. apply keys_dbDelete in Hy.
  rewrite List.Forall_forall in Hall. now apply Hall.
Qed.

Lemma addedKeys_sorted (before after : list (Z * A)) :
  StronglySorted Z.lt (keys after) ->
  StronglySorted Z.lt (addedKeys before after).
Proof. apply sorted_filter. Qed.

Lemma addedKeys_Forall (P : Z -> Prop) (before after : list (Z * A)) :
  (forall x, In x (keys after) -> In x (keys before) \/ P x) ->
  Forall P (addedKeys before after).
Proof.
  intros Hk. apply List.Forall_forall. intros x Hx.
  apply filter_In in Hx as [Hin Hnew].
  destruct (Hk x Hin) as [Hold|HP]; [|exact HP].
  exfalso. apply negb_true_iff in Hnew.
  assert (existsb (Z.eqb x) (keys before) = true) as Hex.
  { apply existsb_exists. exists x. split; [exact Hold|apply Z.eqb_refl]. }
  congruence.
Qed.

(** Two sorted runs, the first below a bound the second starts at. *)
Lemma sorted_app (l1 l2 : list Z) (c : Z) :
  StronglySorted Z.lt l1 -> StronglySorted Z.lt l2 ->
  Forall (fun x => x < c) l1 -> Forall (fun x => c <= x) l2 ->
  StronglySorted Z.lt (l1 ++ l2).
Proof.
  intros H1 H2 Hlo Hhi. induction l1 as [|x l1 IH]; simpl; [exact H2|].
  apply StronglySorted_inv in H1 as [H1 Hall].
  apply Forall_cons_iff in Hlo as [Hx Hlo].
  constructor; [now apply IH|].
  apply Forall_app. split; [exact Hall|].
  eapply Forall_impl; [exact Hhi|]. simpl. intros; lia.
Qed.

End Db.

End StoreFacts.

(* ===================================================================== *)
(** * Properties of the users service *)
(* ===================================================================== *)

Module UsersFacts.

Import StoreFacts UsersService.

Section Facts.
Context `{Platform}.

Lemma users_lookupParam_In p st k u :
  lookupParam p st = Some (k, u) -> In k (keys (fakeUsersDb st)).
Proof.
  unfold lookupParam. destruct (parseInt p) as [n|]; [|discriminate].
  destruct (dbGet n (fakeUsersDb st)) eqn:Hg; [|discriminate].
  intros [= <- <-]. eapply dbGet_In, Hg.
Qed.

(** Every request has one of the four effects on the store. *)
Lemma users_handle_effect rq now st : Effect st (snd (handle rq now st)).
Proof.
  destruct rq as [b|b|p|p b| |q|b| | |p|p b|p]; simpl; try apply Unchanged.
  - unfold register. destruct (registerSchema b) as [?|[e [pw n]]]; [apply Unchanged|].
    destruct (findByEmail e (fakeUsersDb st)); [apply Unchanged|].
    simpl. eapply (Created st). reflexivity.
  - unfold putProfile. destruct (lookupParam p st) as [[k u]|] eqn:Hl; [|apply Unchanged].
    destruct (updateProfileSchema b) as [?|[e n]]; [apply Unchanged|].
    match goal with |- context [if ?c then _ else _] => destruct c end;
      [apply Unchanged|].
    simpl. apply Updated. eapply users_lookupParam_In, Hl.
  - unfold create. destruct (createUserSchema b) as [?|d]; [apply Unchanged|].
    destruct (findByEmail (cu_email d) (fakeUsersDb st)); [apply Unchanged|].
    simpl. eapply (Created st). reflexivity.
  - unfold putUser. destruct (lookupParam p st) as [[k u]|] eqn:Hl; [|apply Unchanged].
    destruct (updateUserSchema b) as [?|d]; [apply Unchanged|].
    match goal with |- context [if ?c then _ else _] => destruct c end;
      [apply Unchanged|].
    simpl. apply Updated. eapply users_lookupParam_In, Hl.
  - unfold deleteUser. destruct (lookupParam p st) as [[k u]|]; [|apply Unchanged].
    simpl. apply Deleted.
Qed.

(** An effect keeps the invariant, never lowers the counter, and the keys
    it adds are numbered from the counter's old value up to the new one. *)
Lemma users_effect_inv st st' :
  Effect st st' -> Inv st ->
  Inv st' /\ currentId st <= currentId st'
  /\ Forall (fun x => currentId st <= x < currentId st')
            (addedKeys (fakeUsersDb st) (fakeUsersDb st')).
Proof.
  intros He [Hs Hb]. rewrite List.Forall_forall in Hb.
  destruct He as [|u Hu|k u Hk|k]; simpl.
  - repeat split; [exact Hs|now apply List.Forall_forall|lia|].
    apply addedKeys_Forall. intros x Hx. now left.
  - repeat split; [now apply sorted_dbSet| |lia|].
    + apply List.Forall_forall. intros x Hx. simpl.
      apply keys_dbSet in Hx as [->|Hx]; [lia|]. specialize (Hb x Hx). lia.
    + apply addedKeys_Forall. intros x Hx.
      apply keys_dbSet in Hx as [->|Hx]; [right; lia|now left].
  - repeat split; [now apply sorted_dbSet| |lia|].
    + apply List.Forall_forall. intros x Hx. simpl.
      apply keys_dbSet in Hx as [->|Hx]; now apply Hb.
    + apply addedKeys_Forall. intros x Hx.
      apply keys_dbSet in Hx as [->|Hx]; now left.
  - repeat split; [now apply sorted_dbDelete| |lia|].
    + apply List.Forall_forall. intros x Hx. simpl.
      apply keys_dbDelete in Hx. now apply Hb.
    + apply addedKeys_Forall. intros x Hx. apply keys_dbDelete in Hx. now left.
Qed.

Lemma users_init_inv : Inv init.
Proof. split; constructor. Qed.

(** No request lowers the counter. *)
Lemma users_counter rq now st :
  currentId st <= currentId (snd (handle rq now st)).
Proof.
  destruct (users_handle_effect rq now st); simpl; lia.
Qed.

(** An answer issues an id exactly when its status is 201; the id is the
    value the counter had, and the counter is one more afterwards. *)
Lemma users_issued rq now st :
  match issuedId rq (fst (handle rq now st)) with
  | Some n => statusCode (fst (handle rq now st)) = 201
              /\ n = currentId st
              /\ currentId (snd (handle rq now st)) = currentId st + 1
  | None => statusCode (fst (handle rq now st)) <> 201
  end.
Proof.
  unfold issuedId.
  destruct rq as [b|b|p|p b| |q|b| | |p|p b|p]; simpl handle.
  - unfold register. destruct (registerSchema b) as [?|[e [pw n]]]; [simpl; lia|].
    destruct (findByEmail e (fakeUsersDb st)); [simpl; lia|].
    simpl. repeat split.
  - unfold login. destruct (loginSchema b) as [?|[e pw]]; [simpl; lia|].
    destruct (findByEmail e (fakeUsersDb st)) as [u|]; [|simpl; lia].
    destruct (String.eqb (passwordHash u) pw); simpl; lia.
  - unfold getProfile. destruct (lookupParam p st) as [[k u]|]; simpl; lia.
  - unfold putProfile. destruct (lookupParam p st) as [[k u]|]; [|simpl; lia].
    destruct (updateProfileSchema b) as [?|[e n]]; [simpl; lia|].
    match goal with |- context [if ?c then (_, _) else _] => destruct c end;
      simpl; lia.
  - simpl. lia.
  - unfold listUsers. simpl. lia.
  - unfold create. destruct (createUserSchema b) as [?|d]; [simpl; lia|].
    destruct (findByEmail (cu_email d) (fakeUsersDb st)); [simpl; lia|].
    simpl. repeat split.
  - simpl. lia.
  - simpl. lia.
  - unfold getUser. destruct (lookupParam p st) as [[k u]|]; simpl; lia.
  - unfold putUser. destruct (lookupParam p st) as [[k u]|]; [|simpl; lia].
    destruct (updateUserSchema b) as [?|d]; [simpl; lia|].
    match goal with |- context [if ?c then (_, _) else _] => destruct c end;
      simpl; lia.
  - unfold deleteUser. destruct (lookupParam p st) as [[k u]|]; simpl; lia.
Qed.

(** Along a run the ids the creations return increase strictly and start at
    the counter, and every answer 201 returns one. *)
Lemma users_issuedIds_increasing rqs : forall st,
  StronglySorted Z.lt (issuedIds rqs st)
  /\ Forall (fun x => currentId st <= x) (issuedIds rqs st)
  /\ length (issuedIds rqs st) = countCreated (fst (run rqs st)).
Proof.
  unfold countCreated.
  induction rqs as [|[rq now] rqs IH]; intros st; simpl.
  - repeat split; constructor.
  - pose proof (users_issued rq now st) as Hi.
    pose proof (users_counter rq now st) as Hc.
    destruct (handle rq now st) as [r st1]. simpl in Hi, Hc.
    destruct (IH st1) as (Hsorted & Hfrom & Hlen).
    destruct (run rqs st1) as [rs st2]. simpl in Hlen |- *.
    destruct (issuedId rq r) as [n|].
    + destruct Hi as (Hs & -> & Hn). rewrite Hs. simpl. repeat split.
      * constructor; [exact Hsorted|].
        eapply Forall_impl; [exact Hfrom|]. simpl. intros; lia.
      * constructor; [lia|].
        eapply Forall_impl; [exact Hfrom|]. simpl. intros; lia.
      * now rewrite Hlen.
    + destruct (statusCode r =? 201) eqn:Hs; [apply Z.eqb_eq in Hs; contradiction|].
      repeat split; [exact Hsorted| |exact Hlen].
      eapply Forall_impl; [exact Hfrom|]. simpl. intros; lia.
Qed.

End Facts.

End UsersFacts.

(* ===================================================================== *)
(** * Properties of the orders service *)
(* ===================================================================== *)

Module OrdersFacts.

Import StoreFacts OrdersService.

Section Facts.
Context `{Platform}.

Lemma orders_lookupParam_In p st k o :
  lookupParam p st = Some (k, o) -> In k (keys (fakeOrdersDb st)).
Proof. unfold lookupParam. apply find_key_In. Qed.

Lemma orders_handle_effect rq userExists now st :
  Effect st (snd (handle rq userExists now st)).
Proof.
  destruct rq as [ | |p|q|p q|b|p b|p]; simpl; try apply Unchanged.
  - unfold create. destruct (createOrderSchema b) as [?|d]; [apply Unchanged|].
    destruct (userExists (co_userId d)); [|apply Unchanged].
    simpl. eapply (Created st). reflexivity.
  - unfold putOrder. destruct (lookupParam p st) as [[k o]|] eqn:Hl; [|apply Unchanged].
    destruct (updateOrderSchema b) as [?|d]; [apply Unchanged|].
    simpl. apply Updated. eapply orders_lookupParam_In, Hl.
  - unfold deleteOrder. destruct (lookupParam p st) as [[k o]|]; [|apply Unchanged].
    simpl. apply Deleted.
Qed.

Lemma orders_effect_inv st st' :
  Effect st st' -> Inv st ->
  Inv st' /\ currentId st <= currentId st'
  /\ Forall (fun x => currentId st <= x < currentId st')
            (addedKeys (fakeOrdersDb st) (fakeOrdersDb st')).
Proof.
  intros He [Hs Hb]. rewrite List.Forall_forall in Hb.
  destruct He as [|o Ho|k o Hk|k]; simpl.
  - repeat split; [exact Hs|now apply List.Forall_forall|lia|].
    apply addedKeys_Forall. intros x Hx. now left.
  - repeat split; [now apply sorted_dbSet| |lia|].
    + apply List.Forall_forall. intros x Hx. simpl.
      apply keys_dbSet in Hx as [->|Hx]; [lia|]. specialize (Hb x Hx). lia.
    + apply addedKeys_Forall. intros x Hx.
      apply keys_dbSet in Hx as [->|Hx]; [right; lia|now left].
  - repeat split; [now apply sorted_dbSet| |lia|].
    + apply List.Forall_forall. intros x Hx. simpl.
      apply keys_dbSet in Hx as [->|Hx]; now apply Hb.
    + apply addedKeys_Forall. intros x Hx.
      apply keys_dbSet in Hx as [->|Hx]; now left.
  - repeat split; [now apply sorted_dbDelete| |lia|].
    + apply List.Forall_forall. intros x Hx. simpl.
      apply keys_dbDelete in Hx. now apply Hb.
    + apply addedKeys_Forall. intros x Hx. apply keys_dbDelete in Hx. now left.
Qed.

Lemma orders_init_inv : Inv init.
Proof. split; constructor. Qed.

(** No request lowers the counter. *)
Lemma orders_counter rq userExists now st :
  currentId st <= currentId (snd (handle rq userExists now st)).
Proof.
  destruct (orders_handle_effect rq userExists now st); simpl; lia.
Qed.

(** An answer issues an id exactly when its status is 201; the id is the
    value the counter had, and the counter is one more afterwards. *)
Lemma orders_issued rq userExists now st :
  match issuedId rq (fst (handle rq userExists now st)) with
  | Some n => statusCode (fst (handle rq userExists now st)) = 201
              /\ n = currentId st
              /\ currentId (snd (handle rq userExists now st)) = currentId st + 1
  | None => statusCode (fst (handle rq userExists now st)) <> 201
  end.
Proof.
  unfold issuedId.
  destruct rq as [| |p|q|p q|b|p b|p]; simpl handle.
  - simpl. lia.
  - simpl. lia.
  - unfold getOrder. destruct (lookupParam p st) as [[k o]|]; simpl; lia.
  - unfold listOrders. simpl. lia.
  - unfold listUserOrders. simpl. lia.
  - unfold create. destruct (createOrderSchema b) as [?|d]; [simpl; lia|].
    destruct (userExists (co_userId d)); [|simpl; lia].
    simpl. repeat split.
  - unfold putOrder. destruct (lookupParam p st) as [[k o]|]; [|simpl; lia].
    destruct (updateOrderSchema b) as [?|d]; simpl; lia.
  - unfold deleteOrder. destruct (lookupParam p st) as [[k o]|]; simpl; lia.
Qed.

Lemma orders_issuedIds_increasing rqs : forall st,
  StronglySorted Z.lt (issuedIds rqs st)
  /\ Forall (fun x => currentId st <= x) (issuedIds rqs st)
  /\ length (issuedIds rqs st) = countCreated (fst (run rqs st)).
Proof.
  unfold countCreated.
  induction rqs as [|[[rq userExists] now] rqs IH]; intros st; simpl.
  - repeat split; constructor.
  - pose proof (orders_issued rq userExists now st) as Hi.
    pose proof (orders_counter rq userExists now st) as Hc.
    destruct (handle rq userExists now st) as [r st1]. simpl in Hi, Hc.
    destruct (IH st1) as (Hsorted & Hfrom & Hlen).
    destruct (run rqs st1) as [rs st2]. simpl in Hlen |- *.
    destruct (issuedId rq r) as [n|].
    + destruct Hi as (Hs & -> & Hn). rewrite Hs. simpl. repeat split.
      * constructor; [exact Hsorted|].
        eapply Forall_impl; [exact Hfrom|]. simpl. intros; lia.
      * constructor; [lia|].
        eapply Forall_impl; [exact Hfrom|]. simpl. intros; lia.
      * now rewrite Hlen.
    + destruct (statusCode r =? 201) eqn:Hs; [apply Z.eqb_eq in Hs; contradiction|].
      repeat split; [exact Hsorted| |exact Hlen].
      eapply Forall_impl; [exact Hfrom|]. simpl. intros; lia.
Qed.

End Facts.

End OrdersFacts.

(* ===================================================================== *)
(** * Identifiers of the two stores *)
(* ===================================================================== *)

Module Identifiers.

Lemma sorted_NoDup (l : list Z) : StronglySorted Z.lt l -> List.NoDup l.
Proof.
  induction 1 as [|x l Hs IH Hall]; constructor; [|exact IH].
  intros Hin. rewrite List.Forall_forall in Hall. specialize (Hall x Hin). lia.
Qed.

(** C10. In each service, along any sequence of requests from the start of
    the process, the ids that the creations return increase strictly: each
    record that is created is numbered above every id returned before, so no
    id is returned twice, also not after the record that had it was deleted;
    and every answer with the status 201 returns such an id. *)
Theorem issued_ids_increase `{Platform}
  (users : list (UsersService.Request * string))
  (orders : list (OrdersService.Request * (Z -> bool) * string)) :
  (StronglySorted Z.lt (UsersService.issuedIds users UsersService.init)
   /\ List.NoDup (UsersService.issuedIds users UsersService.init)
   /\ length (UsersService.issuedIds users UsersService.init)
      = UsersService.countCreated (fst (UsersService.run users UsersService.init)))
  /\ (StronglySorted Z.lt (OrdersService.issuedIds orders OrdersService.init)
      /\ List.NoDup (OrdersService.issuedIds orders OrdersService.init)
      /\ length (OrdersService.issuedIds orders OrdersService.init)
         = OrdersService.countCreated
             (fst (OrdersService.run orders OrdersService.init))).
Proof.
  destruct (UsersFacts.users_issuedIds_increasing users UsersService.init)
    as (Hu & _ & Hun).
  destruct (OrdersFacts.orders_issuedIds_increasing orders OrdersService.init)
    as (Ho & _ & Hon).
  repeat split; auto using sorted_NoDup.
Qed.

End Identifiers.

(* ===================================================================== *)
(** * No password hash leaves the users service *)
(* ===================================================================== *)

Module Sanitized.

Import UsersService.

Section Facts.
Context `{Platform}.

Lemma mentions_strings k l : mentions k (strings l) = false.
Proof. unfold strings. simpl. induction l; simpl; auto. Qed.

Lemma sanitizeUser_fields u :
  sanitizeUser u =
  JObj [("id", JNum (id u)); ("email", JStr (email u)); ("name", JStr (name u));
        ("roles", strings (roles u)); ("createdAt", JStr (createdAt u));
        ("updatedAt", JStr (updatedAt u))].
Proof. reflexivity. Qed.

Lemma sanitizeUser_clean u : mentions "passwordHash" (sanitizeUser u) = false.
Proof.
  rewrite sanitizeUser_fields.
  change (mentions "passwordHash" (strings (roles u)) || false = false).
  now rewrite mentions_strings.
Qed.

Lemma sanitized_list_clean l :
  existsb (mentions "passwordHash") (map sanitizeUser l) = false.
Proof.
  induction l as [|u l IH]; [reflexivity|].
  cbn [map existsb]. now rewrite sanitizeUser_clean, IH.
Qed.

Lemma fieldErrors_clean errs : mentions "passwordHash" (fieldErrors errs) = false.
Proof.
  unfold fieldErrors. cbn [mentions].
  induction errs as [|e errs IH]; [reflexivity|].
  cbn [map existsb]. rewrite IH. reflexivity.
Qed.

Lemma numOrNull_clean k n : mentions k (numOrNull n) = false.
Proof. now destruct n. Qed.

Lemma strOrNull_clean k s : mentions k (strOrNull s) = false.
Proof. destruct s as [t|]; [|reflexivity]. unfold strOrNull. now destruct (String.eqb t ""). Qed.

Lemma paginationObj_clean p l t :
  mentions "passwordHash" (paginationObj p l t) = false.
Proof.
  unfold paginationObj.
  change (mentions "passwordHash" (numOrNull p)
          || (mentions "passwordHash" (numOrNull l)
              || (false || (mentions "passwordHash" (numOrNull (ceilDiv t <$> l)) || false)))
          = false).
  now rewrite !numOrNull_clean.
Qed.

Lemma listUsers_clean q st :
  mentions "passwordHash" (body (listUsers q st)) = false.
Proof.
  unfold listUsers. cbv zeta.
  match goal with
  | |- context [map sanitizeUser ?l] => generalize l; intros page
  end.
  match goal with
  | |- context [paginationObj ?a ?b ?c] =>
      pose proof (paginationObj_clean a b c) as Hp; revert Hp;
      generalize (paginationObj a b c); intros pg Hp
  end.
  pose proof (sanitized_list_clean page) as Hl. revert Hl.
  generalize (map sanitizeUser page). intros safe Hl.
  pose proof (strOrNull_clean "passwordHash" (q_role q)) as H1. revert H1.
  generalize (strOrNull (q_role q)). intros f1 H1.
  pose proof (strOrNull_clean "passwordHash" (q_email q)) as H2. revert H2.
  generalize (strOrNull (q_email q)). intros f2 H2.
  pose proof (strOrNull_clean "passwordHash" (q_name q)) as H3. revert H3.
  generalize (strOrNull (q_name q)). intros f3 H3.
  simpl. now rewrite Hl, Hp, H1, H2, H3.
Qed.

(** Replace the sanitised parts of a response by what is known of them, then
    compute over the literal keys of the envelope. *)
Ltac hide :=
  repeat match goal with
  | |- context [fieldErrors ?e] =>
      let F := fresh "F" in
      pose proof (fieldErrors_clean e) as F; revert F;
      generalize (fieldErrors e); intros ? F
  | |- context [map sanitizeUser ?l] =>
      let F := fresh "F" in
      pose proof (sanitized_list_clean l) as F; revert F;
      generalize (map sanitizeUser l); intros ? F
  | |- context [sanitizeUser ?u] =>
      let F := fresh "F" in
      pose proof (sanitizeUser_clean u) as F; revert F;
      generalize (sanitizeUser u); intros ? F
  end.

Ltac clean :=
  unfold validationEnvelope, validationFailed, errorEnvelope, userNotFound,
    emailExists, createUserModel, generateUserId;
  cbn [fst snd body json];
  hide; simpl;
  repeat match goal with F : _ = false |- _ => rewrite F end;
  reflexivity.

(** C9. Whatever the request and the state of the store, the body the users
    service answers with has no [passwordHash] key anywhere: not in a user
    object, and not elsewhere in the envelope. *)
Theorem no_passwordHash_in_responses (rq : Request) (now : string) (st : State) :
  mentions "passwordHash" (body (fst (handle rq now st))) = false.
Proof.
  destruct rq as [b|b|p|p b| |q|b| | |p|p b|p]; cbn [handle fst].
  - unfold register. destruct (registerSchema b) as [errs|[e [pw n]]]; [clean|].
    destruct (findByEmail e (fakeUsersDb st)); [clean|]. clean.
  - unfold login. destruct (loginSchema b) as [errs|[e pw]]; [clean|].
    destruct (findByEmail e (fakeUsersDb st)) as [u|]; [|clean].
    destruct (String.eqb (passwordHash u) pw); clean.
  - unfold getProfile. destruct (lookupParam p st) as [[k u]|]; clean.
  - unfold putProfile. destruct (lookupParam p st) as [[k u]|]; [|clean].
    destruct (updateProfileSchema b) as [errs|[e n]]; [clean|].
    match goal with |- context [if ?c then _ else _] => destruct c end; clean.
  - clean.
  - apply listUsers_clean.
  - unfold create. destruct (createUserSchema b) as [errs|d]; [clean|].
    destruct (findByEmail (cu_email d) (fakeUsersDb st)); clean.
  - reflexivity.
  - reflexivity.
  - unfold getUser. destruct (lookupParam p st) as [[k u]|]; clean.
  - unfold putUser. destruct (lookupParam p st) as [[k u]|]; [|clean].
    destruct (updateUserSchema b) as [errs|d]; [clean|].
    match goal with |- context [if ?c then _ else _] => destruct c end; clean.
  - unfold deleteUser. destruct (lookupParam p st) as [[k u]|]; clean.
Qed.

End Facts.

End Sanitized.

(* ===================================================================== *)
(** * Properties of the breaker and of the calls through it *)
(* ===================================================================== *)

Module BreakerFacts.

Import Breaker Gateway.

(** Which calls count as failures: the ones that time out and the ones the
    transport fails; a response in time never does, whatever its status. *)
Lemma isFailure_cases samples t :
  isFailure (circuitOptions samples) t =
  match t with
  | Responded elapsed _ _ => 3000 <? elapsed
  | Failed => true
  | Silent => true
  end.
Proof.
  unfold isFailure, outcome, timedOut. destruct t as [e s d| |]; simpl; try reflexivity.
  now destruct (3000 <? e).
Qed.

(** C1, as the code has it. Through a closed breaker, a call that ends with
    an HTTP response within the timeout adds no failure to the window,
    whatever the status (a 4xx and a 5xx alike); a call that times out, gets
    no answer, or fails in transport adds one. *)
Theorem only_transport_failures_are_recorded
  (samples now : Z) (t : Transport) (b : Breaker.State) :
  state b = Closed ->
  failures (windowStats
              (settle (circuitOptions samples) now
                 (negb (isFailure (circuitOptions samples) t)) b))
  = failures (windowStats b)
    + match t with
      | Responded elapsed status data => if 3000 <? elapsed then 1 else 0
      | Failed => 1
      | Silent => 1
      end.
Proof.
  intros Hc. rewrite isFailure_cases. unfold settle. rewrite Hc.
  assert (forall ok c o,
    failures (windowStats
      (if tripped (circuitOptions samples) (record ok (windowStats b))
       then {| state := Open; consecutiveFailures := c;
               windowStats := record ok (windowStats b); openedAt := now |}
       else {| state := Closed; consecutiveFailures := c;
               windowStats := record ok (windowStats b); openedAt := o |}))
    = failures (windowStats b) + if ok then 0 else 1) as Hrec.
  { intros ok c o. destruct (tripped _ _); simpl; destruct ok; lia. }
  destruct t as [e s d| |]; cbv zeta; rewrite Hrec; simpl; try reflexivity.
  now destruct (3000 <? e).
Qed.

Lemma only_transport_failures_are_recorded_witness :
  state Breaker.init = Closed
  /\ failures (windowStats
                 (settle (circuitOptions 0) 10
                    (negb (isFailure (circuitOptions 0)
                             (Responded 20 500 (JObj [("error", JStr "boom")]))))
                    Breaker.init)) = 0.
Proof.
  split; [reflexivity|].
  exact (only_transport_failures_are_recorded 0 10
           (Responded 20 500 (JObj [("error", JStr "boom")])) Breaker.init eq_refl).
Defined.

Section Calls.
Context `{Platform} {W : Type}.
Variable net : Outbound -> W -> Transport * W.
Variable samples : Z.

Lemma breaker_setBreaker c b st : breaker c (setBreaker c b st) = b.
Proof. now destruct c. Qed.

(** An open breaker inside its cool-down answers with the fallback and
    touches neither the network nor its own state. *)
Lemma fire_open k c u o st w :
  state (breaker c st) = Open ->
  nowMs k - openedAt (breaker c st) < 3000 ->
  fire net samples k c u o (st, w) = (fallback c, (st, w)).
Proof.
  intros Ho Hc. unfold fire, entry. rewrite Ho. simpl resetTimeout.
  destruct (3000 <=? nowMs k - openedAt (breaker c st)) eqn:E; [|reflexivity].
  apply Z.leb_le in E. lia.
Qed.

Lemma fireAll_open c calls : forall st w,
  state (breaker c st) = Open ->
  Forall (fun call => nowMs (fst (fst call)) - openedAt (breaker c st) < 3000) calls ->
  fireAll net samples c calls (st, w) = (map (fun _ => fallback c) calls, (st, w)).
Proof.
  induction calls as [|[[k u] o] calls IH]; intros st w Ho Hall; [reflexivity|].
  apply Forall_cons in Hall as [Hk Hall]. simpl in Hk.
  simpl. unfold bind at 1. rewrite (fire_open _ _ _ _ _ _ Ho Hk).
  unfold bind at 1. now rewrite (IH _ _ Ho Hall).
Qed.

(** The state of a breaker after a call through a closed breaker
    whose window then exceeds the threshold. *)
Lemma fire_trips k c u o st w :
  state (breaker c st) = Closed ->
  tripped (circuitOptions samples)
    (record (negb (isFailure (circuitOptions samples)
                     (fst (net {| circuit := c; url := u; options := o |} w))))
       (windowStats (breaker c st))) = true ->
  let b := breaker c (fst (snd (fire net samples k c u o (st, w)))) in
  state b = Open /\ openedAt b = nowMs k.
Proof.
  intros Hc Ht. unfold fire, entry. rewrite Hc.
  destruct (net _ w) as [t w'] eqn:En. simpl in Ht. cbn [snd fst].
  rewrite breaker_setBreaker. unfold settle. rewrite Hc. cbv zeta. rewrite Ht.
  split; reflexivity.
Qed.

End Calls.

End BreakerFacts.

(* ===================================================================== *)
(** * Short-circuit and fallback at the gateway *)
(* ===================================================================== *)

Module FallbackFacts.

Import Breaker Gateway BreakerFacts Samples.

Section Calls.
Context `{Platform} {W : Type}.
Variable net : Outbound -> W -> Transport * W.
Variable samples : Z.

(** C3. When the call through a closed breaker leaves a window whose failure
    ratio exceeds 50% on at least the minimum number of samples, the breaker
    is Open from that instant, and every later call less than 3000 ms after
    it gets the fallback: no request is sent, and neither the gateway nor
    the world changes. *)
Theorem open_breaker_short_circuits
  (k0 : Clock) (c : Circuit) (u0 : string) (o0 : AxiosOptions)
  (st : State) (w : W) (calls : list (Clock * string * AxiosOptions)) :
  state (breaker c st) = Closed ->
  let t := fst (net {| circuit := c; url := u0; options := o0 |} w) in
  let stats := record (negb (isFailure (circuitOptions samples) t))
                 (windowStats (breaker c st)) in
  samples <= requests stats ->
  50 * requests stats < 100 * failures stats ->
  Forall (fun call => nowMs (fst (fst call)) - nowMs k0 < 3000) calls ->
  let s1 := snd (fire net samples k0 c u0 o0 (st, w)) in
  state (breaker c (fst s1)) = Open
  /\ openedAt (breaker c (fst s1)) = nowMs k0
  /\ fireAll net samples c calls s1 = (map (fun _ => fallback c) calls, s1).
Proof.
  intros Hc t stats Hmin Hratio Hcalls s1.
  assert (tripped (circuitOptions samples) stats = true) as Ht.
  { unfold tripped. simpl minimumSamples. simpl errorThresholdPercentage.
    apply andb_true_iff. split; [apply Z.leb_le|apply Z.ltb_lt]; assumption. }
  destruct (fire_trips net samples k0 c u0 o0 st w Hc Ht) as [Ho Hat].
  fold s1 in Ho, Hat. repeat split; [exact Ho|exact Hat|].
  destruct s1 as [st1 w1]. simpl in Ho, Hat.
  apply fireAll_open; [exact Ho|]. now rewrite Hat.
Qed.

Lemma respond_fallback c : respond (fallback c) = None.
Proof. now destruct c. Qed.

(** C2 on the code: whenever the call yields the breaker's fallback (the
    breaker is open, or the call failed or timed out), a forwarding handler
    cannot send it, since the fallback value has neither a status nor data,
    and answers with the 500 of its [catch] instead of a 503 with the
    fallback's message. *)
Theorem fallback_is_answered_with_500
  (c : Circuit) (u : string) (o : AxiosOptions) (k : Clock) (s : State * W) :
  fst (fire net samples k c u o s) = fallback c ->
  fst (proxy net samples c (Some u) o k s)
  = json 500 (JObj [("error", JStr "Internal server error")]).
Proof.
  intros Hf. unfold proxy, bind. destruct (fire net samples k c u o s) as [r s'].
  simpl in Hf. subst r. simpl. now rewrite respond_fallback.
Qed.

Lemma userOrders_fallback userId : userOrders userId (fallback ordersCircuit) = None.
Proof. reflexivity. Qed.

(** C6 on the code: the identity service answers 200 in time, the orders
    breaker is open; the aggregated read fails on the fallback value, which
    has no [data] to read [data.data] from, and answers 500. *)
Theorem details_with_orders_unavailable
  (k : Clock) (req : Request) (st : State) (w w' : W) (elapsed : Z) (data : JsVal) :
  state (users st) = Closed ->
  net {| circuit := usersCircuit;
         url := USERS_SERVICE_URL +:+ "/users/" +:+ param req;
         options := noOptions |} w = (Responded elapsed 200 data, w') ->
  elapsed <= 3000 ->
  state (orders st) = Open ->
  nowMs k - openedAt (orders st) < 3000 ->
  fst (userDetails net samples k req (st, w))
  = json 500 (JObj [("success", JBool false); ("error", JStr "Internal server error")]).
Proof.
  intros Hu Hnet He Ho Hc. unfold userDetails. cbv zeta.
  unfold bind at 1. unfold fire at 1. unfold entry. simpl breaker. rewrite Hu, Hnet.
  unfold outcome, timedOut. simpl timeout.
  destruct (3000 <? elapsed) eqn:E; [apply Z.ltb_lt in E; lia|].
  cbn [action validateStatus].
  unfold bind at 1. rewrite fire_open; [|exact Ho|exact Hc].
  reflexivity.
Qed.

End Calls.

Lemma open_breaker_short_circuits_witness :
  let s1 := snd (fire failingNet 1 soon usersCircuit "u" noOptions (Gateway.init, tt)) in
  state (breaker usersCircuit (fst s1)) = Open
  /\ openedAt (breaker usersCircuit (fst s1)) = 100
  /\ fireAll failingNet 1 usersCircuit [(soon, "u", noOptions); (soon, "v", noOptions)] s1
     = ([fallback usersCircuit; fallback usersCircuit], s1).
Proof.
  apply (open_breaker_short_circuits failingNet 1 soon usersCircuit "u" noOptions
           Gateway.init tt [(soon, "u", noOptions); (soon, "v", noOptions)]).
  - reflexivity.
  - simpl. lia.
  - simpl. lia.
  - repeat constructor.
Defined.

Lemma fallback_is_answered_with_500_witness :
  fst (fire failingNet 1 soon usersCircuit (USERS_SERVICE_URL +:+ "/users/status")
         noOptions (setBreaker usersCircuit openBreaker Gateway.init, tt))
  = fallback usersCircuit
  /\ fst (proxy failingNet 1 usersCircuit (Some (USERS_SERVICE_URL +:+ "/users/status"))
            noOptions soon (setBreaker usersCircuit openBreaker Gateway.init, tt))
     = json 500 (JObj [("error", JStr "Internal server error")]).
Proof.
  split; [reflexivity|].
  apply (fallback_is_answered_with_500 failingNet 1). reflexivity.
Defined.

End FallbackFacts.

(* ===================================================================== *)
(** * The guards *)
(* ===================================================================== *)

Module GuardFacts.

Import Breaker RateLimiter Gateway.

Section Guards.
Context `{Platform} {W : Type}.
Variable net : Outbound -> W -> Transport * W.
Variable samples : Z.
Variable listUsersHandler myOrdersHandler healthHandler : Handler (W := W).

Local Abbreviation dispatch :=
  (dispatch net samples listUsersHandler myOrdersHandler healthHandler).
Local Abbreviation handler :=
  (handler net samples listUsersHandler myOrdersHandler healthHandler).

(** Every route that authenticates does so first. *)
Lemma authenticated_first r :
  In AuthenticateJWT (guards r) -> exists rest, guards r = AuthenticateJWT :: rest.
Proof.
  destruct r; simpl; intros Hin; eauto;
    repeat (destruct Hin as [Hin|Hin]; [discriminate|]); contradiction.
Qed.

(** A route that requires roles is declared with the token check and the
    role check, in this order, and nothing else. *)
Lemma role_guarded r allowed :
  In (RequireRoles allowed) (guards r) ->
  guards r = [AuthenticateJWT; RequireRoles allowed].
Proof.
  destruct r; simpl; intros Hin;
    repeat (destruct Hin as [Hin|Hin]; [try discriminate|]);
    try contradiction; now inversion Hin.
Qed.

Lemma authenticateJWT_rejects k req next (s : State * W) :
  invalidCredential req ->
  statusCode (fst (authenticateJWT k req next s)) = 401
  /\ snd (authenticateJWT k req next s) = s.
Proof.
  unfold invalidCredential, authenticateJWT.
  destruct (given (bearerToken (authorization req))) as [token|]; [|now split].
  intros ->. now split.
Qed.

Lemma authenticateJWT_accepts k req (next : Request -> M (W := W) Response)
  token decoded :
  given (bearerToken (authorization req)) = Some token ->
  jwt_verify token JWT_SECRET = Some decoded ->
  authenticateJWT k req next = next (withUser decoded req).
Proof. unfold authenticateJWT. now intros -> ->. Qed.

(** C4. On every route declared with the token check, a request whose
    credential is absent, malformed or fails verification causes no outbound
    call and changes nothing outside the gateway; once past the general
    limiter it is answered 401. *)
Theorem invalid_credential_is_rejected
  (r : Route) (k : Clock) (req : Request) (st : State) (w : W) :
  In AuthenticateJWT (guards r) ->
  invalidCredential req ->
  let out := dispatch r k req (st, w) in
  sent (fst (snd out)) = sent st
  /\ snd (snd out) = w
  /\ (passesLimiter k req st -> statusCode (fst out) = 401).
Proof.
  intros Hr Hbad out. destruct (authenticated_first r Hr) as [rest Hg].
  subst out. unfold Gateway.dispatch, passesLimiter. rewrite Hg.
  cbn [map chain middleware]. unfold rateLimit. simpl limiterOptions. simpl store.
  destruct (hit generalLimiter (nowMs k) (ip req) (generalStore st)) as [hits store'].
  simpl fst.
  destruct (throttled generalLimiter hits); [simpl; repeat split; auto; discriminate|].
  match goal with
  | |- context [authenticateJWT k req ?next ?s] =>
      destruct (authenticateJWT_rejects k req next s Hbad) as [H401 Hsame];
      destruct (authenticateJWT k req next s) as [res [st2 w2]]
  end.
  simpl in H401, Hsame. inversion Hsame; subst. simpl. repeat split; auto.
Qed.

Lemma rolesInclude_In roles role :
  rolesInclude roles role = true <-> In (JStr role) roles.
Proof.
  unfold rolesInclude. rewrite existsb_exists. split.
  - intros [v [Hin Hv]]. destruct v; try discriminate.
    apply String.eqb_eq in Hv. now subst.
  - intros Hin. exists (JStr role). split; [exact Hin|apply String.eqb_refl].
Qed.

(** The permission check is the non-emptiness of the intersection. *)
Lemma hasPermission_intersects allowed roles :
  hasPermission allowed roles = true
  <-> exists role, In role allowed /\ In (JStr role) roles.
Proof.
  unfold hasPermission. rewrite existsb_exists.
  split; intros [role [Ha Hr]]; exists role; split; auto;
    now apply rolesInclude_In.
Qed.

Lemma requireRoles_unauthenticated allowed k req
  (next : Request -> M (W := W) Response) s :
  truthy (user req) = false ->
  requireRoles allowed k req next s
  = (json 401 (JObj [("success", JBool false);
                     ("error", JObj [("message", JStr "Authentication required")])]), s).
Proof. unfold requireRoles. now intros ->. Qed.

(** The general limiter in front of a continuation that leaves the gateway
    and the world alone. *)
Lemma general_limiter_pure k req (res : Response) st (w : W) :
  let out := rateLimit general k req (fun _ s => (res, s)) (st, w) in
  sent (fst (snd out)) = sent st /\ snd (snd out) = w
  /\ (passesLimiter k req st -> fst out = res).
Proof.
  unfold rateLimit, passesLimiter. cbv zeta. simpl limiterOptions. simpl store.
  destruct (hit generalLimiter (nowMs k) (ip req) (generalStore st)) as [hits store'].
  simpl fst.
  destruct (throttled generalLimiter hits); simpl; repeat split; auto; discriminate.
Qed.

(** A limiter hands the request it was given to what follows. *)
Lemma rateLimit_same l k req (f g : Request -> M (W := W) Response) s :
  (forall s', f req s' = g req s') ->
  rateLimit l k req f s = rateLimit l k req g s.
Proof.
  intros Hfg. unfold rateLimit. destruct s as [st w].
  destruct (hit _ _ _ _) as [hits store']. destruct (throttled _ _); [reflexivity|].
  now rewrite Hfg.
Qed.

(** Past the token check, a role-guarded route is its handler on the
    request with the claims attached when the permission check passes, and
    a 403 otherwise. *)
Lemma chain_with_roles r allowed k req token decoded roles (s : State * W) :
  In (RequireRoles allowed) (guards r) ->
  given (bearerToken (authorization req)) = Some token ->
  jwt_verify token JWT_SECRET = Some decoded ->
  get decoded "roles" = Some (JArr roles) ->
  chain (map middleware (guards r)) (handler r) k req s
  = if hasPermission allowed roles
    then handler r k (withUser decoded req) s
    else (forbidden ("Access denied. Required roles: "
                     +:+ String.concat ", " allowed), s).
Proof.
  intros Hr Htok Hver Hroles.
  assert (truthy decoded = true) as Htruthy.
  { destruct decoded; simpl in Hroles; try discriminate; reflexivity. }
  rewrite (role_guarded r allowed Hr). cbn [map chain middleware].
  rewrite (authenticateJWT_accepts _ _ _ _ _ Htok Hver).
  unfold requireRoles. cbn [user withUser]. rewrite Htruthy, Hroles. simpl negb.
  cbv iota. now destruct (hasPermission allowed roles).
Qed.

(** C5, as the code has it. On a route that requires roles, for a request
    past the general limiter whose token verifies and carries a role array:
    when some required role is among the caller's roles the handler is
    reached with the claims attached; when none is, the answer is 403 and no
    outbound call is made. A request that reaches the Role Guard without
    claims is answered 401 by it, not 403. *)
Theorem role_guard_decides
  (r : Route) (allowed : list string) (k : Clock) (req : Request)
  (st : State) (w : W) (token : string) (decoded : JsVal) (roles : list JsVal) :
  In (RequireRoles allowed) (guards r) ->
  given (bearerToken (authorization req)) = Some token ->
  jwt_verify token JWT_SECRET = Some decoded ->
  get decoded "roles" = Some (JArr roles) ->
  passesLimiter k req st ->
  let out := dispatch r k req (st, w) in
  ((exists role, In role allowed /\ In (JStr role) roles) ->
     out = rateLimit general k req
             (fun _ => handler r k (withUser decoded req)) (st, w))
  /\ (~ (exists role, In role allowed /\ In (JStr role) roles) ->
       statusCode (fst out) = 403
       /\ sent (fst (snd out)) = sent st /\ snd (snd out) = w)
  /\ (forall (anonymous : Request) (next : Request -> M (W := W) Response) s,
        truthy (user anonymous) = false ->
        statusCode (fst (requireRoles allowed k anonymous next s)) = 401
        /\ snd (requireRoles allowed k anonymous next s) = s).
Proof.
  intros Hr Htok Hver Hroles Hadm out.
  pose proof (fun s => chain_with_roles r allowed k req token decoded roles s
                         Hr Htok Hver Hroles) as Hchain.
  subst out. unfold Gateway.dispatch. split; [|split].
  - intros Hg. apply hasPermission_intersects in Hg.
    apply rateLimit_same. intros s'. now rewrite Hchain, Hg.
  - intros Hno.
    assert (hasPermission allowed roles = false) as Hfalse.
    { destruct (hasPermission allowed roles) eqn:E; [|reflexivity].
      exfalso. apply Hno. now apply hasPermission_intersects. }
    rewrite (rateLimit_same general k req _
               (fun _ s => (forbidden ("Access denied. Required roles: "
                                       +:+ String.concat ", " allowed), s))).
    + destruct (general_limiter_pure k req
                  (forbidden ("Access denied. Required roles: "
                              +:+ String.concat ", " allowed)) st w)
        as (Hsent & Hw & Hres).
      repeat split; [|exact Hsent|exact Hw]. now rewrite (Hres Hadm).
    + intros s'. now rewrite Hchain, Hfalse.
  - intros anonymous next s Hanon.
    now rewrite requireRoles_unauthenticated by assumption.
Qed.

End Guards.

End GuardFacts.

(* ===================================================================== *)
(** * Calls that get an answer *)
(* ===================================================================== *)

Module CallFacts.

Import Breaker RateLimiter Gateway.

Section Calls.
Context {W : Type}.
Variable net : Outbound -> W -> Transport * W.
Variable samples : Z.

(** Through a closed breaker, a response in time is handed over as
    [{ data, status }], recorded as a success and logged as sent. *)
Lemma fire_closed_response k c u o st w elapsed status body w' :
  state (breaker c st) = Closed ->
  net {| circuit := c; url := u; options := o |} w = (Responded elapsed status body, w') ->
  elapsed <= 3000 ->
  fire net samples k c u o (st, w)
  = (JObj [("data", body); ("status", JNum status)],
     (setBreaker c (settle (circuitOptions samples) (nowMs k) true (breaker c st))
        (logSent {| circuit := c; url := u; options := o |} st), w')).
Proof.
  intros Hc Hnet He. unfold fire, entry. rewrite Hc, Hnet.
  unfold isFailure, outcome, timedOut. simpl timeout.
  destruct (3000 <? elapsed) eqn:E; [apply Z.ltb_lt in E; lia|].
  reflexivity.
Qed.

(** A healthy breaker stays so after a success. *)
Lemma settle_healthy now b :
  Healthy b -> Healthy (settle (circuitOptions samples) now true b).
Proof.
  intros (Hc & Hf & Hr). unfold settle. rewrite Hc. cbv zeta.
  assert (tripped (circuitOptions samples) (record true (windowStats b)) = false) as Ht.
  { unfold tripped, record. simpl. rewrite Hf.
    apply andb_false_iff. right. apply Z.ltb_ge. lia. }
  rewrite Ht. repeat split; simpl; auto; lia.
Qed.

Lemma hit_lookup o now key (store : gmap string Bucket) :
  snd (hit o now key store) !! key
  = Some {| windowStart := windowStart (current o now (store !! key));
            count := count (current o now (store !! key)) + 1 |}.
Proof. unfold hit. simpl. apply lookup_insert_eq. Qed.

Lemma hit_count o now key (store : gmap string Bucket) :
  fst (hit o now key store) = count (current o now (store !! key)) + 1.
Proof. reflexivity. Qed.

Lemma current_same o now t n :
  now < t + windowMs o ->
  current o now (Some {| windowStart := t; count := n |})
  = {| windowStart := t; count := n |}.
Proof.
  intros Hw. unfold current. simpl.
  destruct (now <? t + windowMs o) eqn:E; [reflexivity|].
  apply Z.ltb_ge in E. lia.
Qed.

(** A request that ends well gives its slot back: the count is what it was
    before the request. *)
Lemma hit_refund o now key (store : gmap string Bucket) :
  0 <= count (current o now (store !! key)) ->
  refund key (snd (hit o now key store)) !! key
  = Some (current o now (store !! key)).
Proof.
  intros Hc. unfold refund. rewrite hit_lookup. rewrite lookup_insert_eq.
  simpl. destruct (current o now (store !! key)) as [t n]. simpl in *.
  f_equal. f_equal. lia.
Qed.

End Calls.

End CallFacts.

(* ===================================================================== *)
(** * Six login attempts with a wrong password *)
(* ===================================================================== *)
Module LoginFacts.

Import Breaker RateLimiter Gateway Deployment Scenario CallFacts.

Section Scenario.
Context `{Platform}.
Variable samples : Z.
Variable listUsersHandler myOrdersHandler healthHandler : Handler (W := World).

Local Abbreviation dispatch :=
  (dispatch net samples listUsersHandler myOrdersHandler healthHandler).

Lemma login_wrong b us :
  wrongPassword b us -> UsersService.login b us = invalidLogin.
Proof.
  intros (e & pw & u & Hp & Hf & Hne). unfold UsersService.login. rewrite Hp, Hf.
  destruct (String.eqb (UsersService.passwordHash u) pw) eqn:E; [|reflexivity].
  apply String.eqb_eq in E. contradiction.
Qed.

Lemma net_login req w :
  net (loginCall req) w
  = (Responded (latency w)
       (statusCode (UsersService.login (body req) (usersState w)))
       (Js.body (UsersService.login (body req) (usersState w))), w).
Proof.
  unfold net, loginCall. cbn [circuit url options method data].
  change (target USERS_SERVICE_URL (USERS_SERVICE_URL +:+ "/users/login"))
    with (Some (["users"; "login"], @nil (string * string))).
  cbn [usersRoute UsersService.handle]. unfold setUsers. now destruct w.
Qed.

Lemma login_attempt_counts k req st w :
  wrongPassword (body req) (usersState w) ->
  latency w <= 3000 ->
  state (users st) = Closed ->
  fst (hit generalLimiter (nowMs k) (ip req) (generalStore st)) <= 100 ->
  fst (hit authLimiter (nowMs k) (ip req) (authStore st)) <= 5 ->
  dispatch Login k req (st, w) = (invalidLogin, (afterLogin samples k req st, w)).
Proof.
  intros Hwrong Hlat Hc Hg Ha.
  unfold Gateway.dispatch. cbn [guards map middleware chain handler].
  unfold rateLimit at 1. simpl limiterOptions. simpl store.
  destruct (hit generalLimiter (nowMs k) (ip req) (generalStore st)) as [hits gs] eqn:Eg.
  simpl in Hg.
  assert (throttled generalLimiter hits = false) as Hng.
  { unfold throttled. simpl. apply Z.ltb_ge. lia. }
  rewrite Hng.
  unfold rateLimit at 1. simpl limiterOptions. cbn [store setStore authStore].
  destruct (hit authLimiter (nowMs k) (ip req) (authStore st)) as [hits' as'] eqn:Ea.
  simpl in Ha.
  assert (throttled authLimiter hits' = false) as Hna.
  { unfold throttled. simpl. apply Z.ltb_ge. lia. }
  rewrite Hna.
  unfold proxy, bind.
  rewrite (fire_closed_response net samples k usersCircuit _ _ _ w (latency w)
             (statusCode (UsersService.login (body req) (usersState w)))
             (Js.body (UsersService.login (body req) (usersState w))) w);
    [|exact Hc|apply net_login|exact Hlat].
  rewrite (login_wrong _ _ Hwrong).
  unfold afterLogin. rewrite Eg, Ea. reflexivity.
Qed.

Lemma login_attempt_throttled k req st w :
  fst (hit generalLimiter (nowMs k) (ip req) (generalStore st)) <= 100 ->
  5 < fst (hit authLimiter (nowMs k) (ip req) (authStore st)) ->
  dispatch Login k req (st, w) = (throttledLogin, (afterThrottle k req st, w)).
Proof.
  intros Hg Ha.
  unfold Gateway.dispatch. cbn [guards map middleware chain handler].
  unfold rateLimit at 1. simpl limiterOptions. simpl store.
  destruct (hit generalLimiter (nowMs k) (ip req) (generalStore st)) as [hits gs] eqn:Eg.
  simpl in Hg.
  assert (throttled generalLimiter hits = false) as Hng.
  { unfold throttled. simpl. apply Z.ltb_ge. lia. }
  rewrite Hng.
  unfold rateLimit at 1. simpl limiterOptions. cbn [store setStore authStore].
  destruct (hit authLimiter (nowMs k) (ip req) (authStore st)) as [hits' as'] eqn:Ea.
  simpl in Ha.
  assert (throttled authLimiter hits' = true) as Hna.
  { unfold throttled. simpl. apply Z.ltb_lt. lia. }
  rewrite Hna. unfold afterThrottle. rewrite Eg, Ea. reflexivity.
Qed.

Lemma serve_app l1 l2 (s : State * World) :
  serve net samples listUsersHandler myOrdersHandler healthHandler (l1 ++ l2) s
  = let (r1, s1) := serve net samples listUsersHandler myOrdersHandler healthHandler l1 s in
    let (r2, s2) := serve net samples listUsersHandler myOrdersHandler healthHandler l2 s1 in
    (r1 ++ r2, s2).
Proof.
  revert s. induction l1 as [|[[r k] q] l1 IH]; intros s; simpl.
  - now destruct (serve _ _ _ _ _ l2 s).
  - unfold bind, ret.
    destruct (Gateway.dispatch _ _ _ _ _ r k q s) as [res s1].
    rewrite IH.
    destruct (serve _ _ _ _ _ l1 s1) as [r1 s2]. simpl.
    destruct (serve _ _ _ _ _ l2 s2) as [r2 s3]. reflexivity.
Qed.

Lemma counted_step k req st t1 n :
  Counted (ip req) t1 n st ->
  nowMs k < t1 + 15 * 60 * 1000 ->
  Counted (ip req) t1 (n + 1) (afterLogin samples k req st)
  /\ fst (hit generalLimiter (nowMs k) (ip req) (generalStore st)) = n + 1
  /\ fst (hit authLimiter (nowMs k) (ip req) (authStore st)) = n + 1.
Proof.
  intros (Hh & Ha & Hg) Hw.
  assert (current authLimiter (nowMs k) (authStore st !! ip req)
          = {| windowStart := t1; count := n |}) as Hca.
  { rewrite Ha. now apply current_same. }
  assert (current generalLimiter (nowMs k) (generalStore st !! ip req)
          = {| windowStart := t1; count := n |}) as Hcg.
  { rewrite Hg. now apply current_same. }
  repeat split.
  - apply settle_healthy, Hh.
  - apply settle_healthy, Hh.
  - apply settle_healthy, Hh.
  - unfold afterLogin. cbn [authStore]. rewrite hit_lookup, Hca. reflexivity.
  - unfold afterLogin. cbn [generalStore]. rewrite hit_lookup, Hcg. reflexivity.
  - rewrite hit_count, Hcg. reflexivity.
  - rewrite hit_count, Hca. reflexivity.
Qed.

Lemma more_wrong_logins req w t1 ks : forall st n,
  wrongPassword (body req) (usersState w) ->
  latency w <= 3000 ->
  n + Z.of_nat (length ks) <= 5 ->
  Counted (ip req) t1 n st ->
  Forall (fun k => nowMs k < t1 + 15 * 60 * 1000) ks ->
  exists st',
    serve net samples listUsersHandler myOrdersHandler healthHandler
      (map (attempt req) ks) (st, w)
    = (repeat invalidLogin (length ks), (st', w))
    /\ Counted (ip req) t1 (n + Z.of_nat (length ks)) st'
    /\ sent st' = sent st ++ repeat (loginCall req) (length ks).
Proof.
  induction ks as [|k ks IH]; intros st n Hwrong Hlat Hn Hc Hall.
  - exists st. simpl. rewrite Z.add_0_r, app_nil_r. auto.
  - apply Forall_cons in Hall as [Hk Hall].
    destruct (counted_step k req st t1 n Hc Hk) as (Hc' & Hg & Ha).
    simpl length in Hn.
    destruct (IH (afterLogin samples k req st) (n + 1) Hwrong Hlat ltac:(lia) Hc' Hall)
      as (st' & Hserve & Hcount & Hsent).
    exists st'. simpl. unfold bind at 1.
    rewrite login_attempt_counts; [|exact Hwrong|exact Hlat|apply Hc|lia|lia].
    unfold bind at 1. rewrite Hserve. split; [reflexivity|split].
    + replace (n + Z.of_nat (S (length ks))) with (n + 1 + Z.of_nat (length ks)) by lia.
      exact Hcount.
    + rewrite Hsent. unfold afterLogin. cbn [sent]. now rewrite <- app_assoc.
Qed.

Lemma login_right b us :
  rightPassword b us -> statusCode (UsersService.login b us) = 200.
Proof.
  intros (e & pw & u & Hp & Hf & He). unfold UsersService.login. rewrite Hp, Hf.
  subst pw. now rewrite String.eqb_refl.
Qed.

(** A login that succeeds gives its slot of the stricter budget back. *)
Lemma login_success_refunded k req st w :
  rightPassword (body req) (usersState w) ->
  latency w <= 3000 ->
  state (users st) = Closed ->
  fst (hit generalLimiter (nowMs k) (ip req) (generalStore st)) <= 100 ->
  fst (hit authLimiter (nowMs k) (ip req) (authStore st)) <= 5 ->
  dispatch Login k req (st, w)
  = (json 200 (Js.body (UsersService.login (body req) (usersState w))),
     (afterSuccess samples k req st, w)).
Proof.
  intros Hright Hlat Hc Hg Ha.
  unfold Gateway.dispatch. cbn [guards map middleware chain handler].
  unfold rateLimit at 1. simpl limiterOptions. simpl store.
  destruct (hit generalLimiter (nowMs k) (ip req) (generalStore st)) as [hits gs] eqn:Eg.
  simpl in Hg.
  assert (throttled generalLimiter hits = false) as Hng.
  { unfold throttled. simpl. apply Z.ltb_ge. lia. }
  rewrite Hng.
  unfold rateLimit at 1. simpl limiterOptions. cbn [store setStore authStore].
  destruct (hit authLimiter (nowMs k) (ip req) (authStore st)) as [hits' as'] eqn:Ea.
  simpl in Ha.
  assert (throttled authLimiter hits' = false) as Hna.
  { unfold throttled. simpl. apply Z.ltb_ge. lia. }
  rewrite Hna.
  unfold proxy, bind.
  rewrite (fire_closed_response net samples k usersCircuit _ _ _ w (latency w)
             (statusCode (UsersService.login (body req) (usersState w)))
             (Js.body (UsersService.login (body req) (usersState w))) w);
    [|exact Hc|apply net_login|exact Hlat].
  rewrite (login_right _ _ Hright).
  unfold afterSuccess. rewrite Eg, Ea. reflexivity.
Qed.

Lemma first_attempt_counted k req st :
  Healthy (users st) ->
  authStore st !! ip req = None ->
  generalStore st !! ip req = None ->
  Counted (ip req) (nowMs k) 1 (afterLogin samples k req st)
  /\ fst (hit generalLimiter (nowMs k) (ip req) (generalStore st)) = 1
  /\ fst (hit authLimiter (nowMs k) (ip req) (authStore st)) = 1.
Proof.
  intros Hh Ha Hg. split; [split; [|split]|split].
  - apply settle_healthy, Hh.
  - unfold afterLogin. cbn [authStore]. rewrite hit_lookup, Ha. reflexivity.
  - unfold afterLogin. cbn [generalStore]. rewrite hit_lookup, Hg. reflexivity.
  - rewrite hit_count, Hg. reflexivity.
  - rewrite hit_count, Ha. reflexivity.
Qed.

(** C7. A client with no request in the current window makes six login
    attempts with a wrong password, all less than 15 minutes after the first,
    against a users service that answers in time. The first five are
    answered 401 by the service and use up the budget of five of the
    credential-issuing limiter; the sixth is answered 429 and no request is
    sent upstream for it. A login that succeeds does not count. *)
Theorem six_wrong_logins
  (k1 : Clock) (ks : list Clock) (k6 : Clock) (req : Request)
  (st : State) (w : World) :
  length ks = 4%nat ->
  wrongPassword (body req) (usersState w) ->
  latency w <= 3000 ->
  Healthy (users st) ->
  authStore st !! ip req = None ->
  generalStore st !! ip req = None ->
  Forall (fun k => nowMs k < nowMs k1 + 15 * 60 * 1000) (ks ++ [k6]) ->
  let serve := serve net samples listUsersHandler myOrdersHandler healthHandler in
  let five := serve (map (attempt req) (k1 :: ks)) (st, w) in
  let six := serve (map (attempt req) (k1 :: ks ++ [k6])) (st, w) in
  map statusCode (fst five) = [401; 401; 401; 401; 401]
  /\ authStore (fst (snd five)) !! ip req
     = Some {| windowStart := nowMs k1; count := 5 |}
  /\ map statusCode (fst six) = [401; 401; 401; 401; 401; 429]
  /\ sent (fst (snd six)) = sent st ++ repeat (loginCall req) 5
  /\ snd (snd six) = w
  /\ (forall (k : Clock) (ok : Request),
        rightPassword (body ok) (usersState w) ->
        authStore st !! ip ok = None ->
        generalStore st !! ip ok = None ->
        let out := dispatch Login k ok (st, w) in
        statusCode (fst out) = 200
        /\ authStore (fst (snd out)) !! ip ok
           = Some {| windowStart := nowMs k; count := 0 |}).
Proof.
  intros Hlen Hwrong Hlat Hh Ha Hg Hall serve' five six.
  apply Forall_app in Hall as [Hks H6]. apply Forall_cons in H6 as [H6 _].
  destruct (first_attempt_counted k1 req st Hh Ha Hg) as (Hc1 & Hg1 & Ha1).
  destruct (more_wrong_logins req w (nowMs k1) ks (afterLogin samples k1 req st) 1
              Hwrong Hlat ltac:(rewrite Hlen; simpl; lia) Hc1 Hks)
    as (st5 & Hserve & Hc5 & Hsent5).
  rewrite Hlen in Hserve, Hc5, Hsent5. simpl in Hc5.
  assert (five = (repeat invalidLogin 5, (st5, w))) as Hfive.
  { unfold five, serve'. simpl. unfold bind at 1.
    rewrite login_attempt_counts; [|exact Hwrong|exact Hlat|apply Hh|lia|lia].
    unfold bind at 1. rewrite Hserve. reflexivity. }
  assert (six = (repeat invalidLogin 5 ++ [throttledLogin],
                 (afterThrottle k6 req st5, w))) as Hsix.
  { unfold six, serve'.
    change (k1 :: ks ++ [k6]) with ((k1 :: ks) ++ [k6]).
    rewrite map_app, serve_app.
    change (Gateway.serve net samples listUsersHandler myOrdersHandler healthHandler
              (map (attempt req) (k1 :: ks)) (st, w)) with five.
    rewrite Hfive. simpl. unfold bind at 1.
    destruct Hc5 as (Hh5 & Ha5 & Hg5).
    rewrite login_attempt_throttled.
    - reflexivity.
    - rewrite hit_count, Hg5, current_same by exact H6. simpl. lia.
    - rewrite hit_count, Ha5, current_same by exact H6. simpl. lia. }
  rewrite Hfive, Hsix. cbn [fst snd].
  split; [reflexivity|]. split; [apply Hc5|]. split; [reflexivity|].
  split; [|split; [reflexivity|]].
  - unfold afterThrottle. cbn [sent]. rewrite Hsent5. unfold afterLogin. cbn [sent].
    now rewrite <- app_assoc.
  - intros k ok Hright Hao Hgo.
    rewrite (login_success_refunded k ok st w Hright Hlat (proj1 Hh)).
    + split; [reflexivity|]. unfold afterSuccess. cbn [fst snd authStore].
      rewrite hit_refund; rewrite Hao; [reflexivity|simpl; lia].
    + rewrite hit_count, Hgo. simpl. lia.
    + rewrite hit_count, Hao. simpl. lia.
Qed.

End Scenario.
End LoginFacts.

(* ===================================================================== *)
(** * Creating an order *)
(* ===================================================================== *)
Module OrderFacts.

Import Breaker RateLimiter Gateway Deployment Scenario CallFacts.

Section Scenario.
Context `{Platform}.
Variable samples : Z.
Variable listUsersHandler myOrdersHandler healthHandler : Handler (W := World).

Local Abbreviation dispatch :=
  (dispatch net samples listUsersHandler myOrdersHandler healthHandler).

Lemma orderBody_valid userId productName :
  1 <= userId -> productName <> "" ->
  OrdersService.createOrderSchema (orderBody userId productName)
  = inr (orderData userId productName).
Proof.
  intros Hu Hn. unfold OrdersService.createOrderSchema, orderBody.
  unfold zObject. cbn [field assoc String.eqb Ascii.eqb Bool.eqb].
  assert ((1 <=? userId) = true) as Hq by (apply Z.leb_le; lia).
  assert (String.eqb productName "" = false) as Hp by (now apply String.eqb_neq).
  unfold zNumberMin at 1. rewrite Hq.
  unfold zArrayMin1, zArray, OrdersService.OrderItemSchema, zObject.
  cbn [imap collect field assoc String.eqb Ascii.eqb Bool.eqb].
  unfold zStringMin1. rewrite Hp. reflexivity.
Qed.


Lemma create_valid userId productName userExists now os :
  1 <= userId -> productName <> "" -> userExists userId = true ->
  OrdersService.create (orderBody userId productName) userExists now os
  = (OrdersService.success 201
       (OrdersService.orderObj (newOrder userId productName now os)),
     ordersAfter userId productName now os).
Proof.
  intros Hu Hn He. unfold OrdersService.create.
  rewrite orderBody_valid by assumption. cbn [OrdersService.co_userId orderData].
  rewrite He. reflexivity.
Qed.

Lemma net_createOrder req w :
  net (createOrderCall req) w
  = let (res, os) :=
      OrdersService.create (body req) (checkUserExists (Some (usersState w)))
        (serviceTime w) (ordersState w) in
    (Responded (latency w) (statusCode res) (Js.body res), setOrders os w).
Proof.
  unfold net, createOrderCall. cbn [circuit url options method data].
  change (target ORDERS_SERVICE_URL (ORDERS_SERVICE_URL +:+ "/orders"))
    with (Some (["orders"], @nil (string * string))).
  reflexivity.
Qed.

Lemma createOrder_valid k req st w userId productName claimedId :
  body req = orderBody userId productName ->
  1 <= userId -> productName <> "" ->
  checkUserExists (Some (usersState w)) userId = true ->
  get (user req) "id" = Some claimedId ->
  state (orders st) = Closed ->
  latency w <= 3000 ->
  let o := newOrder userId productName (serviceTime w) (ordersState w) in
  createOrder net samples k req (st, w)
  = (OrdersService.success 201 (OrdersService.orderObj o),
     (setPublisher (Events.publish (createdEvent k claimedId o) (publisher st))
        (setBreaker ordersCircuit
           (settle (circuitOptions samples) (nowMs k) true (orders st))
           (logSent (createOrderCall req) st)),
      setOrders (ordersAfter userId productName (serviceTime w) (ordersState w)) w)).
Proof.
  intros Hb Hu Hn He Hid Hc Hlat o. unfold createOrder.
  unfold bind at 1.
  rewrite (fire_closed_response net samples k ordersCircuit
             (ORDERS_SERVICE_URL +:+ "/orders") {| method := POST; data := body req |}
             st w (latency w) 201
             (Js.body (OrdersService.success 201 (OrdersService.orderObj o)))
             (setOrders (ordersAfter userId productName (serviceTime w) (ordersState w)) w));
    [|exact Hc| |exact Hlat].
  2:{ change (net (createOrderCall req) w = (Responded (latency w) 201
               (Js.body (OrdersService.success 201 (OrdersService.orderObj o))),
               setOrders (ordersAfter userId productName (serviceTime w) (ordersState w)) w)).
      rewrite net_createOrder, Hb, create_valid by assumption. reflexivity. }
  match goal with
  | |- context [succeededWith 201 ?r] =>
      change (succeededWith 201 r) with true;
      assert (orderCreatedEvent k req r = Some (createdEvent k claimedId o)) as Hev
  end.
  { unfold orderCreatedEvent. simpl. rewrite Hid. reflexivity. }
  cbv iota. rewrite Hev. reflexivity.
Qed.


(** The schema of the orders service refuses every body whose items are
    the ones of the scenario: the item has no product name. *)
Lemma scenario_items_refused f :
  field "items" f = scenarioItems ->
  exists errs, OrdersService.createOrderSchema (JObj f) = inl errs.
Proof.
  intros Hi. unfold OrdersService.createOrderSchema, zObject. rewrite Hi.
  assert (exists e, zArrayMin1 "Order must contain at least one item"
                      OrdersService.OrderItemSchema ["items"] scenarioItems
                    = inl e) as [e ->] by (eexists; reflexivity).
  destruct (zNumberMin 1 _ _ _); destruct (zOptional _ _ _);
    destruct (zDefault _ _ _ _); simpl; eauto.
Qed.

(** A body the schema refuses is answered 400 by the orders service, which
    stays as it was; the gateway passes the answer on and publishes
    nothing. *)
Lemma createOrder_refused k req st w errs :
  OrdersService.createOrderSchema (body req) = inl errs ->
  state (orders st) = Closed ->
  latency w <= 3000 ->
  createOrder net samples k req (st, w)
  = (OrdersService.validationFailed errs,
     (setBreaker ordersCircuit
        (settle (circuitOptions samples) (nowMs k) true (orders st))
        (logSent (createOrderCall req) st), w)).
Proof.
  intros Hs Hc Hlat. unfold createOrder. unfold bind at 1.
  rewrite (fire_closed_response net samples k ordersCircuit
             (ORDERS_SERVICE_URL +:+ "/orders") {| method := POST; data := body req |}
             st w (latency w) 400
             (Js.body (OrdersService.validationFailed errs)) w);
    [reflexivity|exact Hc| |exact Hlat].
  change (net (createOrderCall req) w
          = (Responded (latency w) 400
               (Js.body (OrdersService.validationFailed errs)), w)).
  rewrite net_createOrder. unfold OrdersService.create. rewrite Hs.
  simpl. now destruct w.
Qed.

(** C8, as the code has it. An authenticated caller with one of the roles
    Customer, Manager or Admin posts an order whose items are the ones of
    the scenario, [{productId: "p1", quantity: 2, price: 10}], with or
    without other keys in the body. The orders service answers in time: it
    refuses the body, whose item has no product name, and stores nothing;
    the gateway answers 400, "Validation failed", and publishes no event. *)
Theorem scenario_order_is_refused
  (k : Clock) (req : Request) (st : State) (w : World)
  (token : string) (decoded : JsVal) (roles : list JsVal)
  (f : list (string * JsVal)) :
  body req = JObj f ->
  field "items" f = scenarioItems ->
  given (bearerToken (authorization req)) = Some token ->
  jwt_verify token JWT_SECRET = Some decoded ->
  get decoded "roles" = Some (JArr roles) ->
  (exists role, In role ["Customer"; "Manager"; "Admin"] /\ In (JStr role) roles) ->
  passesLimiter k req st ->
  state (orders st) = Closed ->
  latency w <= 3000 ->
  let out := dispatch CreateOrder k req (st, w) in
  statusCode (fst out) = 400
  /\ get (Js.body (fst out)) "success" = Some (JBool false)
  /\ get (Js.body (fst out)) "error" = Some (JStr "Validation failed")
  /\ Events.published (publisher (fst (snd out))) = Events.published (publisher st)
  /\ snd (snd out) = w.
Proof.
  intros Hb Hi Htok Hver Hroles Hgranted Hadm Hc Hlat out.
  destruct (scenario_items_refused f Hi) as [errs Herrs].
  apply GuardFacts.hasPermission_intersects in Hgranted.
  assert (exists st', out = (OrdersService.validationFailed errs, (st', w))
                      /\ publisher st' = publisher st) as (st' & Hout & Hpub).
  { subst out. unfold Gateway.dispatch, rateLimit. simpl limiterOptions. simpl store.
    unfold passesLimiter in Hadm.
    destruct (hit generalLimiter (nowMs k) (ip req) (generalStore st)) as [hits gs].
    simpl in Hadm. rewrite Hadm.
    rewrite (GuardFacts.chain_with_roles net samples listUsersHandler myOrdersHandler
               healthHandler CreateOrder ["Customer"; "Manager"; "Admin"]
               k req token decoded roles _ ltac:(simpl; auto) Htok Hver Hroles).
    rewrite Hgranted. cbn [handler].
    rewrite (createOrder_refused k (withUser decoded req) (setStore general gs st) w
               errs); [| |exact Hc|exact Hlat].
    - eexists. split; reflexivity.
    - cbn [body withUser]. now rewrite Hb. }
  rewrite Hout. cbn [fst snd]. rewrite Hpub. repeat split.
Qed.

(** X30. An authenticated caller with one of the roles Customer, Manager or
    Admin posts an order for an existing user with the one item p1, named,
    quantity 2 at price 10 and no total. The orders service answers in
    time; the gateway returns its 201 success envelope, whose order has the
    total 20 and the next id of the store, and publishes exactly one event,
    of type order.created, whose aggregate id is that id. *)
Theorem order_created_once
  (k : Clock) (req : Request) (st : State) (w : World)
  (token : string) (decoded : JsVal) (roles : list JsVal)
  (userId : Z) (productName : string) :
  body req = orderBody userId productName ->
  1 <= userId ->
  productName <> "" ->
  checkUserExists (Some (usersState w)) userId = true ->
  given (bearerToken (authorization req)) = Some token ->
  jwt_verify token JWT_SECRET = Some decoded ->
  get decoded "roles" = Some (JArr roles) ->
  (exists role, In role ["Customer"; "Manager"; "Admin"] /\ In (JStr role) roles) ->
  passesLimiter k req st ->
  state (orders st) = Closed ->
  latency w <= 3000 ->
  let out := dispatch CreateOrder k req (st, w) in
  let orderId := OrdersService.currentId (ordersState w) in
  statusCode (fst out) = 201
  /\ get (Js.body (fst out)) "success" = Some (JBool true)
  /\ (exists order,
        get (Js.body (fst out)) "data" = Some order
        /\ get order "totalAmount" = Some (JNum 20)
        /\ get order "id" = Some (JNum orderId))
  /\ (exists e,
        Events.published (publisher (fst (snd out)))
        = Events.published (publisher st) ++ [e]
        /\ Events.type e = Events.ORDER_CREATED
        /\ Events.aggregateId e = JNum orderId).
Proof.
  intros Hb Hu Hn He Htok Hver Hroles Hgranted Hadm Hc Hlat out orderId.
  assert (exists claimedId, get decoded "id" = Some claimedId) as [claimedId Hid].
  { destruct decoded; simpl in Hroles; try discriminate; simpl; eauto. }
  apply GuardFacts.hasPermission_intersects in Hgranted.
  set (o := newOrder userId productName (serviceTime w) (ordersState w)).
  assert (exists st', out = (OrdersService.success 201 (OrdersService.orderObj o),
                             (setPublisher
                                (Events.publish (createdEvent k claimedId o) (publisher st))
                                st', snd (snd out)))) as [st' Hout].
  { subst out. unfold Gateway.dispatch, rateLimit. simpl limiterOptions. simpl store.
    unfold passesLimiter in Hadm.
    destruct (hit generalLimiter (nowMs k) (ip req) (generalStore st)) as [hits gs].
    simpl in Hadm. rewrite Hadm.
    rewrite (GuardFacts.chain_with_roles net samples listUsersHandler myOrdersHandler
               healthHandler CreateOrder ["Customer"; "Manager"; "Admin"]
               k req token decoded roles _ ltac:(simpl; auto) Htok Hver Hroles).
    rewrite Hgranted. cbn [handler].
    rewrite (createOrder_valid k (withUser decoded req) (setStore general gs st) w
               userId productName claimedId Hb Hu Hn He Hid Hc Hlat).
    cbn. eexists. reflexivity. }
  rewrite Hout. cbn [fst snd]. repeat split.
  - exists (OrdersService.orderObj o). repeat split.
  - exists (createdEvent k claimedId o). repeat split.
Qed.

End Scenario.
End OrderFacts.

(* ===================================================================== *)
(** * Concrete runs of the properties *)
(* ===================================================================== *)

Module Runs.

Import Breaker RateLimiter Gateway Deployment Scenario Samples.

(** The ids on a short run: two users are created, the second is deleted,
    a third is created; its id is 3, not the freed 2. *)
Example ids_after_a_deletion :
  UsersService.issuedIds (H := demoPlatform)
    [(UsersService.Create (JObj [("email", JStr "a@x"); ("password", JStr "p"); ("name", JStr "A")]), "t1");
     (UsersService.Create (JObj [("email", JStr "b@x"); ("password", JStr "p"); ("name", JStr "B")]), "t2");
     (UsersService.Delete "2", "t3");
     (UsersService.Create (JObj [("email", JStr "c@x"); ("password", JStr "p"); ("name", JStr "C")]), "t4")]
    UsersService.init
  = [1; 2; 3].
Proof. reflexivity. Qed.

(** A user as the service returns it. *)
Example sanitized_ann :
  UsersService.sanitizeUser ann
  = JObj [("id", JNum 1); ("email", JStr "ann@example.com"); ("name", JStr "Ann");
          ("roles", JArr [JStr "Customer"]); ("createdAt", JStr "t0");
          ("updatedAt", JStr "t0")].
Proof. reflexivity. Qed.

(** The aggregated read when both services answer, and when the orders
    service answers with an error body: the list of orders is empty. *)
Example details_when_orders_answer_500 :
  aggregate (H := demoPlatform) "1"
    (JObj [("data", UsersService.sanitizeUser ann); ("status", JNum 200)])
    (JObj [("data", JObj [("success", JBool false); ("error", JStr "Internal server error")]);
           ("status", JNum 500)])
  = json 200 (JObj [("success", JBool true);
                    ("data", JObj [("user", UsersService.sanitizeUser ann);
                                   ("orders", JArr [])])]).
Proof. reflexivity. Qed.

(** C1 as stated fails on a 5xx: the upstream answers 500 within the
    timeout; the call is not a failure for the breaker, the window of the
    breaker records none, and the handler gets the 500 as data. *)
Lemma server_error_is_not_recorded :
  let out := fire erroringNet 0 soon usersCircuit
               (USERS_SERVICE_URL +:+ "/users/status") noOptions (Gateway.init, tt) in
  isFailure (circuitOptions 0)
    (Responded 20 500 (JObj [("error", JStr "Internal server error")])) = false
  /\ failures (windowStats (users (fst (snd out)))) = 0
  /\ fst out = JObj [("data", JObj [("error", JStr "Internal server error")]);
                     ("status", JNum 500)].
Proof. repeat split. Qed.

Lemma invalid_credential_is_rejected_witness :
  let out := Samples.dispatch GetUser soon anonymous (Gateway.init, world) in
  sent (fst (snd out)) = []
  /\ snd (snd out) = world
  /\ statusCode (fst out) = 401.
Proof.
  assert (In AuthenticateJWT (guards GetUser)) as Hroute by (simpl; auto).
  destruct (GuardFacts.invalid_credential_is_rejected (H := demoPlatform)
              (net (H := demoPlatform)) 0 unmodelled unmodelled unmodelled
              GetUser soon anonymous Gateway.init world Hroute I)
    as (Hsent & Hworld & Hstatus).
  split; [exact Hsent|split; [exact Hworld|apply Hstatus; reflexivity]].
Defined.

(** C5 as stated fails when the claims are absent: the Role Guard answers
    401, and so does the whole route, where the token check comes first;
    neither answers 403. *)
Lemma claims_absent_is_401_not_403 :
  statusCode (fst (requireRoles (W := World) ["Admin"] soon anonymous
                     (fun _ => ret internalError) (Gateway.init, world))) = 401
  /\ statusCode (fst (Samples.dispatch GetUser soon anonymous (Gateway.init, world))) = 401
  /\ statusCode (fst (Samples.dispatch GetUser soon anonymous (Gateway.init, world))) <> 403.
Proof. repeat split. discriminate. Qed.

Lemma role_guard_decides_witness :
  statusCode (fst (Samples.dispatch GetUser soon manager (Gateway.init, world))) = 200.
Proof.
  assert (In (RequireRoles ["Manager"; "Admin"]) (guards GetUser)) as Hroute
    by (simpl; auto).
  destruct (GuardFacts.role_guard_decides (H := demoPlatform)
              (net (H := demoPlatform)) 0 unmodelled unmodelled unmodelled
              GetUser ["Manager"; "Admin"] soon manager Gateway.init world
              "manager-token" (JObj [("id", JNum 7); ("roles", strings ["Manager"])])
              [JStr "Manager"] Hroute eq_refl eq_refl eq_refl eq_refl)
    as (Hyes & _ & _).
  unfold Samples.dispatch. rewrite Hyes; [reflexivity|].
  exists "Manager". simpl. auto.
Defined.

Lemma details_with_orders_unavailable_witness :
  fst (userDetails (H := demoPlatform) (net (H := demoPlatform)) 0 soon manager
         (setBreaker ordersCircuit openBreaker Gateway.init, world))
  = json 500 (JObj [("success", JBool false); ("error", JStr "Internal server error")]).
Proof.
  apply (FallbackFacts.details_with_orders_unavailable (H := demoPlatform)
           (net (H := demoPlatform)) 0 soon manager
           (setBreaker ordersCircuit openBreaker Gateway.init) world world 20
           (UsersService.sanitizeUser ann)).
  - reflexivity.
  - reflexivity.
  - simpl. lia.
  - reflexivity.
  - simpl. lia.
Defined.

Lemma six_wrong_logins_witness :
  map statusCode
    (fst (Samples.serve
            (map (attempt wrongLogin)
               (at_ 1000 :: [at_ 1001; at_ 1002; at_ 1003; at_ 1004] ++ [at_ 1005]))
            (Gateway.init, world)))
  = [401; 401; 401; 401; 401; 429].
Proof.
  apply (LoginFacts.six_wrong_logins (H := demoPlatform) 0
           unmodelled unmodelled unmodelled
           (at_ 1000) [at_ 1001; at_ 1002; at_ 1003; at_ 1004] (at_ 1005)
           wrongLogin Gateway.init world).
  - reflexivity.
  - exists "ann@example.com", "wrong", ann. repeat split. discriminate.
  - simpl. lia.
  - repeat split; simpl; lia.
  - reflexivity.
  - reflexivity.
  - repeat constructor; simpl; lia.
Defined.

Lemma scenario_order_is_refused_witness :
  let out := Samples.dispatch CreateOrder soon (customerOrder orderBodyAsDocumented)
               (Gateway.init, world) in
  statusCode (fst out) = 400
  /\ get (Js.body (fst out)) "success" = Some (JBool false)
  /\ get (Js.body (fst out)) "error" = Some (JStr "Validation failed")
  /\ Events.published (publisher (fst (snd out))) = []
  /\ snd (snd out) = world.
Proof.
  apply (OrderFacts.scenario_order_is_refused (H := demoPlatform) 0
           unmodelled unmodelled unmodelled
           soon (customerOrder orderBodyAsDocumented) Gateway.init world
           "customer-token" (JObj [("id", JNum 1); ("roles", strings ["Customer"])])
           [JStr "Customer"] [("items", scenarioItems)]).
  - reflexivity.
  - reflexivity.
  - reflexivity.
  - reflexivity.
  - reflexivity.
  - exists "Customer". simpl. auto.
  - reflexivity.
  - reflexivity.
  - simpl. lia.
Defined.

(** The same for the body with the id of an existing user, as the orders
    service would need it: the item still has no product name. *)
Example order_with_user_is_refused :
  let out := Samples.dispatch CreateOrder soon (customerOrder (orderBodyAsSpecified 1))
               (Gateway.init, world) in
  statusCode (fst out) = 400
  /\ get (Js.body (fst out)) "error" = Some (JStr "Validation failed")
  /\ Events.published (publisher (fst (snd out))) = [].
Proof. repeat split. Qed.

Lemma order_created_once_witness :
  let out := Samples.dispatch CreateOrder soon (customerOrder (orderBody 1 "Pen"))
               (Gateway.init, world) in
  statusCode (fst out) = 201
  /\ get (Js.body (fst out)) "success" = Some (JBool true)
  /\ (exists order,
        get (Js.body (fst out)) "data" = Some order
        /\ get order "totalAmount" = Some (JNum 20)
        /\ get order "id" = Some (JNum 1))
  /\ (exists e,
        Events.published (publisher (fst (snd out))) = [] ++ [e]
        /\ Events.type e = Events.ORDER_CREATED
        /\ Events.aggregateId e = JNum 1).
Proof.
  apply (OrderFacts.order_created_once (H := demoPlatform) 0
           unmodelled unmodelled unmodelled
           soon (customerOrder (orderBody 1 "Pen")) Gateway.init world
           "customer-token" (JObj [("id", JNum 1); ("roles", strings ["Customer"])])
           [JStr "Customer"] 1 "Pen").
  - reflexivity.
  - lia.
  - discriminate.
  - reflexivity.
  - reflexivity.
  - reflexivity.
  - reflexivity.
  - exists "Customer". simpl. auto.
  - reflexivity.
  - reflexivity.
  - simpl. lia.
Defined.

End Runs.

(* ===================================================================== *)
(** * Laws of the stores *)
(* ===================================================================== *)

Module StoreLaws.

Section Db.
Context {A : Type}.
Implicit Types (db : list (Z * A)) (k : Z) (v : A).

Lemma dbGet_dbSet_eq k v db : dbGet k (dbSet k v db) = Some v.
Proof.
  induction db as [|[k' v'] db IH]; simpl.
  - now rewrite Z.eqb_refl.
  - destruct (k =? k') eqn:E1; [|destruct (k <? k') eqn:E2]; simpl.
    + now rewrite Z.eqb_refl.
    + now rewrite Z.eqb_refl.
    + rewrite Z.eqb_sym, E1. exact IH.
Qed.

Lemma dbGet_dbSet_ne k k' v db : k' <> k -> dbGet k' (dbSet k v db) = dbGet k' db.
Proof.
  intros Hne. induction db as [|[k0 v0] db IH]; simpl.
  - destruct (k =? k') eqn:E; [apply Z.eqb_eq in E; congruence|reflexivity].
  - destruct (k =? k0) eqn:E1; [|destruct (k <? k0) eqn:E2]; simpl.
    + apply Z.eqb_eq in E1. subst k0.
      destruct (k =? k') eqn:E; [apply Z.eqb_eq in E; congruence|reflexivity].
    + destruct (k =? k') eqn:E; [apply Z.eqb_eq in E; congruence|reflexivity].
    + destruct (k0 =? k'); [reflexivity|exact IH].
Qed.

Lemma dbGet_dbDelete_eq k db : dbGet k (dbDelete k db) = None.
Proof.
  induction db as [|[k0 v0] db IH]; simpl; [reflexivity|].
  destruct (k0 =? k) eqn:E; simpl; [exact IH|]. now rewrite E.
Qed.

Lemma dbGet_dbDelete_ne k k' db : k' <> k -> dbGet k' (dbDelete k db) = dbGet k' db.
Proof.
  intros Hne. induction db as [|[k0 v0] db IH]; simpl; [reflexivity|].
  destruct (k0 =? k) eqn:E; simpl.
  - apply Z.eqb_eq in E. subst k0.
    destruct (k =? k') eqn:E'; [apply Z.eqb_eq in E'; congruence|exact IH].
  - destruct (k0 =? k'); [reflexivity|exact IH].
Qed.

Lemma dbGet_Some_In k db v : dbGet k db = Some v -> In (k, v) db.
Proof.
  induction db as [|[k0 v0] db IH]; simpl; [discriminate|].
  destruct (k0 =? k) eqn:E.
  - apply Z.eqb_eq in E. subst k0. intros [= ->]. now left.
  - intros Hg. right. now apply IH.
Qed.

Lemma In_dbGet k db v :
  StronglySorted Z.lt (keys db) -> In (k, v) db -> dbGet k db = Some v.
Proof.
  induction db as [|[k0 v0] db IH]; simpl; intros Hs Hin; [contradiction|].
  apply StronglySorted_inv in Hs as [Hs Hall].
  destruct Hin as [[= -> ->]|Hin]; [now rewrite Z.eqb_refl|].
  destruct (k0 =? k) eqn:E; [|now apply IH].
  apply Z.eqb_eq in E. subst k0. exfalso.
  rewrite List.Forall_forall in Hall.
  assert (In k (keys db)) as Hk.
  { unfold keys. apply in_map_iff. now exists (k, v). }
  specialize (Hall k Hk). lia.
Qed.

Lemma In_dbSet k v db x v' :
  In (x, v') (dbSet k v db) -> (x, v') = (k, v) \/ In (x, v') db.
Proof.
  induction db as [|[k0 v0] db IH]; simpl.
  - intros [Heq|[]]. now left.
  - destruct (k =? k0) eqn:E1; [|destruct (k <? k0) eqn:E2]; simpl.
    + intros [Heq|Hin]; [now left|right; now right].
    + intros [Heq|[Heq|Hin]]; [now left|right; now left|right; now right].
    + intros [Heq|Hin]; [right; now left|].
      destruct (IH Hin) as [Heq|Hin']; [now left|right; now right].
Qed.

Lemma In_dbDelete k db x v' :
  In (x, v') (dbDelete k db) -> In (x, v') db /\ x <> k.
Proof.
  unfold dbDelete. intros Hin. apply filter_In in Hin as [Hin Hne].
  split; [exact Hin|]. simpl in Hne. apply negb_true_iff in Hne.
  now apply Z.eqb_neq in Hne.
Qed.

End Db.

End StoreLaws.

(* ===================================================================== *)
(** * What a schema has accepted *)
(* ===================================================================== *)

Module ZodFacts.

Lemma both_inr {A B} (x : Parsed A) (y : Parsed B) a b :
  both x y = inr (a, b) -> x = inr a /\ y = inr b.
Proof. destruct x, y; simpl; intros Heq; inversion Heq; now subst. Qed.

Lemma pmap_inr {A B} (f : A -> B) (x : Parsed A) b :
  pmap f x = inr b -> exists a, x = inr a /\ b = f a.
Proof. destruct x; simpl; intros Heq; inversion Heq; eauto. Qed.

Lemma invalidType_inl {A} p expected v : exists e, @invalidType A p expected v = inl e.
Proof. destruct v; simpl; eauto. Qed.

Lemma zStringMin1_inr msg p v s :
  zStringMin1 msg p v = inr s -> v = JStr s /\ s <> "".
Proof.
  destruct v; simpl; try discriminate.
  destruct (String.eqb s0 "") eqn:E; [discriminate|].
  intros [= ->]. split; [reflexivity|]. now apply String.eqb_neq in E.
Qed.

Lemma zEmail_inr `{Platform} msg p v s :
  zEmail msg p v = inr s -> v = JStr s /\ isEmail s = true.
Proof.
  destruct v; simpl; try discriminate.
  destruct (isEmail s0) eqn:E; [|discriminate].
  intros [= ->]. now split.
Qed.

Lemma zNumberMin_inr lo msg p v n :
  zNumberMin lo msg p v = inr n -> v = JNum n /\ lo <= n.
Proof.
  destruct v; simpl; try discriminate.
  destruct (lo <=? n0) eqn:E; [|discriminate].
  intros [= ->]. split; [reflexivity|]. now apply Z.leb_le.
Qed.

Lemma includes_In x l : includes x l = true <-> In x l.
Proof.
  unfold includes. rewrite existsb_exists. split.
  - intros [y [Hin Heq]]. apply String.eqb_eq in Heq. now subst.
  - intros Hin. exists x. split; [exact Hin|apply String.eqb_refl].
Qed.

Lemma zEnum_inr opts p v s :
  zEnum opts p v = inr s -> v = JStr s /\ In s opts.
Proof.
  destruct v; simpl; try discriminate.
  destruct (includes s0 opts) eqn:E; [|discriminate].
  intros [= ->]. split; [reflexivity|]. now apply includes_In.
Qed.

Lemma zOptional_inr {A} (inner : list string -> JsVal -> Parsed A) p v o :
  zOptional inner p v = inr o ->
  (v = JUndef /\ o = None) \/ (exists a, o = Some a /\ inner p v = inr a).
Proof.
  destruct v; simpl; try (intros [= <-]; now left);
    intros Hp; apply pmap_inr in Hp as [a [Hi ->]]; right; eauto.
Qed.

Lemma zDefault_inr {A} (d : A) (inner : list string -> JsVal -> Parsed A) p v a :
  zDefault d inner p v = inr a -> (v = JUndef /\ a = d) \/ inner p v = inr a.
Proof. destruct v; simpl; try (intros [= <-]; now left); intros Hp; now right. Qed.

Lemma collect_inr {A} (ps : list (Parsed A)) l :
  collect ps = inr l -> Forall2 (fun p a => p = inr a) ps l.
Proof.
  revert l. induction ps as [|p ps IH]; simpl; intros l Hc.
  - inversion Hc. constructor.
  - apply pmap_inr in Hc as [[a rest] [Hb ->]].
    apply both_inr in Hb as [-> Hrest]. constructor; [reflexivity|now apply IH].
Qed.

(** Every element of an accepted array was accepted by the element schema,
    under some path. *)
Lemma zArray_inr {A} (inner : list string -> JsVal -> Parsed A) p v l :
  zArray inner p v = inr l ->
  exists items, v = JArr items
    /\ Forall2 (fun x a => exists q, inner q x = inr a) items l.
Proof.
  destruct v; simpl; try discriminate.
  intros Hc. exists items. split; [reflexivity|].
  apply collect_inr in Hc.
  remember (fun (i : nat) x => inner (p ++ [pretty i]) x) as f eqn:Hf.
  assert (forall i x, exists q, f i x = inner q x) as Hq.
  { intros i x. subst f. eauto. }
  clear Hf. revert f l Hc Hq.
  induction items as [|x items IH]; intros f l Hc Hq; simpl in Hc.
  - inversion Hc. constructor.
  - inversion Hc as [|? a ? rest Hx Hrest]; subst.
    constructor.
    + destruct (Hq 0%nat x) as [q Hqx]. exists q. now rewrite <- Hqx.
    + eapply IH; [exact Hrest|]. intros i y. apply (Hq (S i) y).
Qed.

Lemma zArrayMin1_inr {A} msg (inner : list string -> JsVal -> Parsed A) p v l :
  zArrayMin1 msg inner p v = inr l ->
  exists items, v = JArr items /\ items <> []
    /\ Forall2 (fun x a => exists q, inner q x = inr a) items l.
Proof.
  intros Hz.
  assert (zArray inner p v = inr l /\ v <> JArr []) as [Ha Hne].
  { destruct v; simpl in *; try discriminate.
    destruct items; [discriminate|]. split; [exact Hz|discriminate]. }
  apply zArray_inr in Ha as [items [-> Hall]].
  exists items. repeat split; auto. intros ->. now apply Hne.
Qed.

Lemma zObject_inr {A} p (keys : list (string * JsVal) -> Parsed A) v a :
  zObject p keys v = inr a -> exists f, v = JObj f /\ keys f = inr a.
Proof. destruct v; simpl; try discriminate. eauto. Qed.

End ZodFacts.

(* ===================================================================== *)
(** * What the store of the users service always holds *)
(* ===================================================================== *)

Module UsersLaws.

Import StoreFacts StoreLaws ZodFacts UsersService Histories UsersSteps.

Section Laws.
Context `{Platform}.

Lemma lookupParam_dbGet p st k u :
  lookupParam p st = Some (k, u) ->
  parseInt p = Some k /\ dbGet k (fakeUsersDb st) = Some u.
Proof.
  unfold lookupParam. destruct (parseInt p) as [n|]; [|discriminate].
  destruct (dbGet n (fakeUsersDb st)) eqn:Hg; [|discriminate].
  intros [= <- <-]. now split.
Qed.

Lemma registerSchema_inr b e pw n :
  registerSchema b = inr (e, (pw, n)) ->
  isEmail e = true /\ pw <> "" /\ n <> ""
  /\ exists f, b = JObj f /\ field "email" f = JStr e
               /\ field "password" f = JStr pw /\ field "name" f = JStr n.
Proof.
  unfold registerSchema. intros Hz.
  apply zObject_inr in Hz as [f [-> Hk]].
  apply both_inr in Hk as [He Hk]. apply both_inr in Hk as [Hp Hn].
  apply zEmail_inr in He as [He1 He2].
  apply zStringMin1_inr in Hp as [Hp1 Hp2].
  apply zStringMin1_inr in Hn as [Hn1 Hn2].
  repeat split; auto. exists f. repeat split; auto.
Qed.

Lemma roles_accepted p v rs :
  zArray (zEnum RoleEnum) p v = inr rs -> Forall (fun r => In r RoleEnum) rs.
Proof.
  intros Hz. apply zArray_inr in Hz as [items [-> Hall]].
  induction Hall as [|x r items rs [q Hq] Hall IH]; constructor; [|exact IH].
  now apply zEnum_inr in Hq as [_ Hin].
Qed.

Lemma createUserSchema_inr b d :
  createUserSchema b = inr d ->
  isEmail (cu_email d) = true /\ cu_name d <> ""
  /\ credential (cu_passwordHash d) (cu_password d) <> ""
  /\ Forall (fun r => In r RoleEnum) (cu_roles d).
Proof.
  unfold createUserSchema.
  destruct (zObject _ _ b) as [errs|[e [pw [ph [n rs]]]]] eqn:Hz;
    [now destruct (_ && _)|].
  apply zObject_inr in Hz as [f [-> Hk]].
  apply both_inr in Hk as [He Hk]. apply both_inr in Hk as [Hpw Hk].
  apply both_inr in Hk as [Hph Hk]. apply both_inr in Hk as [Hn Hrs].
  apply zEmail_inr in He as [_ He]. apply zStringMin1_inr in Hn as [_ Hn].
  assert (Forall (fun r => In r RoleEnum) rs) as Hroles.
  { apply zDefault_inr in Hrs as [[_ ->]|Hrs].
    - repeat constructor.
    - eapply roles_accepted, Hrs. }
  apply zOptional_inr in Hpw as [[_ ->]|[pw' [-> Hpw]]];
    apply zOptional_inr in Hph as [[_ ->]|[ph' [-> Hph]]];
    try discriminate; intros [= <-]; simpl; repeat split; auto.
  - apply zStringMin1_inr in Hph as [_ Hph].
    unfold credential. destruct (String.eqb ph' "") eqn:E; [|exact Hph].
    apply String.eqb_eq in E. contradiction.
  - now apply zStringMin1_inr in Hpw as [_ Hpw].
  - apply zStringMin1_inr in Hph as [_ Hph].
    unfold credential. destruct (String.eqb ph' "") eqn:E; [|exact Hph].
    apply String.eqb_eq in E. contradiction.
Qed.

Lemma updateUserSchema_inr b d :
  updateUserSchema b = inr d ->
  (forall e, uu_email d = Some e -> isEmail e = true)
  /\ (forall n, uu_name d = Some n -> n <> "")
  /\ (forall h, uu_passwordHash d = Some h -> h <> "")
  /\ (forall rs, uu_roles d = Some rs -> Forall (fun r => In r RoleEnum) rs)
  /\ exists f, b = JObj f
       /\ (field "passwordHash" f = JUndef -> uu_passwordHash d = None).
Proof.
  unfold updateUserSchema. intros Hz.
  apply pmap_inr in Hz as [[e [pw [ph [n rs]]]] [Hz ->]].
  apply zObject_inr in Hz as [f [-> Hk]].
  apply both_inr in Hk as [He Hk]. apply both_inr in Hk as [Hpw Hk].
  apply both_inr in Hk as [Hph Hk]. apply both_inr in Hk as [Hn Hrs].
  simpl. repeat split.
  - intros e' ->. apply zOptional_inr in He as [[_ ?]|[a [[= <-] Ha]]]; [discriminate|].
    now apply zEmail_inr in Ha as [_ Ha].
  - intros n' ->. apply zOptional_inr in Hn as [[_ ?]|[a [[= <-] Ha]]]; [discriminate|].
    now apply zStringMin1_inr in Ha as [_ Ha].
  - intros h' ->. apply zOptional_inr in Hph as [[_ ?]|[a [[= <-] Ha]]]; [discriminate|].
    now apply zStringMin1_inr in Ha as [_ Ha].
  - intros rs' ->. apply zOptional_inr in Hrs as [[_ ?]|[a [[= <-] Ha]]]; [discriminate|].
    eapply roles_accepted, Ha.
  - exists f. split; [reflexivity|]. intros Hu.
    apply zOptional_inr in Hph as [[_ ?]|[a [-> Ha]]]; [assumption|].
    rewrite Hu in Ha. discriminate.
Qed.

Lemma updateProfileSchema_inr b e n :
  updateProfileSchema b = inr (e, n) ->
  (forall e', e = Some e' -> isEmail e' = true)
  /\ (forall n', n = Some n' -> n' <> "").
Proof.
  unfold updateProfileSchema. intros Hz.
  apply zObject_inr in Hz as [f [-> Hk]]. apply both_inr in Hk as [He Hn].
  split.
  - intros e' ->. apply zOptional_inr in He as [[_ ?]|[a [[= <-] Ha]]]; [discriminate|].
    now apply zEmail_inr in Ha as [_ Ha].
  - intros n' ->. apply zOptional_inr in Hn as [[_ ?]|[a [[= <-] Ha]]]; [discriminate|].
    now apply zStringMin1_inr in Ha as [_ Ha].
Qed.

(** The email clause of an update, from the check the handlers make. *)
Lemma email_clause (e : option string) (old : string) k db :
  match given e with
  | Some e' => emailTakenByOther e' k db
  | None => false
  end = false ->
  default old e = old
  \/ (default old e <> "" -> emailTakenByOther (default old e) k db = false).
Proof.
  destruct e as [e'|]; simpl; [|now left].
  destruct (String.eqb e' "") eqn:E.
  - intros _. right. apply String.eqb_eq in E. contradiction.
  - intros Hc. right. intros _. exact Hc.
Qed.

(** Every request is one step. *)
Lemma users_handle_step rq now st :
  Step st (fst (handle rq now st)) (snd (handle rq now st)).
Proof.
  destruct rq as [b|b|p|p b| |q|b| | |p|p b|p]; simpl; try apply StepSame.
  - unfold register.
    destruct (registerSchema b) as [?|[e [pw n]]] eqn:Hs; [apply StepSame|].
    destruct (findByEmail e (fakeUsersDb st)) eqn:Hf; [apply StepSame|].
    apply registerSchema_inr in Hs as (He & Hpw & Hn & _).
    simpl. eapply (StepCreate st); simpl; auto.
    repeat split; simpl; auto.
  - unfold putProfile.
    destruct (lookupParam p st) as [[k u]|] eqn:Hl; [|apply StepSame].
    apply lookupParam_dbGet in Hl as [_ Hg].
    destruct (updateProfileSchema b) as [?|[e n]] eqn:Hs; [apply StepSame|].
    apply updateProfileSchema_inr in Hs as [He Hn].
    match goal with |- context [if ?c then _ else _] => destruct c eqn:Hc end;
      [apply StepSame|].
    simpl. eapply (StepUpdate st _ k u); simpl; auto.
    + intros (Hid & Hem & Hnm & Hph & Hrs). repeat split; simpl; auto.
      * destruct e as [e'|]; simpl; auto.
      * destruct n as [n'|]; simpl; auto.
    + now apply email_clause.
  - unfold create. destruct (createUserSchema b) as [?|d] eqn:Hs; [apply StepSame|].
    destruct (findByEmail (cu_email d) (fakeUsersDb st)) eqn:Hf; [apply StepSame|].
    apply createUserSchema_inr in Hs as (He & Hn & Hc & Hr).
    simpl. eapply (StepCreate st); simpl; auto.
    repeat split; simpl; auto.
  - unfold putUser.
    destruct (lookupParam p st) as [[k u]|] eqn:Hl; [|apply StepSame].
    apply lookupParam_dbGet in Hl as [_ Hg].
    destruct (updateUserSchema b) as [?|d] eqn:Hs; [apply StepSame|].
    apply updateUserSchema_inr in Hs as (He & Hn & Hh & Hr & _).
    match goal with |- context [if ?c then _ else _] => destruct c eqn:Hc end;
      [apply StepSame|].
    simpl. eapply (StepUpdate st _ k u); simpl; auto.
    + intros (Hid & Hem & Hnm & Hph & Hrs). repeat split; simpl; auto.
      * destruct (uu_email d) as [e'|]; simpl; auto.
      * destruct (uu_name d) as [n'|]; simpl; auto.
      * destruct (uu_passwordHash d) as [h'|]; simpl; auto.
      * destruct (uu_roles d) as [rs'|]; simpl; auto.
    + now apply email_clause.
  - unfold deleteUser.
    destruct (lookupParam p st) as [[k u]|] eqn:Hl; [|apply StepSame].
    apply lookupParam_dbGet in Hl as [_ Hg].
    simpl. eapply (StepDelete st _ k u); simpl; auto.
Qed.

Lemma users_step_wellFormed st r st' :
  Step st r st' -> storeWellFormed (fakeUsersDb st) -> storeWellFormed (fakeUsersDb st').
Proof.
  intros Hstep Hwf. destruct Hstep as [r|r u Hr Hu Hf|r k u u' Hr Hg Hid Hc Hk He|r k u Hr Hg];
    simpl; [exact Hwf| | |].
  - intros x v Hin. apply In_dbSet in Hin as [[= -> ->]|Hin]; [exact Hu|now apply Hwf].
  - intros x v Hin. apply In_dbSet in Hin as [[= -> ->]|Hin]; [|now apply Hwf].
    apply Hk, Hwf. now apply dbGet_Some_In.
  - intros x v Hin. apply In_dbDelete in Hin as [Hin _]. now apply Hwf.
Qed.

Lemma findByEmail_None e db u k :
  findByEmail e db = None -> In (k, u) db -> email u <> e.
Proof.
  unfold findByEmail. intros Hf Hin.
  assert (In u (values db)) as Hv.
  { unfold values. apply in_map_iff. now exists (k, u). }
  pose proof (find_none _ _ Hf u Hv) as Hne. simpl in Hne.
  now apply String.eqb_neq in Hne.
Qed.

Lemma emailTakenByOther_false e k db u k' :
  emailTakenByOther e k db = false -> In (k', u) db -> email u = e -> id u = k.
Proof.
  unfold emailTakenByOther. intros Hf Hin He.
  destruct (Z.eq_dec (id u) k) as [Heq|Hne]; [exact Heq|]. exfalso.
  assert (existsb (fun u => String.eqb (email u) e && negb (id u =? k)) (values db) = true)
    as Hex.
  { apply existsb_exists. exists u. split.
    - unfold values. apply in_map_iff. now exists (k', u).
    - apply andb_true_iff. split; [now apply String.eqb_eq|].
      apply negb_true_iff. now apply Z.eqb_neq. }
  congruence.
Qed.

Lemma step_distinct st r st' :
  isEmail "" = false ->
  Step st r st' -> storeWellFormed (fakeUsersDb st) ->
  emailsDistinct (fakeUsersDb st) -> emailsDistinct (fakeUsersDb st').
Proof.
  intros Hempty Hstep Hwf Hd.
  destruct Hstep as [r|r u Hr Hu Hf|r k u u' Hr Hg Hid Hc Hk He|r k u Hr Hg];
    simpl; [exact Hd| | |].
  - intros k1 u1 k2 u2 H1 H2 Heq.
    apply In_dbSet in H1 as [[= -> ->]|H1]; apply In_dbSet in H2 as [[= -> ->]|H2].
    + reflexivity.
    + exfalso. eapply findByEmail_None; [exact Hf|exact H2|]. now symmetry.
    + exfalso. eapply findByEmail_None; [exact Hf|exact H1|]. exact Heq.
    + eapply Hd; eauto.
  - pose proof (dbGet_Some_In _ _ _ Hg) as Hin.
    assert (email u' <> "") as Hne.
    { destruct (Hk (Hwf _ _ Hin)) as (_ & Hem & _). intros Hz. rewrite Hz in Hem.
      congruence. }
    assert (forall k2 u2, In (k2, u2) (fakeUsersDb st) -> email u2 = email u' -> k2 = k)
      as Hother.
    { intros k2 u2 H2 Heq. destruct He as [Hsame|Hfree].
      - eapply Hd; [exact H2|exact Hin|]. congruence.
      - destruct (Hwf _ _ H2) as (Hid2 & _). rewrite <- Hid2.
        eapply emailTakenByOther_false; [apply Hfree, Hne|exact H2|exact Heq]. }
    intros k1 u1 k2 u2 H1 H2 Heq.
    apply In_dbSet in H1 as [[= -> ->]|H1]; apply In_dbSet in H2 as [[= -> ->]|H2].
    + reflexivity.
    + symmetry. eapply Hother; [exact H2|]. now symmetry.
    + eapply Hother; [exact H1|]. exact Heq.
    + eapply Hd; eauto.
  - intros k1 u1 k2 u2 H1 H2 Heq.
    apply In_dbDelete in H1 as [H1 _]. apply In_dbDelete in H2 as [H2 _].
    eapply Hd; eauto.
Qed.

Lemma users_run_cons rq now rqs st :
  snd (run ((rq, now) :: rqs) st) = snd (run rqs (snd (handle rq now st))).
Proof.
  simpl. destruct (handle rq now st) as [r st1]. simpl.
  now destruct (run rqs st1) as [rs st2].
Qed.

Lemma run_invariants rqs : forall st,
  Inv st -> storeWellFormed (fakeUsersDb st) ->
  Inv (snd (run rqs st)) /\ storeWellFormed (fakeUsersDb (snd (run rqs st))).
Proof.
  induction rqs as [|[rq now] rqs IH]; intros st Hinv Hwf; [now split|].
  rewrite users_run_cons. apply IH.
  - now apply (UsersFacts.users_effect_inv _ _ (UsersFacts.users_handle_effect rq now st)).
  - eapply users_step_wellFormed; [apply users_handle_step|exact Hwf].
Qed.

Lemma run_distinct rqs : forall st,
  isEmail "" = false ->
  storeWellFormed (fakeUsersDb st) -> emailsDistinct (fakeUsersDb st) ->
  emailsDistinct (fakeUsersDb (snd (run rqs st))).
Proof.
  induction rqs as [|[rq now] rqs IH]; intros st Hempty Hwf Hd; [exact Hd|].
  rewrite users_run_cons. apply IH; [exact Hempty| |].
  - eapply users_step_wellFormed; [apply users_handle_step|exact Hwf].
  - eapply step_distinct; [exact Hempty|apply users_handle_step|exact Hwf|exact Hd].
Qed.

Lemma distinct_NoDup db :
  StronglySorted Z.lt (keys db) -> emailsDistinct db ->
  List.NoDup (map email (values db)).
Proof.
  induction db as [|[k u] db IH]; simpl; intros Hs Hd; [constructor|].
  apply StronglySorted_inv in Hs as [Hs Hall]. constructor.
  - intros Hin. apply in_map_iff in Hin as [u2 [Heq Hin]].
    unfold values in Hin. apply in_map_iff in Hin as [[k2 u2'] [Hsnd Hin]].
    simpl in Hsnd. subst u2'.
    assert (k2 = k) as ->.
    { eapply Hd; [right; exact Hin|now left|exact Heq]. }
    rewrite List.Forall_forall in Hall.
    assert (In k (keys db)) as Hk.
    { unfold keys. apply in_map_iff. now exists (k, u2). }
    specialize (Hall k Hk). lia.
  - apply IH; [exact Hs|].
    intros k1 u1 k2 u2 H1 H2. apply Hd; now right.
Qed.

Lemma init_wellFormed : storeWellFormed (fakeUsersDb init).
Proof. intros k u []. Qed.

Lemma init_distinct : emailsDistinct (fakeUsersDb init).
Proof. intros k1 u1 k2 u2 []. Qed.

(** X1. Whatever requests the users service has served since it started, no
    two records of its store have the same email, provided the email check
    of the schemas refuses the empty string. *)
Theorem emails_stay_unique (rqs : list (Request * string)) :
  isEmail "" = false ->
  List.NoDup (map email (values (fakeUsersDb (usersStore rqs)))).
Proof.
  intros Hempty. unfold usersStore.
  destruct (run_invariants rqs init UsersFacts.users_init_inv init_wellFormed)
    as [[Hsorted _] Hwf].
  apply distinct_NoDup; [exact Hsorted|].
  apply run_distinct; [exact Hempty|exact init_wellFormed|exact init_distinct].
Qed.

(** X2. Whatever requests the users service has served since it started,
    every record of its store sits under its own id, has an email the schema
    accepts, a name and a credential that are not empty, and roles among the
    four the service knows. *)
Theorem stored_users_are_well_formed (rqs : list (Request * string)) (k : Z) (u : User) :
  dbGet k (fakeUsersDb (usersStore rqs)) = Some u ->
  id u = k
  /\ isEmail (email u) = true
  /\ name u <> ""
  /\ passwordHash u <> ""
  /\ Forall (fun r => In r ["Customer"; "Engineer"; "Manager"; "Admin"]) (roles u).
Proof.
  intros Hg. unfold usersStore in Hg.
  destruct (run_invariants rqs init UsersFacts.users_init_inv init_wellFormed)
    as [_ Hwf].
  apply (Hwf k u). now apply dbGet_Some_In.
Qed.

(** X3. A request that is answered with a status other than 200 and 201
    changes neither the store nor the counter of the users service: a
    refused creation consumes no id. *)
Theorem users_refusal_changes_nothing (rq : Request) (now : string) (st : State) :
  statusCode (fst (handle rq now st)) <> 200 ->
  statusCode (fst (handle rq now st)) <> 201 ->
  snd (handle rq now st) = st.
Proof.
  intros H200 H201.
  destruct (users_handle_step rq now st); congruence.
Qed.

End Laws.

End UsersLaws.

(* ===================================================================== *)
(** * Sorting and slicing *)
(* ===================================================================== *)

Module ListFacts.

Section Sorting.
Context {A : Type}.
Variable cmp : A -> A -> Z.

Lemma insertBy_perm x l : Permutation (insertBy cmp x l) (x :: l).
Proof.
  induction l as [|y l IH]; simpl; [reflexivity|].
  destruct (0 <? cmp x y); [|reflexivity].
  rewrite IH. apply perm_swap.
Qed.

Lemma sortBy_perm l : Permutation (sortBy cmp l) l.
Proof.
  unfold sortBy. induction l as [|x l IH]; simpl; [reflexivity|].
  rewrite insertBy_perm. now constructor.
Qed.

Lemma sortBy_In x l : In x (sortBy cmp l) <-> In x l.
Proof.
  split; apply Permutation_in; [apply sortBy_perm|symmetry; apply sortBy_perm].
Qed.

Lemma sortBy_length l : length (sortBy cmp l) = length l.
Proof. apply Permutation_length, sortBy_perm. Qed.

End Sorting.

Lemma slice_In {A} s e (l : list A) x : In x (slice s e l) -> In x l.
Proof.
  unfold slice. rewrite <- !list_elem_of_In. intros Hin.
  apply subseteq_take in Hin. now apply subseteq_drop in Hin.
Qed.

Lemma slice_length {A} s e (l : list A) :
  (length (slice s e l) <= Z.to_nat (default 0%Z e) - Z.to_nat (default 0%Z s))%nat.
Proof. unfold slice. rewrite length_take. lia. Qed.

End ListFacts.

(* ===================================================================== *)
(** * Requests to the users service that follow one another *)
(* ===================================================================== *)

Module UsersRoundTrips.

Import StoreFacts StoreLaws ZodFacts ListFacts UsersService UsersLaws.

Section Laws.
Context `{Platform}.

Lemma find_inserted e k u db :
  findByEmail e db = None -> email u = e ->
  findByEmail e (dbSet k u db) = Some u.
Proof.
  unfold findByEmail, values. intros Hf He.
  assert (String.eqb (email u) e = true) as Hu by now apply String.eqb_eq.
  induction db as [|[k0 v0] db IH]; simpl in *.
  - now rewrite Hu.
  - destruct (String.eqb (email v0) e) eqn:E0; [discriminate|].
    destruct (k =? k0); [|destruct (k <? k0)]; simpl.
    + now rewrite Hu.
    + now rewrite Hu.
    + rewrite E0. now apply IH.
Qed.

(** X4. Registration, then login. After a registration that was answered
    201, the store has the new account under the id the counter had, with the
    role Customer only; a login with the registered email is answered 200
    with a token for that account when the password is the registered one,
    and 401 when it is not. *)
Theorem register_then_login
  (b lb : JsVal) (now : string) (st : State) (e pw n pw' : string) :
  registerSchema b = inr (e, (pw, n)) ->
  statusCode (fst (register b now st)) = 201 ->
  loginSchema lb = inr (e, pw') ->
  exists u,
    dbGet (currentId st) (fakeUsersDb (snd (register b now st))) = Some u
    /\ id u = currentId st /\ email u = e /\ name u = n /\ roles u = ["Customer"]
    /\ login lb (snd (register b now st))
       = if String.eqb pw pw'
         then json 200 (JObj [("success", JBool true);
                              ("data", JObj [("token", JStr (generateJwtForUser u));
                                             ("user", sanitizeUser u)])])
         else json 401 (errorEnvelope "Invalid email or password").
Proof.
  intros Hs H201 Hl. unfold register in *. rewrite Hs in *.
  destruct (findByEmail e (fakeUsersDb st)) eqn:Hf; [simpl in H201; lia|].
  simpl. eexists. split; [apply dbGet_dbSet_eq|].
  repeat split. unfold login. rewrite Hl. simpl.
  erewrite find_inserted; [|exact Hf|reflexivity]. simpl. reflexivity.
Qed.

(** X5. Creation, then read. After [POST /users] was answered 201, a read of
    the id the counter had is answered 200 with the body the creation was
    answered with. *)
Theorem created_user_is_served (b : JsVal) (now p : string) (st : State) :
  statusCode (fst (create b now st)) = 201 ->
  parseInt p = Some (currentId st) ->
  getUser p (snd (create b now st)) = json 200 (body (fst (create b now st))).
Proof.
  intros H201 Hp. unfold create in *.
  destruct (createUserSchema b) as [errs|d]; [simpl in H201; lia|].
  destruct (findByEmail (cu_email d) (fakeUsersDb st)); [simpl in H201; lia|].
  simpl. unfold getUser, lookupParam. rewrite Hp. simpl.
  now rewrite dbGet_dbSet_eq.
Qed.

(** X6. Deletion, then read. After a deletion that was answered 200, the id
    reads 404 and a second deletion is answered 404; the counter and every
    other record are as they were. *)
Theorem deleted_user_is_gone (p : string) (st : State) :
  statusCode (fst (deleteUser p st)) = 200 ->
  getUser p (snd (deleteUser p st)) = userNotFound
  /\ fst (deleteUser p (snd (deleteUser p st))) = userNotFound
  /\ currentId (snd (deleteUser p st)) = currentId st
  /\ forall n k, parseInt p = Some n -> k <> n ->
       dbGet k (fakeUsersDb (snd (deleteUser p st))) = dbGet k (fakeUsersDb st).
Proof.
  intros H200. unfold deleteUser in *.
  destruct (lookupParam p st) as [[k u]|] eqn:Hl; [|simpl in H200; lia].
  apply lookupParam_dbGet in Hl as [Hp Hg]. simpl.
  assert (lookupParam p (setDb (dbDelete k (fakeUsersDb st)) st) = None) as Hgone.
  { unfold lookupParam. rewrite Hp. simpl. now rewrite dbGet_dbDelete_eq. }
  unfold getUser. rewrite Hgone. repeat split.
  intros n k' Hn Hne. rewrite Hp in Hn. injection Hn as <-.
  now apply dbGet_dbDelete_ne.
Qed.

(** X7. A profile update, whatever its target and its body and however it
    is answered, deletes no record and changes no record's id, roles,
    credential or creation time. *)
Theorem profile_update_keeps_roles_and_credential
  (p : string) (b : JsVal) (now : string) (st : State) (k : Z) (u : User) :
  dbGet k (fakeUsersDb st) = Some u ->
  exists u',
    dbGet k (fakeUsersDb (snd (putProfile p b now st))) = Some u'
    /\ id u' = id u /\ roles u' = roles u
    /\ passwordHash u' = passwordHash u /\ createdAt u' = createdAt u.
Proof.
  intros Hg. unfold putProfile.
  destruct (lookupParam p st) as [[n v]|] eqn:Hl; [|exists u; now repeat split].
  apply lookupParam_dbGet in Hl as [_ Hv].
  destruct (updateProfileSchema b) as [errs|[e nm]]; [exists u; now repeat split|].
  match goal with |- context [if ?c then _ else _] => destruct c end;
    [exists u; now repeat split|].
  simpl. destruct (Z.eq_dec k n) as [->|Hne].
  - rewrite dbGet_dbSet_eq. eexists. split; [reflexivity|].
    rewrite Hv in Hg. injection Hg as <-. now repeat split.
  - rewrite dbGet_dbSet_ne by exact Hne. exists u. now repeat split.
Qed.

(** X8. [PUT /users/:userId] changes the stored credential only through the
    [passwordHash] key of the body: with a body that has no such key, with or
    without a [password] key, the record keeps its credential, its id and
    its creation time, however the request is answered. *)
Theorem password_key_is_ignored
  (p : string) (f : list (string * JsVal)) (now : string) (st : State)
  (k : Z) (u : User) :
  lookupParam p st = Some (k, u) ->
  field "passwordHash" f = JUndef ->
  exists u',
    dbGet k (fakeUsersDb (snd (putUser p (JObj f) now st))) = Some u'
    /\ passwordHash u' = passwordHash u
    /\ id u' = id u /\ createdAt u' = createdAt u.
Proof.
  intros Hl Hf. pose proof (lookupParam_dbGet _ _ _ _ Hl) as [_ Hg].
  unfold putUser. rewrite Hl.
  destruct (updateUserSchema (JObj f)) as [errs|d] eqn:Hs; [exists u; now repeat split|].
  match goal with |- context [if ?c then _ else _] => destruct c end;
    [exists u; now repeat split|].
  apply updateUserSchema_inr in Hs as (_ & _ & _ & _ & f' & [= <-] & Hnone).
  simpl. rewrite dbGet_dbSet_eq. eexists. split; [reflexivity|].
  simpl. rewrite (Hnone Hf). now repeat split.
Qed.

Lemma limitOf_bounds limit l : limitOf limit = Some l -> 1 <= l <= 100.
Proof.
  unfold limitOf. destruct limit as [s|]; simpl.
  - destruct (parseInt s); simpl; [|discriminate]. intros [= <-]. lia.
  - intros [= <-]. lia.
Qed.

Lemma pageOf_bounds page n : pageOf page = Some n -> 1 <= n.
Proof.
  unfold pageOf. destruct page as [s|]; simpl.
  - destruct (parseInt s); simpl; [|discriminate]. intros [= <-]. lia.
  - intros [= <-]. lia.
Qed.

(** X9. For a query whose parameters are given once at most, as text, the
    paginating list of users answers 200 with a page of sanitised records of
    the store that pass the filters of the query; the page has at most
    [limit] entries, and never more than 100; a [page] or a [limit] that is
    not a number gives an empty page. *)
Theorem listUsers_page_is_bounded (q : ListQuery) (st : State) :
  exists page : list User,
    statusCode (listUsers q st) = 200
    /\ get (body (listUsers q st)) "users" = Some (JArr (map sanitizeUser page))
    /\ (length page <= 100)%nat
    /\ (forall l, limitOf (q_limit q) = Some l -> Z.of_nat (length page) <= l)
    /\ (forall u, In u page ->
          In u (values (fakeUsersDb st))
          /\ (forall role, given (q_role q) = Some role -> In role (roles u))
          /\ (forall e, given (q_email q) = Some e ->
                strIncludes (toLowerCase e) (toLowerCase (email u)) = true)
          /\ (forall n, given (q_name q) = Some n ->
                strIncludes (toLowerCase n) (toLowerCase (name u)) = true))
    /\ (forall s, q_page q = Some s -> parseInt s = None -> page = [])
    /\ (forall s, q_limit q = Some s -> parseInt s = None -> page = []).
Proof.
  unfold listUsers. cbv zeta.
  match goal with
  | |- context [map sanitizeUser (slice ?s ?e ?l)] =>
      exists (slice s e l);
      remember l as sorted eqn:Hsorted;
      remember e as stop eqn:Hstop; remember s as start eqn:Hstart
  end.
  assert (length (slice start stop sorted)
          <= Z.to_nat (default 0%Z stop) - Z.to_nat (default 0%Z start))%nat as Hlen
    by apply slice_length.
  assert (forall l, limitOf (q_limit q) = Some l ->
            (Z.to_nat (default 0%Z stop) - Z.to_nat (default 0%Z start) <= Z.to_nat l)%nat)
    as Hwidth.
  { intros l Hl. subst start stop. rewrite Hl.
    destruct (pageOf (q_page q)) as [n|] eqn:Hp; simpl; [|lia].
    apply pageOf_bounds in Hp. apply limitOf_bounds in Hl.
    assert (0 <= (n - 1) * l) as Hm by nia.
    clear Hlen. revert Hm. generalize ((n - 1) * l). intros m Hm. clear -Hm Hl. lia. }
  split; [reflexivity|]. split; [reflexivity|]. split; [|split; [|split; [|split]]].
  - destruct (limitOf (q_limit q)) as [l|] eqn:Hl.
    + specialize (Hwidth l eq_refl). apply limitOf_bounds in Hl. lia.
    + subst start stop.
      destruct (pageOf (q_page q)); simpl in *; lia.
  - intros l Hl. specialize (Hwidth l Hl). apply limitOf_bounds in Hl. lia.
  - intros u Hin. apply slice_In in Hin. subst sorted. apply sortBy_In in Hin.
    destruct (given (q_name q)) as [n|] eqn:Hn;
      [apply filter_In in Hin as [Hin Hname]|];
      (destruct (given (q_email q)) as [e|] eqn:He;
        [apply filter_In in Hin as [Hin Hemail]|]);
      (destruct (given (q_role q)) as [role|] eqn:Hr;
        [apply filter_In in Hin as [Hin Hrole]|]);
      repeat split; try exact Hin; try discriminate;
      try (intros ? [= <-]; assumption);
      intros ? [= <-]; now apply includes_In.
  - intros s Hs Hnan. subst start stop. unfold pageOf. rewrite Hs, Hnan. simpl.
    unfold slice. simpl. now rewrite take_0.
  - intros s Hs Hnan. subst start stop. unfold limitOf. rewrite Hs, Hnan. simpl.
    destruct (pageOf (q_page q)); unfold slice; simpl; now rewrite take_0.
Qed.

End Laws.

End UsersRoundTrips.

(* ===================================================================== *)
(** * What a failed login tells *)
(* ===================================================================== *)

Module LoginAnswers.

Import UsersService.

Section Laws.
Context `{Platform}.

(** X10. A login that fails tells nothing about the store. The answer to a
    login that is not answered 200 is the same whatever the store holds: an
    email that is not registered and a wrong password for a registered email
    are answered with the same status and body. *)
Theorem failed_logins_look_alike (lb : JsVal) (st1 st2 : State) :
  statusCode (login lb st1) <> 200 ->
  statusCode (login lb st2) <> 200 ->
  login lb st1 = login lb st2.
Proof.
  unfold login. destruct (loginSchema lb) as [errs|[e pw]]; [reflexivity|].
  destruct (findByEmail e (fakeUsersDb st1)) as [u1|];
    destruct (findByEmail e (fakeUsersDb st2)) as [u2|];
    try destruct (String.eqb (passwordHash u1) pw);
    try destruct (String.eqb (passwordHash u2) pw);
    simpl; intros H1 H2; try reflexivity; contradiction.
Qed.

End Laws.

End LoginAnswers.

(* ===================================================================== *)
(** * What the store of the orders service always holds *)
(* ===================================================================== *)

Module OrdersLaws.

Import StoreFacts StoreLaws ZodFacts ListFacts OrdersService OrdersSteps.

Section Laws.
Context `{Platform}.

Lemma lookupParam_In p st k o :
  lookupParam p st = Some (k, o) -> In (k, o) (fakeOrdersDb st) /\ pretty k = p.
Proof.
  unfold lookupParam. intros Hf. apply find_some in Hf as [Hin Hp].
  split; [exact Hin|]. simpl in Hp. now apply String.eqb_eq in Hp.
Qed.

Lemma OrderItemSchema_inr p v i :
  OrderItemSchema p v = inr i ->
  productId i <> "" /\ productName i <> "" /\ 1 <= quantity i /\ 0 <= price i.
Proof.
  unfold OrderItemSchema. intros Hz.
  apply pmap_inr in Hz as [[pid [pname [q pr]]] [Hz ->]].
  apply zObject_inr in Hz as [f [-> Hk]].
  apply both_inr in Hk as [Hid Hk]. apply both_inr in Hk as [Hname Hk].
  apply both_inr in Hk as [Hq Hpr].
  apply zStringMin1_inr in Hid as [_ Hid]. apply zStringMin1_inr in Hname as [_ Hname].
  apply zNumberMin_inr in Hq as [_ Hq]. apply zNumberMin_inr in Hpr as [_ Hpr].
  simpl. now repeat split.
Qed.

Lemma items_accepted (items : list JsVal) (its : list OrderItem) :
  Forall2 (fun x a => exists q, OrderItemSchema q x = inr a) items its ->
  Forall itemWellFormed (processOrderItems its).
Proof.
  induction 1 as [|x i items its [q Hq] Hall IH]; simpl; constructor; [|exact IH].
  apply OrderItemSchema_inr in Hq as (Hid & Hname & Hqty & Hpr).
  unfold itemWellFormed. simpl. now repeat split.
Qed.

Lemma createOrderSchema_inr b d :
  createOrderSchema b = inr d ->
  1 <= co_userId d
  /\ co_items d <> []
  /\ Forall itemWellFormed (processOrderItems (co_items d))
  /\ (forall t, co_totalAmount d = Some t -> 0 <= t)
  /\ In (co_status d) StatusEnum.
Proof.
  unfold createOrderSchema. intros Hz.
  apply pmap_inr in Hz as [[u [its [t s]]] [Hz ->]].
  apply zObject_inr in Hz as [f [-> Hk]].
  apply both_inr in Hk as [Hu Hk]. apply both_inr in Hk as [Hits Hk].
  apply both_inr in Hk as [Ht Hs].
  apply zNumberMin_inr in Hu as [_ Hu].
  apply zArrayMin1_inr in Hits as [items [_ [Hne Hall]]].
  simpl. repeat split.
  - exact Hu.
  - intros ->. inversion Hall. now subst.
  - eapply items_accepted, Hall.
  - intros t' ->. apply zOptional_inr in Ht as [[_ ?]|[a [[= <-] Ha]]]; [discriminate|].
    now apply zNumberMin_inr in Ha as [_ Ha].
  - apply zDefault_inr in Hs as [[_ ->]|Hs]; [now left|].
    now apply zEnum_inr in Hs as [_ Hs].
Qed.

Lemma updateOrderSchema_inr b d :
  updateOrderSchema b = inr d ->
  (forall its, uo_items d = Some its -> Forall itemWellFormed (processOrderItems its))
  /\ (forall t, uo_totalAmount d = Some t -> 0 <= t)
  /\ (forall s, uo_status d = Some s -> In s StatusEnum).
Proof.
  unfold updateOrderSchema. intros Hz.
  apply pmap_inr in Hz as [[its [t s]] [Hz ->]].
  apply zObject_inr in Hz as [f [-> Hk]].
  apply both_inr in Hk as [Hits Hk]. apply both_inr in Hk as [Ht Hs].
  simpl. repeat split.
  - intros its' ->. apply zOptional_inr in Hits as [[_ ?]|[a [[= <-] Ha]]]; [discriminate|].
    apply zArray_inr in Ha as [items [_ Hall]]. eapply items_accepted, Hall.
  - intros t' ->. apply zOptional_inr in Ht as [[_ ?]|[a [[= <-] Ha]]]; [discriminate|].
    now apply zNumberMin_inr in Ha as [_ Ha].
  - intros s' ->. apply zOptional_inr in Hs as [[_ ?]|[a [[= <-] Ha]]]; [discriminate|].
    now apply zEnum_inr in Ha as [_ Ha].
Qed.

Lemma fold_subtotals its acc :
  fold_left (fun sum i => sum + subtotal i) its acc
  = acc + foldr Z.add 0 (map subtotal its).
Proof.
  revert acc. induction its as [|i its IH]; intros acc; simpl; [lia|].
  rewrite IH. lia.
Qed.

Lemma sumSubtotals_items its :
  sumSubtotals (processOrderItems its) = itemsTotal its.
Proof.
  unfold sumSubtotals, itemsTotal, processOrderItems. rewrite fold_subtotals.
  rewrite map_map. simpl. lia.
Qed.

Lemma sumSubtotals_nonneg its :
  Forall itemWellFormed its -> 0 <= sumSubtotals its.
Proof.
  unfold sumSubtotals. rewrite fold_subtotals.
  induction 1 as [|i its (_ & _ & Hq & Hp & Hs) Hall IH]; simpl; [lia|].
  simpl in IH. nia.
Qed.

Lemma createOrderModel_wellFormed d now st :
  1 <= co_userId d ->
  Forall itemWellFormed (processOrderItems (co_items d)) ->
  (forall t, co_totalAmount d = Some t -> 0 <= t) ->
  In (co_status d) StatusEnum ->
  orderWellFormed (currentId st) (fst (createOrderModel d now st)).
Proof.
  intros Hu Hits Ht Hs. unfold createOrderModel. simpl.
  repeat split; simpl; auto.
  - destruct (String.eqb (co_status d) ""); [now left|exact Hs].
  - destruct (co_totalAmount d) as [t|] eqn:E.
    + destruct (t =? 0); [now apply sumSubtotals_nonneg|now apply Ht].
    + now apply sumSubtotals_nonneg.
Qed.

Lemma updateOrderModel_wellFormed k o d now :
  (forall its, uo_items d = Some its -> Forall itemWellFormed (processOrderItems its)) ->
  (forall t, uo_totalAmount d = Some t -> 0 <= t) ->
  (forall s, uo_status d = Some s -> In s StatusEnum) ->
  orderWellFormed k o -> orderWellFormed k (updateOrderModel o d now).
Proof.
  intros Hits Ht Hs (Hid & Hu & Hst & Htot & Hall).
  unfold updateOrderModel. repeat split; cbn [id userId status totalAmount items]; auto.
  - destruct (uo_status d) as [s|] eqn:Es; [now apply Hs|exact Hst].
  - destruct (uo_items d) as [its|] eqn:Ei.
    + destruct (uo_totalAmount d) as [t|] eqn:Et.
      * destruct (t =? 0); [apply sumSubtotals_nonneg; now apply Hits|now apply Ht].
      * apply sumSubtotals_nonneg. now apply Hits.
    + destruct (uo_totalAmount d) as [t|] eqn:Et; [now apply Ht|exact Htot].
  - destruct (uo_items d) as [its|] eqn:Ei; [now apply Hits|exact Hall].
Qed.

(** Every request is one step. *)
Lemma orders_handle_step rq userExists now st :
  Step st (fst (handle rq userExists now st)) (snd (handle rq userExists now st)).
Proof.
  destruct rq as [ | |p|q|p q|b|p b|p]; simpl; try apply StepSame.
  - unfold create. destruct (createOrderSchema b) as [?|d] eqn:Hs; [apply StepSame|].
    destruct (userExists (co_userId d)); [|apply StepSame].
    apply createOrderSchema_inr in Hs as (Hu & _ & Hits & Ht & Hst).
    pose proof (createOrderModel_wellFormed d now st Hu Hits Ht Hst) as Hwf.
    unfold createOrderModel in *. simpl in *.
    eapply (StepCreate st); [reflexivity|exact Hwf].
  - unfold putOrder. destruct (lookupParam p st) as [[k o]|] eqn:Hl; [|apply StepSame].
    apply lookupParam_In in Hl as [Hin _].
    destruct (updateOrderSchema b) as [?|d] eqn:Hs; [apply StepSame|].
    apply updateOrderSchema_inr in Hs as (Hits & Ht & Hst).
    simpl. eapply (StepUpdate st _ k o); simpl; auto.
    now apply updateOrderModel_wellFormed.
  - unfold deleteOrder. destruct (lookupParam p st) as [[k o]|] eqn:Hl; [|apply StepSame].
    apply lookupParam_In in Hl as [Hin _].
    simpl. eapply (StepDelete st _ k o); simpl; auto.
Qed.

Lemma orders_step_wellFormed st r st' :
  Step st r st' -> storeWellFormed (fakeOrdersDb st) -> storeWellFormed (fakeOrdersDb st').
Proof.
  intros Hstep Hwf. destruct Hstep as [r|r o Hr Ho|r k o o' Hr Hin Hu Hc Hk|r k o Hr Hin];
    simpl; [exact Hwf| | |].
  - intros x v Hx. apply In_dbSet in Hx as [[= -> ->]|Hx]; [exact Ho|now apply Hwf].
  - intros x v Hx. apply In_dbSet in Hx as [[= -> ->]|Hx]; [|now apply Hwf].
    apply Hk, Hwf, Hin.
  - intros x v Hx. apply In_dbDelete in Hx as [Hx _]. now apply Hwf.
Qed.

Lemma orders_run_cons rq userExists now rqs st :
  snd (run ((rq, userExists, now) :: rqs) st)
  = snd (run rqs (snd (handle rq userExists now st))).
Proof.
  simpl. destruct (handle rq userExists now st) as [r st1]. simpl.
  now destruct (run rqs st1) as [rs st2].
Qed.

Lemma run_wellFormed rqs : forall st,
  storeWellFormed (fakeOrdersDb st) ->
  storeWellFormed (fakeOrdersDb (snd (run rqs st))).
Proof.
  induction rqs as [|[[rq userExists] now] rqs IH]; intros st Hwf; [exact Hwf|].
  rewrite orders_run_cons. apply IH.
  eapply orders_step_wellFormed; [apply orders_handle_step|exact Hwf].
Qed.

(** X11. Whatever requests the orders service has served since it started,
    every order that its store holds under a numeric id has that id, belongs
    to a positive user id, has one of the four statuses and a total that is
    not negative, and each of its items has a product id and name, a
    quantity of at least 1, a price that is not negative and, when quantity
    times price is a safe integer, that product as its subtotal. (The
    records a request can leave under a property name that every object
    inherits are not orders and are outside the model.) *)
Theorem stored_orders_are_well_formed
  (rqs : list (Request * (Z -> bool) * string)) (k : Z) (o : Order) :
  dbGet k (fakeOrdersDb (ordersStore rqs)) = Some o ->
  id o = k
  /\ 1 <= userId o
  /\ In (status o) ["created"; "in_progress"; "completed"; "cancelled"]
  /\ 0 <= totalAmount o
  /\ Forall (fun i => productId (item i) <> "" /\ productName (item i) <> ""
                      /\ 1 <= quantity (item i) /\ 0 <= price (item i)
                      /\ (quantity (item i) * price (item i) <= MAX_SAFE_INTEGER ->
                          subtotal i = quantity (item i) * price (item i)))
            (items o).
Proof.
  intros Hg. apply dbGet_Some_In in Hg.
  apply (run_wellFormed rqs init) in Hg; [|intros x v []].
  destruct Hg as (Hid & Hu & Hs & Ht & Hitems).
  repeat split; try assumption.
  eapply Forall_impl; [exact Hitems|]. simpl.
  intros i (Hp & Hn & Hq & Hpr & Hsub). repeat split; auto.
Qed.

(** X12. A request that is answered with a status other than 200 and 201
    changes neither the store nor the counter of the orders service; this
    includes an order for a user the users service does not know (404). *)
Theorem orders_refusal_changes_nothing
  (rq : Request) (userExists : Z -> bool) (now : string) (st : State) :
  statusCode (fst (handle rq userExists now st)) <> 200 ->
  statusCode (fst (handle rq userExists now st)) <> 201 ->
  snd (handle rq userExists now st) = st.
Proof.
  intros H200 H201.
  destruct (orders_handle_step rq userExists now st); congruence.
Qed.

(** X13. The total of a new order, for integer quantities and prices whose
    exact total is a safe integer (at most 2^53 - 1), where the arithmetic
    of the code is exact. When the body passes the schema and the user
    exists, the order is answered 201 and stored under the id the counter
    had; its total is the total the body gives when that is not 0, whatever
    the items cost, and the sum of quantity times price over the items when
    the body gives no total or gives 0. *)
Theorem created_order_total
  (b : JsVal) (userExists : Z -> bool) (now : string) (st : State)
  (d : CreateOrderData) :
  createOrderSchema b = inr d ->
  userExists (co_userId d) = true ->
  exactlySummed (co_items d) ->
  exists o,
    fst (create b userExists now st) = success 201 (orderObj o)
    /\ dbGet (currentId st) (fakeOrdersDb (snd (create b userExists now st))) = Some o
    /\ userId o = co_userId d
    /\ totalAmount o = match co_totalAmount d with
                       | Some t => if t =? 0 then itemsTotal (co_items d) else t
                       | None => itemsTotal (co_items d)
                       end.
Proof.
  intros Hs Hu _. unfold create. rewrite Hs, Hu. unfold createOrderModel. simpl.
  eexists. split; [reflexivity|]. split; [apply dbGet_dbSet_eq|].
  split; [reflexivity|]. simpl. now rewrite sumSubtotals_items.
Qed.

(** X14. The total and the items of an updated order, for integer
    quantities and prices whose exact total is a safe integer (at most
    2^53 - 1), where the arithmetic of the code is exact. An update of an
    order stored under a numeric id, with a body that passes the schema, is
    answered 200 and keeps the id, the owner and the creation time of the
    order. With items in the body, they replace the order's, and the total
    is the one the body gives when that is not 0, the sum of quantity times
    price over the new items otherwise, so an empty list leaves an order
    without items and a total of 0; without items in the body the items
    stay, and the total is the one the body gives, if any, whatever the
    items cost. *)
Theorem updated_order_total
  (p : string) (b : JsVal) (now : string) (st : State)
  (k : Z) (o : Order) (d : UpdateOrderData) :
  lookupParam p st = Some (k, o) ->
  updateOrderSchema b = inr d ->
  from_option exactlySummed True (uo_items d) ->
  exists o',
    fst (putOrder p b now st) = success 200 (orderObj o')
    /\ dbGet k (fakeOrdersDb (snd (putOrder p b now st))) = Some o'
    /\ id o' = id o /\ userId o' = userId o
    /\ createdAt o' = createdAt o /\ updatedAt o' = now
    /\ match uo_items d with
       | Some its =>
           map item (items o') = its
           /\ totalAmount o' = match uo_totalAmount d with
                               | Some t => if t =? 0 then itemsTotal its else t
                               | None => itemsTotal its
                               end
       | None =>
           items o' = items o
           /\ totalAmount o' = default (totalAmount o) (uo_totalAmount d)
       end.
Proof.
  intros Hl Hs _. unfold putOrder. rewrite Hl, Hs. simpl.
  exists (updateOrderModel o d now).
  split; [reflexivity|]. split; [apply dbGet_dbSet_eq|].
  unfold updateOrderModel. simpl.
  split; [reflexivity|]. split; [reflexivity|]. split; [reflexivity|].
  split; [reflexivity|].
  destruct (uo_items d) as [its|]; simpl; [|split; reflexivity].
  split.
  - unfold processOrderItems. rewrite map_map. simpl. apply map_id.
  - now rewrite sumSubtotals_items.
Qed.

Lemma find_dbSet k (o : Order) db :
  List.find (fun kv : Z * Order => String.eqb (pretty (fst kv)) (pretty k)) (dbSet k o db)
  = Some (k, o).
Proof.
  induction db as [|[k0 v0] db IH]; simpl.
  - now rewrite String.eqb_refl.
  - destruct (k =? k0) eqn:E1; [|destruct (k <? k0) eqn:E2]; simpl.
    + now rewrite String.eqb_refl.
    + now rewrite String.eqb_refl.
    + destruct (String.eqb (pretty k0) (pretty k)) eqn:E; [|exact IH].
      apply String.eqb_eq in E. apply (inj pretty) in E. subst k0.
      rewrite Z.eqb_refl in E1. discriminate.
Qed.

Lemma find_dbDelete k db :
  List.find (fun kv : Z * Order => String.eqb (pretty (fst kv)) (pretty k)) (dbDelete k db)
  = None.
Proof.
  induction db as [|[k0 v0] db IH]; simpl; [reflexivity|].
  destruct (k0 =? k) eqn:E; simpl; [exact IH|].
  destruct (String.eqb (pretty k0) (pretty k)) eqn:E'; [|exact IH].
  apply String.eqb_eq in E'. apply (inj pretty) in E'. subst k0.
  rewrite Z.eqb_refl in E. discriminate.
Qed.

(** X15. Creation, then read. After [POST /orders] was answered 201, the
    order reads 200 under the id the counter had, as it was answered. *)
Theorem created_order_is_served
  (b : JsVal) (userExists : Z -> bool) (now : string) (st : State) :
  statusCode (fst (create b userExists now st)) = 201 ->
  exists o,
    fst (create b userExists now st) = success 201 (orderObj o)
    /\ getOrder (pretty (currentId st)) (snd (create b userExists now st))
       = success 200 (orderObj o).
Proof.
  intros H201. unfold create in *.
  destruct (createOrderSchema b) as [errs|d]; [simpl in H201; lia|].
  destruct (userExists (co_userId d)); [|simpl in H201; lia].
  unfold createOrderModel. simpl. eexists. split; [reflexivity|].
  unfold getOrder, lookupParam. simpl. now rewrite find_dbSet.
Qed.

(** X16. Deletion, then read. When the parameter is the decimal form of a
    numeric id under which the store holds an order, the deletion is
    answered 200 with that order; after it the id reads 404, a second
    deletion is answered 404, and the counter is as it was. *)
Theorem deleted_order_is_gone (p : string) (st : State) (k : Z) (o : Order) :
  lookupParam p st = Some (k, o) ->
  fst (deleteOrder p st)
  = json 200 (JObj [("success", JBool true);
                    ("message", JStr "Order deleted successfully");
                    ("data", orderObj o)])
  /\ getOrder p (snd (deleteOrder p st)) = failure 404 "Order not found"
  /\ fst (deleteOrder p (snd (deleteOrder p st))) = failure 404 "Order not found"
  /\ currentId (snd (deleteOrder p st)) = currentId st.
Proof.
  intros Hl. unfold deleteOrder at 1 2 4 5. rewrite Hl.
  apply lookupParam_In in Hl as [_ <-]. simpl.
  split; [reflexivity|].
  unfold getOrder, deleteOrder, lookupParam. simpl. now rewrite find_dbDelete.
Qed.

End Laws.

End OrdersLaws.

(* ===================================================================== *)
(** * The listings of the orders service *)
(* ===================================================================== *)

Module OrdersListing.

Import StoreFacts StoreLaws ZodFacts ListFacts OrdersService OrdersSteps OrdersPaging.

Section Laws.
Context `{Platform}.

Lemma filter_filter {A} (p1 p2 : A -> bool) (l : list A) :
  List.filter p2 (List.filter p1 l) = List.filter (fun x => p1 x && p2 x) l.
Proof.
  induction l as [|x l IH]; simpl; [reflexivity|].
  destruct (p1 x); simpl; [|exact IH]. destruct (p2 x); now rewrite IH.
Qed.

Lemma filter_ext_bool {A} (p1 p2 : A -> bool) (l : list A) :
  (forall x, p1 x = p2 x) -> List.filter p1 l = List.filter p2 l.
Proof.
  intros Heq. induction l as [|x l IH]; simpl; [reflexivity|].
  rewrite Heq, IH. reflexivity.
Qed.

Lemma selected_perm param q st :
  Permutation (selected param q st)
    (List.filter (passes param q) (values (fakeOrdersDb st))).
Proof.
  unfold selected. rewrite sortBy_perm. unfold passes.
  destruct (given (uq_status q)) as [s|].
  - now rewrite filter_filter.
  - erewrite filter_ext_bool; [reflexivity|]. intros o. simpl.
    now rewrite andb_true_r.
Qed.

Lemma limitNum_bounds q : 1 <= limitNum q <= 100.
Proof. unfold limitNum. lia. Qed.

(** One page of the listing: the slice of the selection the page number
    names. *)
Lemma page_listing param q st s n :
  parseInt s = Some n -> 1 <= n ->
  listedOrders (listUserOrders param (onPage s q) st)
  = map orderObj (take (Z.to_nat (limitNum q))
                    (drop (Z.to_nat ((n - 1) * limitNum q)) (selected param q st))).
Proof.
  intros Hs Hn. unfold listedOrders, listUserOrders. cbv zeta. simpl.
  unfold parseOr at 1. rewrite Hs.
  destruct (n =? 0) eqn:E; [apply Z.eqb_eq in E; lia|].
  fold (selected param q st).
  rewrite Z.max_r by lia. unfold slice. simpl.
  pose proof (limitNum_bounds q) as Hl.
  unfold limitNum, parseOr in *.
  match type of Hl with 1 <= ?e <= 100 => set (L := e) in * end.
  assert (0 <= (n - 1) * L) as Hm by nia.
  assert ((Z.to_nat ((n - 1) * L + L) - Z.to_nat ((n - 1) * L))%nat = Z.to_nat L) as ->.
  { revert Hm. generalize ((n - 1) * L). intros m Hm. lia. }
  reflexivity.
Qed.

Lemma announcedPages_listing param q st :
  announcedPages (listUserOrders param q st)
  = ceilDiv (Z.of_nat (length (selected param q st))) (limitNum q).
Proof. reflexivity. Qed.

(** Consecutive pages, from the page after [base] on, are consecutive
    slices of the selection. *)
Lemma pages_concat param q st pages : forall base : nat,
  (forall i s, pages !! i = Some s -> parseInt s = Some (Z.of_nat (base + i) + 1)) ->
  concat (map (fun s => listedOrders (listUserOrders param (onPage s q) st)) pages)
  = map orderObj (take (length pages * Z.to_nat (limitNum q))
                    (drop (base * Z.to_nat (limitNum q)) (selected param q st))).
Proof.
  induction pages as [|s pages IH]; intros base Hp; simpl; [reflexivity|].
  rewrite (page_listing param q st s (Z.of_nat base + 1)).
  - rewrite (IH (S base)).
    + rewrite <- map_app. f_equal.
      pose proof (limitNum_bounds q) as Hl.
      assert (Z.to_nat ((Z.of_nat base + 1 - 1) * limitNum q)
              = (base * Z.to_nat (limitNum q))%nat) as -> by nia.
      assert ((S base * Z.to_nat (limitNum q))%nat
              = (base * Z.to_nat (limitNum q) + Z.to_nat (limitNum q))%nat) as -> by lia.
      rewrite <- drop_drop. apply take_take_drop.
    + intros i s' Hi. rewrite (Hp (S i) s' Hi). f_equal. lia.
  - rewrite (Hp 0%nat s eq_refl). f_equal. lia.
  - lia.
Qed.

Lemma ceilDiv_covers a b : 0 <= a -> 1 <= b -> a <= ceilDiv a b * b.
Proof.
  intros Ha Hb. unfold ceilDiv.
  pose proof (Z.div_mod (a + b - 1) b ltac:(lia)) as Hdm.
  pose proof (Z.mod_pos_bound (a + b - 1) b ltac:(lia)) as Hmod.
  nia.
Qed.

(** X17. The pages of [GET /orders/user/:userId] partition the listing. For
    a fixed user, filter, sort order and limit, the pages 1 to [totalPages],
    one after the other, list every order of the store that belongs to the
    user and passes the status filter exactly once. *)
Theorem user_orders_pages_partition
  (param : string) (q : UserQuery) (st : State) (pages : list string) :
  (forall i s, pages !! i = Some s -> parseInt s = Some (Z.of_nat i + 1)) ->
  Z.of_nat (length pages) = announcedPages (listUserOrders param q st) ->
  exists all : list Order,
    Permutation all
      (List.filter
         (fun o => byUser (parseInt param) o
                   && match given (uq_status q) with
                      | Some s => String.eqb (status o) s
                      | None => true
                      end)
         (values (fakeOrdersDb st)))
    /\ concat (map (fun s => listedOrders (listUserOrders param (onPage s q) st)) pages)
       = map orderObj all.
Proof.
  intros Hp Hn. exists (selected param q st). split; [apply selected_perm|].
  rewrite (pages_concat param q st pages 0%nat) by exact Hp.
  rewrite announcedPages_listing in Hn. rewrite Nat.mul_0_l, drop_0.
  rewrite take_ge; [reflexivity|].
  pose proof (limitNum_bounds q) as Hl.
  assert (Z.of_nat (length (selected param q st))
          <= ceilDiv (Z.of_nat (length (selected param q st))) (limitNum q) * limitNum q)
    as Hc by (apply ceilDiv_covers; lia).
  rewrite <- Hn in Hc. apply Nat2Z.inj_le.
  rewrite Nat2Z.inj_mul, Z2Nat.id by lia. exact Hc.
Qed.

Lemma insertBy_newest x l :
  dated x -> Forall dated l ->
  StronglySorted notOlder l ->
  StronglySorted notOlder (insertBy newestFirst x l).
Proof.
  intros [tx Hx] Hd. induction l as [|y l IH]; simpl; intros Hs.
  - repeat constructor.
  - apply StronglySorted_inv in Hs as [Hs Hall].
    apply Forall_cons in Hd as [[ty Hy] Hd].
    destruct (0 <? newestFirst x y) eqn:E.
    + apply Z.ltb_lt in E. constructor; [now apply IH|].
      apply List.Forall_forall. intros z Hz.
      apply (Permutation_in _ (insertBy_perm newestFirst x l)) in Hz.
      destruct Hz as [<-|Hz].
      * unfold newestFirst in E. rewrite Hx, Hy in E.
        exists ty, tx. repeat split; auto. lia.
      * rewrite List.Forall_forall in Hall. now apply Hall.
    + apply Z.ltb_ge in E. unfold newestFirst in E. rewrite Hx, Hy in E.
      constructor; [now constructor|].
      apply List.Forall_forall. intros z [<-|Hz].
      * exists tx, ty. repeat split; auto. lia.
      * rewrite List.Forall_forall in Hall.
        destruct (Hall z Hz) as [ty' [tz (Hy' & Hzt & Hle)]].
        rewrite Hy in Hy'. injection Hy' as <-.
        exists tx, tz. repeat split; auto. lia.
Qed.

Lemma sortBy_newest l :
  Forall dated l -> StronglySorted notOlder (sortBy newestFirst l).
Proof.
  unfold sortBy. induction l as [|x l IH]; simpl; intros Hd; [constructor|].
  apply Forall_cons in Hd as [Hx Hd].
  apply insertBy_newest; [exact Hx| |now apply IH].
  apply List.Forall_forall. intros z Hz.
  apply (Permutation_in _ (sortBy_perm newestFirst l)) in Hz.
  rewrite List.Forall_forall in Hd. now apply Hd.
Qed.

Lemma filter_dated (p : Order -> bool) l : Forall dated l -> Forall dated (List.filter p l).
Proof.
  rewrite !List.Forall_forall. intros Hd z Hz. apply filter_In in Hz as [Hz _].
  now apply Hd.
Qed.

(** X18. [GET /orders] answers 200 with the orders of the store that pass
    the filters of the query, each once, the newest first: no order of the
    list was created before one that follows it. The creation times of the
    stored orders are dates the platform can read. *)
Theorem orders_are_listed_newest_first (q : ListQuery) (st : State) :
  Forall dated (values (fakeOrdersDb st)) ->
  exists l : list Order,
    listOrders q st = success 200 (JArr (map orderObj l))
    /\ Permutation l
         (List.filter
            (fun o => match given (q_userId q) with
                      | Some u => byUser (parseInt u) o
                      | None => true
                      end
                      && match given (q_status q) with
                         | Some s => String.eqb (status o) s
                         | None => true
                         end)
            (values (fakeOrdersDb st)))
    /\ StronglySorted notOlder l.
Proof.
  intros Hd. unfold listOrders. cbv zeta.
  match goal with |- context [sortBy newestFirst ?l] => exists (sortBy newestFirst l) end.
  split; [reflexivity|]. split.
  - rewrite sortBy_perm.
    destruct (given (q_userId q)) as [u|]; destruct (given (q_status q)) as [s|].
    + now rewrite filter_filter.
    + erewrite filter_ext_bool; [reflexivity|]. intros o. simpl. now rewrite andb_true_r.
    + reflexivity.
    + erewrite (filter_ext_bool (fun _ => true && true)); [|reflexivity].
      clear. induction (values (fakeOrdersDb st)) as [|x l IH]; simpl; [reflexivity|].
      now constructor.
  - apply sortBy_newest.
    destruct (given (q_userId q)) as [u|]; destruct (given (q_status q)) as [s|];
      repeat apply filter_dated; exact Hd.
Qed.

End Laws.

End OrdersListing.

(* ===================================================================== *)
(** * What never changes in an order *)
(* ===================================================================== *)

Module OrdersHistory.

Import StoreFacts StoreLaws OrdersService OrdersSteps OrdersLaws.

Section Laws.
Context `{Platform}.

Lemma run_app rqs1 rqs2 : forall st,
  snd (run (rqs1 ++ rqs2) st) = snd (run rqs2 (snd (run rqs1 st))).
Proof.
  induction rqs1 as [|[[rq userExists] now] rqs1 IH]; intros st; [reflexivity|].
  rewrite <- app_comm_cons, !orders_run_cons. apply IH.
Qed.

Lemma run_inv rqs : forall st, Inv st -> Inv (snd (run rqs st)).
Proof.
  induction rqs as [|[[rq userExists] now] rqs IH]; intros st Hinv; [exact Hinv|].
  rewrite orders_run_cons. apply IH.
  now apply (OrdersFacts.orders_effect_inv _ _
               (OrdersFacts.orders_handle_effect rq userExists now st)).
Qed.

Lemma handle_settled k o1 rq userExists now st :
  settled k o1 st -> settled k o1 (snd (handle rq userExists now st)).
Proof.
  intros (Hinv & Hk & Hown).
  destruct (OrdersFacts.orders_effect_inv _ _
              (OrdersFacts.orders_handle_effect rq userExists now st) Hinv)
    as (Hinv' & Hle & _).
  split; [exact Hinv'|]. split; [lia|].
  destruct (orders_handle_step rq userExists now st)
    as [r|r o Hr Ho|r k' o o' Hr Hin Hu Hc Hwf|r k' o Hr Hin]; simpl.
  - exact Hown.
  - intros x Hx. rewrite dbGet_dbSet_ne in Hx by lia. now apply Hown.
  - intros x Hx. destruct (Z.eq_dec k k') as [<-|Hne].
    + rewrite dbGet_dbSet_eq in Hx. injection Hx as <-.
      destruct Hinv as [Hsorted _].
      destruct (Hown o (In_dbGet _ _ _ Hsorted Hin)) as [Ho1 Ho2].
      split; congruence.
    + rewrite dbGet_dbSet_ne in Hx by exact Hne. now apply Hown.
  - intros x Hx. destruct (Z.eq_dec k k') as [<-|Hne].
    + rewrite dbGet_dbDelete_eq in Hx. discriminate.
    + rewrite dbGet_dbDelete_ne in Hx by exact Hne. now apply Hown.
Qed.

Lemma run_settled k o1 rqs : forall st,
  settled k o1 st -> settled k o1 (snd (run rqs st)).
Proof.
  induction rqs as [|[[rq userExists] now] rqs IH]; intros st Hs; [exact Hs|].
  rewrite orders_run_cons. apply IH. now apply handle_settled.
Qed.

(** X19. An order never changes hands. Once an order is in the store, then
    whatever requests the service serves afterwards, what is stored under
    its id has the same owner and the same creation time: an update keeps
    both, and after a deletion the id is not issued again. *)
Theorem order_owner_is_permanent
  (rqs1 rqs2 : list (Request * (Z -> bool) * string)) (k : Z) (o1 o2 : Order) :
  dbGet k (fakeOrdersDb (ordersStore rqs1)) = Some o1 ->
  dbGet k (fakeOrdersDb (ordersStore (rqs1 ++ rqs2))) = Some o2 ->
  userId o2 = userId o1 /\ createdAt o2 = createdAt o1.
Proof.
  unfold ordersStore. intros H1 H2. rewrite run_app in H2.
  assert (settled k o1 (snd (run rqs1 init))) as Hs.
  { pose proof (run_inv rqs1 init OrdersFacts.orders_init_inv) as Hinv.
    split; [exact Hinv|]. split.
    - destruct Hinv as [_ Hb]. rewrite List.Forall_forall in Hb.
      apply Hb. eapply dbGet_In, H1.
    - intros o Ho. rewrite H1 in Ho. injection Ho as <-. now split. }
  destruct (run_settled k o1 rqs2 _ Hs) as (_ & _ & Hown). now apply Hown.
Qed.

End Laws.

End OrdersHistory.

(* ===================================================================== *)
(** * Properties of the domain events module *)
(* ===================================================================== *)

Module EventsFacts.

Import Events PublisherLife.

Lemma calls_app cs1 cs2 p : calls (cs1 ++ cs2) p = calls cs2 (calls cs1 p).
Proof. unfold calls. apply fold_left_app. Qed.

Lemma call_keeps_broker_off c p :
  messageBroker p = None ->
  messageBroker (call c p) = None
  /\ brokered (call c p) = brokered p
  /\ published (call c p)
     = published p ++ match c with Publish e => [e] | _ => [] end.
Proof.
  intros Hb. destruct c; simpl; rewrite ?app_nil_r; repeat split; auto.
  rewrite Hb. now rewrite andb_false_r.
Qed.

Lemma calls_keep_broker_off cs : forall p,
  messageBroker p = None ->
  messageBroker (calls cs p) = None
  /\ brokered (calls cs p) = brokered p
  /\ published (calls cs p) = published p ++ publishedBy cs.
Proof.
  induction cs as [|c cs IH]; intros p Hb; simpl.
  - rewrite app_nil_r. now repeat split.
  - destruct (call_keeps_broker_off c p Hb) as (Hb' & Hbr & Hpub).
    destruct (IH (call c p) Hb') as (Hb'' & Hbr' & Hpub').
    change (calls (c :: cs) p) with (calls cs (call c p)).
    repeat split; [exact Hb''|congruence|].
    rewrite Hpub', Hpub. unfold publishedBy. simpl.
    destruct c; simpl; rewrite <- ?app_assoc; simpl; rewrite ?app_nil_r; reflexivity.
Qed.

(** X20. Events stay local. Whatever is called on a new publisher, in
    whatever order (subscribe, connectMessageBroker, publish, disconnect),
    no event is ever handed to a message broker: there is no broker, and the
    placeholder connection leaves it so; the events handed to [publish] are
    all accepted, in order. *)
Theorem events_stay_local (cs : list Call) :
  brokered (calls cs newEventPublisher) = []
  /\ messageBroker (calls cs newEventPublisher) = None
  /\ published (calls cs newEventPublisher) = publishedBy cs.
Proof.
  destruct (calls_keep_broker_off cs newEventPublisher eq_refl) as (Hb & Hbr & Hpub).
  repeat split; assumption.
Qed.

(** X21. Subscription and delivery. An event is delivered to the handlers
    subscribed to its type, in the order of their subscription, a handler
    that throws being skipped without stopping the others: after one more
    subscription the deliveries of an event are the ones before it, followed
    by the delivery to the new handler when the types agree; an event of
    another type is delivered as before. *)
Theorem subscription_takes_effect
  (t : string) (h : Handler) (e : DomainEvent) (p : EventPublisher) :
  delivered (publish e (subscribe t h p))
  = delivered (publish e p) ++ (if decide (type e = t) then delivery e h else []).
Proof.
  simpl. unfold notifyLocalSubscribers. simpl. rewrite <- app_assoc. f_equal.
  destruct (decide (type e = t)) as [->|Hne].
  - rewrite lookup_insert_eq. simpl. rewrite omap_app. f_equal.
    unfold delivery. simpl. now destruct (runHandler h e).
  - rewrite lookup_insert_ne by congruence. now rewrite app_nil_r.
Qed.

End EventsFacts.

(* ===================================================================== *)
(** * Properties of the gateway's handlers *)
(* ===================================================================== *)

Module HandlerFacts.

Import Breaker RateLimiter Gateway RouteEvents.

Section Handlers.
Context `{Platform} {W : Type}.
Variable net : Outbound -> W -> Transport * W.
Variable samples : Z.
Variable listUsersHandler myOrdersHandler healthHandler : Handler (W := W).

Local Abbreviation handler :=
  (handler net samples listUsersHandler myOrdersHandler healthHandler).
Local Abbreviation dispatch :=
  (dispatch net samples listUsersHandler myOrdersHandler healthHandler).

(** A call through a breaker leaves the publisher alone. *)
Lemma fire_publisher k c u o (s : State * W) :
  publisher (fst (snd (fire net samples k c u o s))) = publisher (fst s).
Proof.
  unfold fire. destruct s as [st w]. destruct (entry _ _ _); [|reflexivity].
  destruct (net _ w) as [t w']. simpl. now destruct c.
Qed.

Lemma proxy_publisher c u o k (s : State * W) :
  publisher (fst (snd (proxy net samples c u o k s))) = publisher (fst s).
Proof.
  unfold proxy. destruct u as [u|]; [|reflexivity]. unfold bind.
  pose proof (fire_publisher k c u o s) as Hf.
  destruct (fire net samples k c u o s) as [r s']. exact Hf.
Qed.

(** What is sent when the check before an event has passed. *)
Lemma succeededWith_status n result :
  succeededWith n result = true -> 100 <= n <= 999 ->
  exists d, respond result = Some (json n d).
Proof.
  unfold succeededWith, respond. intros Hs Hn.
  destruct (get result "status") as [s|]; [|discriminate].
  destruct (get result "data") as [d|]; [|discriminate].
  apply andb_true_iff in Hs as [Hs _]. apply andb_true_iff in Hs as [Hs _].
  destruct s; try discriminate. simpl in Hs. apply Z.eqb_eq in Hs. subst n0.
  exists d. simpl. unfold send.
  destruct ((100 <=? n) && (n <=? 999)) eqn:E; [reflexivity|].
  apply andb_false_iff in E as [E|E]; [apply Z.leb_gt in E|apply Z.leb_gt in E]; lia.
Qed.

(** A handler that publishes after a call: the publisher gets at most the
    event, and only under an answer with the status checked. *)
Lemma publishing_step (n : Z) (result : JsVal) (e : option Events.DomainEvent)
  (t : string) (s : State * W) :
  100 <= n <= 999 ->
  (forall ev, e = Some ev -> Events.type ev = t) ->
  let out := (bind (if succeededWith n result then publish e else ret tt)
                (fun _ => ret (default internalError (respond result)))) s in
  publisher (fst (snd out)) = publisher (fst s)
  \/ exists ev, publisher (fst (snd out)) = Events.publish ev (publisher (fst s))
                /\ Events.type ev = t /\ statusCode (fst out) = n.
Proof.
  intros Hn Ht. unfold bind. cbv zeta.
  destruct (succeededWith n result) eqn:Hs; [|now left].
  destruct (succeededWith_status n result Hs Hn) as [d Hd].
  destruct e as [ev|]; [|now left].
  right. exists ev. simpl. rewrite Hd. repeat split. now apply Ht.
Qed.

Lemma bind_fire {A} k c u o (f : JsVal -> M (W := W) A) (s : State * W) :
  bind (fire net samples k c u o) f s
  = f (fst (fire net samples k c u o s)) (snd (fire net samples k c u o s)).
Proof. unfold bind. now destruct (fire net samples k c u o s). Qed.

(** X22. Events follow success. Serving a request, a handler of the gateway
    publishes at most one event; only the creation of an order, the change
    of its status and its cancellation publish one, of their own type, and
    only under an answer with the status 201 (creation) or 200 (the two
    others): a request that is answered otherwise leaves no event. *)
Theorem events_follow_success (r : Route) (k : Clock) (req : Request) (s : State * W) :
  modelled r = true ->
  let out := handler r k req s in
  publisher (fst (snd out)) = publisher (fst s)
  \/ exists ev t n,
       announces r = Some (t, n)
       /\ publisher (fst (snd out)) = Events.publish ev (publisher (fst s))
       /\ Events.type ev = t
       /\ statusCode (fst out) = n.
Proof.
  intros Hm. destruct r; try discriminate; cbv zeta; unfold Gateway.handler;
    try (left; apply proxy_publisher); try (left; reflexivity).
  - (* POST /orders *)
    unfold createOrder. rewrite bind_fire.
    pose proof (fire_publisher k ordersCircuit (ORDERS_SERVICE_URL +:+ "/orders")
                  {| method := POST; data := body req |} s) as Hf.
    set (result := fst (fire _ _ _ _ _ _ s)) in *.
    set (s1 := snd (fire _ _ _ _ _ _ s)) in *.
    destruct (publishing_step 201 result (orderCreatedEvent k req result)
                Events.ORDER_CREATED s1 ltac:(lia)) as [Hsame|[ev (Hp & Ht & Hst)]].
    + intros ev Hev. unfold orderCreatedEvent in Hev.
      repeat match type of Hev with
             | (mbind _ ?x = Some _) => destruct x; simpl in Hev; [|discriminate]
             end.
      now injection Hev as <-.
    + left. cbv zeta in Hsame. rewrite Hsame. exact Hf.
    + right. exists ev, Events.ORDER_CREATED, 201. cbv zeta in Hp, Hst.
      rewrite Hp, Hf. repeat split; auto.
  - (* PATCH /orders/:orderId/status *)
    unfold patchOrderStatus.
    destruct (get (body req) "status") as [newStatus|]; [|now left].
    rewrite bind_fire.
    pose proof (fire_publisher k ordersCircuit
                  (ORDERS_SERVICE_URL +:+ "/orders/" +:+ param req) noOptions s) as Hf1.
    set (current := fst (fire _ _ _ _ _ _ s)) in *.
    set (s1 := snd (fire _ _ _ _ _ _ s)) in *.
    rewrite bind_fire.
    pose proof (fire_publisher k ordersCircuit
                  (ORDERS_SERVICE_URL +:+ "/orders/" +:+ param req +:+ "/status")
                  {| method := PATCH; data := body req |} s1) as Hf2.
    set (result := fst (fire _ _ _ _ _ _ s1)) in *.
    set (s2 := snd (fire _ _ _ _ _ _ s1)) in *.
    match goal with
    | |- context [publish ?e] =>
        destruct (publishing_step 200 result e Events.ORDER_STATUS_UPDATED s2
                    ltac:(lia)) as [Hsame|[ev (Hp & Ht & Hst)]]
    end.
    + intros ev Hev. destruct (get (user req) "id"); simpl in Hev; [|discriminate].
      now injection Hev as <-.
    + left. cbv zeta in Hsame. rewrite Hsame. congruence.
    + right. exists ev, Events.ORDER_STATUS_UPDATED, 200. cbv zeta in Hp, Hst.
      rewrite Hp, Hf2, Hf1. repeat split; auto.
  - (* PATCH /orders/:orderId/cancel *)
    unfold cancelOrder. rewrite bind_fire.
    pose proof (fire_publisher k ordersCircuit
                  (ORDERS_SERVICE_URL +:+ "/orders/" +:+ param req +:+ "/cancel")
                  {| method := PATCH; data := JUndef |} s) as Hf.
    set (result := fst (fire _ _ _ _ _ _ s)) in *.
    set (s1 := snd (fire _ _ _ _ _ _ s)) in *.
    match goal with
    | |- context [publish ?e] =>
        destruct (publishing_step 200 result e Events.ORDER_CANCELLED s1
                    ltac:(lia)) as [Hsame|[ev (Hp & Ht & Hst)]]
    end.
    + intros ev Hev. destruct (get (body req) "reason"); simpl in Hev; [|discriminate].
      destruct (get (user req) "id"); simpl in Hev; [|discriminate].
      now injection Hev as <-.
    + left. cbv zeta in Hsame. rewrite Hsame. exact Hf.
    + right. exists ev, Events.ORDER_CANCELLED, 200. cbv zeta in Hp, Hst.
      rewrite Hp, Hf. repeat split; auto.
  - (* GET /users/:userId/details *)
    left. unfold userDetails. cbv zeta. rewrite !bind_fire.
    unfold ret. simpl. rewrite !fire_publisher. reflexivity.
Qed.

(** X23. A forwarding handler passes the answer of the upstream through.
    With the breaker closed and an answer within the timeout, the status and
    the body the caller gets are the ones the upstream gave, an error status
    as well as a success; a status outside 100 to 999, which the framework
    refuses to send, is answered 500. *)
Theorem forwarded_answer_is_passed_through
  (c : Circuit) (u : string) (o : AxiosOptions) (k : Clock) (st : State) (w w' : W)
  (elapsed status : Z) (data : JsVal) :
  state (breaker c st) = Closed ->
  net {| circuit := c; url := u; options := o |} w = (Responded elapsed status data, w') ->
  elapsed <= 3000 ->
  fst (proxy net samples c (Some u) o k (st, w))
  = if (100 <=? status) && (status <=? 999)
    then json status data
    else json 500 (JObj [("error", JStr "Internal server error")]).
Proof.
  intros Hc Hnet He. unfold proxy, bind.
  rewrite (CallFacts.fire_closed_response net samples k c u o st w elapsed status data w'
             Hc Hnet He).
  simpl. unfold respond. simpl. unfold send.
  now destruct ((100 <=? status) && (status <=? 999)).
Qed.

(** X24. The aggregated read when the users service is unavailable. With
    the users breaker open and the orders service answering its list within
    the timeout, [GET /users/:userId/details] answers 200 with [success: true]
    and the orders of the id, and with no user: the fallback value has
    neither the status 404 nor data, so [user] is undefined. *)
Theorem details_with_users_unavailable
  (k : Clock) (req : Request) (st : State) (w w' : W) (elapsed : Z)
  (all mine : list JsVal) :
  state (users st) = Open ->
  nowMs k - openedAt (users st) < 3000 ->
  state (orders st) = Closed ->
  net {| circuit := ordersCircuit;
         url := ORDERS_SERVICE_URL +:+ "/orders";
         options := noOptions |} w
  = (Responded elapsed 200 (JObj [("success", JBool true); ("data", JArr all)]), w') ->
  elapsed <= 3000 ->
  ordersOf (param req) all = Some mine ->
  fst (userDetails net samples k req (st, w))
  = json 200 (JObj [("success", JBool true);
                    ("data", JObj [("user", JUndef); ("orders", JArr mine)])]).
Proof.
  intros Ho Hc Hcl Hnet He Hmine. unfold userDetails. cbv zeta.
  unfold bind at 1. rewrite BreakerFacts.fire_open; [|exact Ho|exact Hc].
  unfold bind at 1.
  rewrite (CallFacts.fire_closed_response net samples k ordersCircuit _ _ st w
             elapsed 200 _ w' Hcl Hnet He).
  unfold ret, aggregate, userOrders. simpl.
  destruct all as [|x all]; simpl in Hmine |- *.
  - injection Hmine as <-. reflexivity.
  - rewrite Hmine. reflexivity.
Qed.

(** X25. Claims without roles. On a route that requires roles, a request
    past the general limiter whose token verifies to claims that carry no
    role array is answered 403, "User roles not found"; nothing is sent
    upstream and nothing outside the gateway changes. *)
Theorem claims_without_roles_are_refused
  (r : Route) (allowed : list string) (k : Clock) (req : Request)
  (st : State) (w : W) (token : string) (decoded : JsVal) :
  In (RequireRoles allowed) (guards r) ->
  given (bearerToken (authorization req)) = Some token ->
  jwt_verify token JWT_SECRET = Some decoded ->
  truthy decoded = true ->
  (forall roles, get decoded "roles" <> Some (JArr roles)) ->
  passesLimiter k req st ->
  let out := dispatch r k req (st, w) in
  fst out = json 403 (JObj [("success", JBool false);
                            ("error", JObj [("message", JStr "User roles not found")])])
  /\ sent (fst (snd out)) = sent st
  /\ snd (snd out) = w.
Proof.
  intros Hr Htok Hver Htruthy Hroles Hpass out. subst out.
  unfold Gateway.dispatch.
  rewrite (GuardFacts.rateLimit_same general k req _
             (fun _ s => (forbidden "User roles not found", s))).
  - destruct (GuardFacts.general_limiter_pure k req (forbidden "User roles not found") st w)
      as (Hsent & Hw & Hres).
    repeat split; [|exact Hsent|exact Hw]. now rewrite (Hres Hpass).
  - intros s'. rewrite (GuardFacts.role_guarded r allowed Hr). cbn [map chain middleware].
    rewrite (GuardFacts.authenticateJWT_accepts _ _ _ _ _ Htok Hver).
    unfold requireRoles. cbn [user withUser]. rewrite Htruthy. simpl negb. cbv iota.
    destruct (get decoded "roles") as [[| | | | |roles|]|] eqn:E; try reflexivity.
    exfalso. now apply (Hroles roles).
Qed.

End Handlers.

Lemma substring_all s : String.substring 0 (String.length s) s = s.
Proof. induction s as [|c s IH]; simpl; [reflexivity|]. now rewrite IH. Qed.

Lemma prefix_split p : forall h,
  String.prefix p h = true ->
  h = p +:+ String.substring (String.length p) (String.length h - String.length p) h.
Proof.
  induction p as [|a p IH]; intros h Hp.
  - change ("" +:+ ?x) with x. simpl. now rewrite Nat.sub_0_r, substring_all.
  - destruct h as [|b h]; [discriminate|]. simpl in Hp.
    destruct (ascii_dec a b) as [<-|]; [|discriminate].
    change (String a p +:+ ?x) with (String a (p +:+ x)). f_equal.
    exact (IH h Hp).
Qed.

(** X26. The bearer token is what follows the prefix. A header that is
    "Bearer " followed by a text yields that text as the token, and a header
    yields a token only if it starts with "Bearer ", in this spelling. *)
Theorem bearer_token_is_the_suffix (t : string) :
  bearerToken (Some ("Bearer " +:+ t)) = Some t
  /\ forall h, bearerToken (Some h) = Some t -> h = "Bearer " +:+ t.
Proof.
  split.
  - unfold bearerToken. simpl. change ("" +:+ t) with t. simpl.
    rewrite Nat.sub_0_r, substring_all. now destruct t.
  - intros h. unfold bearerToken.
    destruct (String.prefix "Bearer " h) eqn:Hp; [|discriminate].
    intros [= <-]. exact (prefix_split "Bearer " h Hp).
Qed.

End HandlerFacts.

(* ===================================================================== *)
(** * The aggregated read, and an order and its user *)
(* ===================================================================== *)

Module AggregationFacts.

Import Breaker Gateway Deployment.

Section Handlers.
Context `{Platform} {W : Type}.
Variable net : Outbound -> W -> Transport * W.
Variable samples : Z.

(** X27. The aggregated read of a user the users service does not know.
    When the users service answers 404 within the timeout,
    [GET /users/:userId/details] answers 404, "User not found", whatever
    becomes of the call to the orders service. *)
Theorem details_for_unknown_user
  (k : Clock) (req : Request) (st : State) (w w' : W) (elapsed : Z) (data : JsVal) :
  state (users st) = Closed ->
  net {| circuit := usersCircuit;
         url := USERS_SERVICE_URL +:+ "/users/" +:+ param req;
         options := noOptions |} w = (Responded elapsed 404 data, w') ->
  elapsed <= 3000 ->
  fst (userDetails net samples k req (st, w))
  = json 404 (JObj [("success", JBool false); ("error", JStr "User not found")]).
Proof.
  intros Hc Hnet He. unfold userDetails. cbv zeta. unfold bind.
  rewrite (CallFacts.fire_closed_response net samples k usersCircuit _ _ st w
             elapsed 404 data w' Hc Hnet He).
  destruct (fire net samples k ordersCircuit _ _ _) as [ordersResult s2].
  reflexivity.
Qed.

End Handlers.

Section Together.
Context `{Platform}.

(** X28. The user check of [POST /orders]. For a body that passes the
    schema, the orders service asks the users service for the user of the
    body. When the lookup reaches the users service, as on the healthy
    network: if the users service has a record under the id, the order is
    stored under the next id for that user and answered 201, and the users
    service is unchanged; if it has none, the answer is 404, "User not
    found", and nothing changes. When the lookup itself fails, the catch
    lets the order through: it is stored and answered 201 without the user
    having been found. The id is read back from its decimal form as the
    number it is. *)
Theorem user_check_decides_creation
  (b : JsVal) (d : OrdersService.CreateOrderData) (w : World)
  (now : string) (os : OrdersService.State) :
  OrdersService.createOrderSchema b = inr d ->
  parseInt (pretty (OrdersService.co_userId d)) = Some (OrdersService.co_userId d) ->
  (let out := net {| circuit := ordersCircuit;
                     url := ORDERS_SERVICE_URL +:+ "/orders";
                     options := {| method := POST; data := b |} |} w in
   match dbGet (OrdersService.co_userId d) (UsersService.fakeUsersDb (usersState w)) with
   | Some _ =>
       exists o,
         fst out = Responded (latency w) 201
                     (Js.body (OrdersService.success 201 (OrdersService.orderObj o)))
         /\ dbGet (OrdersService.currentId (ordersState w))
              (OrdersService.fakeOrdersDb (ordersState (snd out))) = Some o
         /\ OrdersService.userId o = OrdersService.co_userId d
         /\ OrdersService.currentId (ordersState (snd out))
            = OrdersService.currentId (ordersState w) + 1
         /\ usersState (snd out) = usersState w
   | None =>
       fst out = Responded (latency w) 404
                   (JObj [("success", JBool false); ("error", JStr "User not found")])
       /\ snd out = w
   end)
  /\ (let out := OrdersService.create b (checkUserExists None) now os in
      exists o,
        fst out = OrdersService.success 201 (OrdersService.orderObj o)
        /\ dbGet (OrdersService.currentId os)
             (OrdersService.fakeOrdersDb (snd out)) = Some o
        /\ OrdersService.userId o = OrdersService.co_userId d).
Proof.
  intros Hs Hp. split.
  - intros out. subst out. unfold net. cbn [circuit url options method data].
    assert (target ORDERS_SERVICE_URL (ORDERS_SERVICE_URL +:+ "/orders")
            = Some (["orders"], [])) as -> by reflexivity.
    cbn [ordersRoute]. cbn [OrdersService.handle]. unfold OrdersService.create.
    rewrite Hs.
    assert (checkUserExists (Some (usersState w)) (OrdersService.co_userId d)
            = match dbGet (OrdersService.co_userId d)
                      (UsersService.fakeUsersDb (usersState w)) with
              | Some _ => true
              | None => false
              end) as ->.
    { unfold checkUserExists, UsersService.getUser, UsersService.lookupParam.
      rewrite Hp. now destruct (dbGet _ _). }
    destruct (dbGet _ _) as [u|].
    + unfold OrdersService.createOrderModel. simpl. eexists.
      split; [reflexivity|]. split; [apply StoreLaws.dbGet_dbSet_eq|].
      repeat split.
    + simpl. split; [reflexivity|]. now destruct w.
  - intros out. subst out. unfold OrdersService.create. rewrite Hs.
    cbn [checkUserExists]. unfold OrdersService.createOrderModel. simpl.
    eexists. split; [reflexivity|]. split; [apply StoreLaws.dbGet_dbSet_eq|].
    reflexivity.
Qed.

End Together.

End AggregationFacts.

(* ===================================================================== *)
(** * The routes the orders service does not have *)
(* ===================================================================== *)

Module DeploymentFacts.

Import Breaker Gateway Deployment ReadOnly.

Section Facts.
Context `{Platform}.
Variable samples : Z.

Lemma prefix_app p x : String.prefix p (p +:+ x) = true.
Proof.
  induction p as [|a p IH].
  - change ("" +:+ x) with x. now destruct x.
  - change (String a p +:+ x) with (String a (p +:+ x)). simpl.
    destruct (ascii_dec a a) as [_|Hne]; [exact IH|contradiction].
Qed.

Lemma splitOn_nonempty sep s : splitOn sep s <> [].
Proof.
  destruct s as [|c s]; simpl; [discriminate|].
  destruct (Ascii.eqb c sep); [discriminate|].
  destruct (splitOn sep s); discriminate.
Qed.

Lemma target_under_base base rest :
  exists segs q, target base (base +:+ rest) = Some (segs, q).
Proof.
  unfold target. rewrite prefix_app.
  match goal with |- context [splitOn "?"%char ?r] =>
    pose proof (splitOn_nonempty "?"%char r) as Hne; destruct (splitOn "?"%char r)
  end; [contradiction|]. eauto.
Qed.

Lemma ordersRoute_patch segs q b : ordersRoute PATCH segs q b = None.
Proof. reflexivity. Qed.

(** The orders service has no route for the method PATCH: the framework
    answers 404 and the services are as they were. *)
Lemma net_orders_patch rest b (w : World) :
  net {| circuit := ordersCircuit; url := ORDERS_SERVICE_URL +:+ rest;
         options := {| method := PATCH; data := b |} |} w
  = (Responded (latency w) 404 (JStr "Not Found"), w).
Proof.
  unfold net. cbn [circuit url options method data].
  destruct (target_under_base ORDERS_SERVICE_URL rest) as (segs & q & ->).
  now rewrite ordersRoute_patch.
Qed.

Lemma ordersRoute_get_readOnly segs q b r :
  ordersRoute GET segs q b = Some r -> readOnly r = true.
Proof.
  unfold ordersRoute.
  repeat match goal with
         | |- context [match ?x with _ => _ end] => destruct x
         end; try discriminate; intros [= <-]; reflexivity.
Qed.

Lemma handle_readOnly r userExists now st :
  readOnly r = true -> snd (OrdersService.handle r userExists now st) = st.
Proof. destruct r; simpl; try discriminate; reflexivity. Qed.

(** A GET reaches the orders service, which answers and stays as it was. *)
Lemma net_orders_get rest b (w : World) :
  exists status d,
    net {| circuit := ordersCircuit; url := ORDERS_SERVICE_URL +:+ rest;
           options := {| method := GET; data := b |} |} w
    = (Responded (latency w) status d, w).
Proof.
  unfold net. cbn [circuit url options method data].
  destruct (target_under_base ORDERS_SERVICE_URL rest) as (segs & q & ->).
  destruct (ordersRoute GET segs q b) as [r|] eqn:Hr; [|eauto].
  pose proof (handle_readOnly r (checkUserExists (Some (usersState w))) (serviceTime w)
                (ordersState w) (ordersRoute_get_readOnly _ _ _ _ Hr)) as Hsame.
  destruct (OrdersService.handle r _ _ _) as [res os]. simpl in Hsame. subst os.
  exists (statusCode res), (Js.body res). f_equal. now destruct w.
Qed.

(** X29. The status and the cancel routes find no route. The gateway
    forwards [PATCH /orders/:orderId/status] and [PATCH /orders/:orderId/cancel]
    with the method PATCH, for which the orders service declares no route:
    with the breaker healthy and the service answering in time, both are
    answered 404, no event is published, and the two services are as they
    were; no order changes its status this way. *)
Theorem status_and_cancel_find_no_route
  (k : Clock) (req : Request) (st : State) (w : World) :
  Healthy (orders st) ->
  latency w <= 3000 ->
  (let out := cancelOrder net samples k req (st, w) in
   statusCode (fst out) = 404
   /\ publisher (fst (snd out)) = publisher st
   /\ snd (snd out) = w)
  /\ (get (body req) "status" <> None ->
      let out := patchOrderStatus net samples k req (st, w) in
      statusCode (fst out) = 404
      /\ publisher (fst (snd out)) = publisher st
      /\ snd (snd out) = w).
Proof.
  intros Hh Hl. pose proof Hh as (Hc & _). split.
  - cbv zeta. unfold cancelOrder, bind.
    rewrite (CallFacts.fire_closed_response net samples k ordersCircuit _ _ st w
               (latency w) 404 (JStr "Not Found") w Hc (net_orders_patch _ _ w) Hl).
    repeat split.
  - intros Hbody. cbv zeta. unfold patchOrderStatus.
    destruct (get (body req) "status") as [newStatus|]; [|contradiction].
    destruct (net_orders_get ("/orders/" +:+ param req) JUndef w) as (s & d & Hget).
    change {| method := GET; data := JUndef |} with noOptions in Hget.
    unfold bind.
    rewrite (CallFacts.fire_closed_response net samples k ordersCircuit _ _ st w
               (latency w) s d w Hc Hget Hl).
    match goal with
    | |- context [fire net samples k ordersCircuit ?u ?o (?st1, w)] =>
        assert (state (breaker ordersCircuit st1) = Closed) as Hc1
          by (simpl; apply (CallFacts.settle_healthy samples (nowMs k) _ Hh));
        rewrite (CallFacts.fire_closed_response net samples k ordersCircuit u o st1 w
                   (latency w) 404 (JStr "Not Found") w Hc1 (net_orders_patch _ _ w) Hl)
    end.
    repeat split.
Qed.

End Facts.

End DeploymentFacts.

(* ===================================================================== *)
(** * The properties on concrete runs *)
(* ===================================================================== *)

Module Checks.

Import Breaker RateLimiter Gateway Deployment Scenario Samples Cases.

Lemma emails_stay_unique_witness :
  List.NoDup (map UsersService.email
                (values (UsersService.fakeUsersDb
                           (Histories.usersStore (H := demoPlatform) usersHistory)))).
Proof.
  apply (UsersLaws.emails_stay_unique (H := demoPlatform) usersHistory).
  reflexivity.
Defined.

Lemma stored_users_are_well_formed_witness :
  dbGet 1 (UsersService.fakeUsersDb (Histories.usersStore (H := demoPlatform) usersHistory))
  = Some firstUser
  /\ UsersService.id firstUser = 1
  /\ UsersService.name firstUser <> "".
Proof.
  split; [reflexivity|].
  destruct (UsersLaws.stored_users_are_well_formed (H := demoPlatform)
              usersHistory 1 firstUser eq_refl) as (Hid & _ & Hname & _).
  split; [exact Hid|exact Hname].
Defined.

Lemma users_refusal_changes_nothing_witness :
  statusCode (fst (UsersService.handle (H := demoPlatform)
                     (UsersService.Register (account "ann@example.com" "Ann")) "5" annOnly))
  = 409
  /\ snd (UsersService.handle (H := demoPlatform)
            (UsersService.Register (account "ann@example.com" "Ann")) "5" annOnly)
     = annOnly.
Proof.
  split; [reflexivity|].
  apply (UsersLaws.users_refusal_changes_nothing (H := demoPlatform)); discriminate.
Defined.

Lemma register_then_login_witness :
  statusCode
    (UsersService.login (H := demoPlatform) (credentials "b@x" "secret")
       (snd (UsersService.register (H := demoPlatform) (account "b@x" "B") "5" annOnly)))
  = 200
  /\ statusCode
       (UsersService.login (H := demoPlatform) (credentials "b@x" "guess")
          (snd (UsersService.register (H := demoPlatform) (account "b@x" "B") "5" annOnly)))
     = 401.
Proof.
  split.
  - destruct (UsersRoundTrips.register_then_login (H := demoPlatform)
                (account "b@x" "B") (credentials "b@x" "secret") "5" annOnly
                "b@x" "secret" "B" "secret" eq_refl eq_refl eq_refl)
      as (u & _ & _ & _ & _ & _ & Hlogin).
    rewrite Hlogin. reflexivity.
  - destruct (UsersRoundTrips.register_then_login (H := demoPlatform)
                (account "b@x" "B") (credentials "b@x" "guess") "5" annOnly
                "b@x" "secret" "B" "guess" eq_refl eq_refl eq_refl)
      as (u & _ & _ & _ & _ & _ & Hlogin).
    rewrite Hlogin. reflexivity.
Defined.

Lemma created_user_is_served_witness :
  UsersService.getUser (H := demoPlatform) "2"
    (snd (UsersService.create (H := demoPlatform) (account "b@x" "B") "5" annOnly))
  = json 200 (Js.body (fst (UsersService.create (H := demoPlatform)
                           (account "b@x" "B") "5" annOnly))).
Proof.
  apply (UsersRoundTrips.created_user_is_served (H := demoPlatform)); reflexivity.
Defined.

Lemma deleted_user_is_gone_witness :
  UsersService.getUser (H := demoPlatform) "1"
    (snd (UsersService.deleteUser (H := demoPlatform) "1" annOnly))
  = UsersService.userNotFound.
Proof.
  apply (UsersRoundTrips.deleted_user_is_gone (H := demoPlatform) "1" annOnly).
  reflexivity.
Defined.

Lemma profile_update_keeps_roles_and_credential_witness :
  exists u',
    dbGet 1 (UsersService.fakeUsersDb
               (snd (UsersService.putProfile (H := demoPlatform) "1"
                       (JObj [("name", JStr "Ann B"); ("roles", strings ["Admin"]);
                              ("passwordHash", JStr "new")]) "5" annOnly)))
    = Some u'
    /\ UsersService.id u' = 1
    /\ UsersService.roles u' = ["Customer"]
    /\ UsersService.passwordHash u' = "right"
    /\ UsersService.createdAt u' = "t0".
Proof.
  exact (UsersRoundTrips.profile_update_keeps_roles_and_credential (H := demoPlatform)
           "1" (JObj [("name", JStr "Ann B"); ("roles", strings ["Admin"]);
                      ("passwordHash", JStr "new")]) "5" annOnly 1 ann eq_refl).
Defined.

Lemma password_key_is_ignored_witness :
  exists u',
    dbGet 1 (UsersService.fakeUsersDb
               (snd (UsersService.putUser (H := demoPlatform) "1"
                       (JObj [("password", JStr "new")]) "5" annOnly)))
    = Some u'
    /\ UsersService.passwordHash u' = "right"
    /\ UsersService.id u' = 1
    /\ UsersService.createdAt u' = "t0".
Proof.
  exact (UsersRoundTrips.password_key_is_ignored (H := demoPlatform)
           "1" [("password", JStr "new")] "5" annOnly 1 ann eq_refl eq_refl).
Defined.

Lemma stored_orders_are_well_formed_witness :
  dbGet 1 (OrdersService.fakeOrdersDb fourOrders) = Some firstOrder
  /\ 0 <= OrdersService.totalAmount firstOrder.
Proof.
  split; [reflexivity|].
  destruct (OrdersLaws.stored_orders_are_well_formed (H := demoPlatform)
              ordersHistory 1 firstOrder eq_refl) as (_ & _ & _ & Htotal & _).
  exact Htotal.
Defined.

Lemma orders_refusal_changes_nothing_witness :
  snd (OrdersService.handle (H := demoPlatform)
         (OrdersService.Create (orderBody 1 "Pen")) (someone false) "5" fourOrders)
  = fourOrders.
Proof.
  apply (OrdersLaws.orders_refusal_changes_nothing (H := demoPlatform)); discriminate.
Defined.

Lemma created_order_total_witness :
  exists o,
    fst (OrdersService.create (orderBody 1 "Pen") (someone true) "5"
           fourOrders)
    = OrdersService.success 201 (OrdersService.orderObj o)
    /\ dbGet 5 (OrdersService.fakeOrdersDb
                  (snd (OrdersService.create (orderBody 1 "Pen")
                          (someone true) "5" fourOrders)))
       = Some o
    /\ OrdersService.userId o = 1
    /\ OrdersService.totalAmount o = 20.
Proof.
  apply (OrdersLaws.created_order_total (orderBody 1 "Pen")
           (someone true) "5" fourOrders (orderData 1 "Pen") eq_refl eq_refl).
  vm_compute. discriminate.
Defined.

Lemma updated_order_total_witness :
  exists o,
    fst (OrdersService.putOrder "1" threePens "6" fourOrders)
    = OrdersService.success 200 (OrdersService.orderObj o)
    /\ dbGet 1 (OrdersService.fakeOrdersDb
                  (snd (OrdersService.putOrder "1" threePens "6" fourOrders)))
       = Some o
    /\ OrdersService.id o = 1 /\ OrdersService.userId o = 1
    /\ OrdersService.createdAt o = "1" /\ OrdersService.updatedAt o = "6"
    /\ map OrdersService.item (OrdersService.items o)
       = [{| OrdersService.productId := "p1";
             OrdersService.productName := "Pen";
             OrdersService.quantity := 3;
             OrdersService.price := 7 |}]
    /\ OrdersService.totalAmount o = 21.
Proof.
  apply (OrdersLaws.updated_order_total "1" threePens "6" fourOrders 1 firstOrder
           threePensData eq_refl eq_refl).
  vm_compute. discriminate.
Defined.

Lemma created_order_is_served_witness :
  exists o,
    fst (OrdersService.create (orderBody 1 "Pen") (someone true) "5"
           fourOrders)
    = OrdersService.success 201 (OrdersService.orderObj o)
    /\ OrdersService.getOrder "5"
         (snd (OrdersService.create (orderBody 1 "Pen")
                 (someone true) "5" fourOrders))
       = OrdersService.success 200 (OrdersService.orderObj o).
Proof.
  exact (OrdersLaws.created_order_is_served (orderBody 1 "Pen")
           (someone true) "5" fourOrders eq_refl).
Defined.

Lemma deleted_order_is_gone_witness :
  statusCode (fst (OrdersService.deleteOrder "1" fourOrders)) = 200
  /\ OrdersService.getOrder "1"
       (snd (OrdersService.deleteOrder "1" fourOrders))
     = OrdersService.failure 404 "Order not found".
Proof.
  destruct (OrdersLaws.deleted_order_is_gone "1" fourOrders 1 firstOrder eq_refl)
    as (Hfirst & Hread & _).
  split; [now rewrite Hfirst|exact Hread].
Defined.

Lemma user_orders_pages_partition_witness :
  exists all : list OrdersService.Order,
    Permutation all
      (List.filter
         (fun o => OrdersService.byUser (parseInt (Platform := demoPlatform) "1") o
                   && match given (OrdersService.uq_status twoAPage) with
                      | Some s => String.eqb (OrdersService.status o) s
                      | None => true
                      end)
         (values (OrdersService.fakeOrdersDb fourOrders)))
    /\ concat
         (map (fun s => OrdersSteps.listedOrders
                          (OrdersService.listUserOrders (H := demoPlatform) "1"
                             (OrdersSteps.onPage s twoAPage) fourOrders))
            ["1"; "2"])
       = map OrdersService.orderObj all.
Proof.
  apply (OrdersListing.user_orders_pages_partition (H := demoPlatform)
           "1" twoAPage fourOrders ["1"; "2"]).
  - intros i s Hi. destruct i as [|[|i]]; simpl in Hi; try discriminate;
      injection Hi as <-; reflexivity.
  - reflexivity.
Defined.

Lemma orders_are_listed_newest_first_witness :
  exists l : list OrdersService.Order,
    OrdersService.listOrders (H := demoPlatform) everyOrder fourOrders
    = OrdersService.success 200 (JArr (map OrdersService.orderObj l))
    /\ StronglySorted (OrdersSteps.notOlder (H := demoPlatform)) l.
Proof.
  destruct (OrdersListing.orders_are_listed_newest_first (H := demoPlatform)
              everyOrder fourOrders) as (l & Hl & _ & Hsorted).
  - repeat constructor; eexists; reflexivity.
  - exists l. split; assumption.
Defined.

Lemma order_owner_is_permanent_witness :
  OrdersService.userId firstOrder = 1 /\ OrdersService.createdAt firstOrder = "1".
Proof.
  exact (OrdersHistory.order_owner_is_permanent (H := demoPlatform)
           [(OrdersService.Create (orderBody 1 "Pen"), someone true, "1")]
           [(OrdersService.Create (orderBody 1 "Ink"), someone true, "2");
            (OrdersService.Create (orderBody 2 "Cap"), someone true, "3");
            (OrdersService.Create (orderBody 1 "Pad"), someone true, "4");
            (OrdersService.Put "1" (JObj [("status", JStr "completed")]), someone true, "5")]
           1 (newOrder 1 "Pen" "1" OrdersService.init) firstOrder eq_refl eq_refl).
Defined.

Lemma failed_logins_look_alike_witness :
  UsersService.login (H := demoPlatform) (credentials "ann@example.com" "guess") annOnly
  = UsersService.login (H := demoPlatform) (credentials "ann@example.com" "guess")
      UsersService.init.
Proof.
  apply (LoginAnswers.failed_logins_look_alike (H := demoPlatform)); discriminate.
Defined.

Lemma events_follow_success_witness :
  let out := handler (H := demoPlatform) (net (H := demoPlatform)) 0
               unmodelled unmodelled unmodelled CreateOrder soon
               (withUser (JObj [("id", JNum 1); ("roles", strings ["Customer"])])
                  (customerOrder (orderBodyAsSpecified 1)))
               (Gateway.init, world) in
  statusCode (fst out) = 400
  /\ publisher (fst (snd out)) = publisher Gateway.init.
Proof.
  split; [reflexivity|].
  destruct (HandlerFacts.events_follow_success (H := demoPlatform)
              (net (H := demoPlatform)) 0 unmodelled unmodelled unmodelled
              CreateOrder soon
              (withUser (JObj [("id", JNum 1); ("roles", strings ["Customer"])])
                 (customerOrder (orderBodyAsSpecified 1)))
              (Gateway.init, world) eq_refl)
    as [Hsame|(ev & t & n & Ha & _ & _ & Hst)].
  - exact Hsame.
  - injection Ha as <- <-. discriminate Hst.
Defined.

Lemma forwarded_answer_is_passed_through_witness :
  fst (proxy (net (H := demoPlatform)) 0 usersCircuit
         (Some (USERS_SERVICE_URL +:+ "/users/9")) noOptions soon (Gateway.init, world))
  = json 404 (JObj [("error", JStr "User not found")]).
Proof.
  apply (HandlerFacts.forwarded_answer_is_passed_through
           (net (H := demoPlatform)) 0 usersCircuit (USERS_SERVICE_URL +:+ "/users/9")
           noOptions soon Gateway.init world world 20 404
           (JObj [("error", JStr "User not found")])).
  - reflexivity.
  - reflexivity.
  - lia.
Defined.

Lemma details_with_users_unavailable_witness :
  fst (userDetails (H := demoPlatform) (net (H := demoPlatform)) 0 soon manager
         (usersDown, world))
  = json 200 (JObj [("success", JBool true);
                    ("data", JObj [("user", JUndef); ("orders", JArr [])])]).
Proof.
  apply (HandlerFacts.details_with_users_unavailable (H := demoPlatform)
           (net (H := demoPlatform)) 0 soon manager usersDown world world 20 [] []).
  - reflexivity.
  - simpl. lia.
  - reflexivity.
  - reflexivity.
  - lia.
  - reflexivity.
Defined.

Lemma claims_without_roles_are_refused_witness :
  let out := Gateway.dispatch (H := guestPlatform) (net (H := guestPlatform)) 0
               unmodelled unmodelled unmodelled GetUser soon guest
               (Gateway.init, world) in
  fst out = json 403 (JObj [("success", JBool false);
                            ("error", JObj [("message", JStr "User roles not found")])])
  /\ sent (fst (snd out)) = []
  /\ snd (snd out) = world.
Proof.
  assert (In (RequireRoles ["Manager"; "Admin"]) (guards GetUser)) as Hroute
    by (simpl; auto).
  apply (HandlerFacts.claims_without_roles_are_refused (H := guestPlatform)
           (net (H := guestPlatform)) 0 unmodelled unmodelled unmodelled
           GetUser ["Manager"; "Admin"] soon guest Gateway.init world
           "guest-token" (JObj [("id", JNum 9)]) Hroute).
  - reflexivity.
  - reflexivity.
  - reflexivity.
  - intros roles. discriminate.
  - reflexivity.
Defined.

Lemma status_and_cancel_find_no_route_witness :
  statusCode (fst (cancelOrder (net (H := demoPlatform)) 0 soon
                     completing (Gateway.init, world))) = 404
  /\ statusCode (fst (patchOrderStatus (net (H := demoPlatform)) 0 soon
                        completing (Gateway.init, world))) = 404.
Proof.
  assert (Healthy (orders Gateway.init)) as Hh by (repeat split; simpl; lia).
  destruct (DeploymentFacts.status_and_cancel_find_no_route (H := demoPlatform) 0
              soon completing Gateway.init world Hh ltac:(simpl; lia))
    as [(Hcancel & _ & _) Hpatch].
  split; [exact Hcancel|].
  destruct Hpatch as (Hstatus & _ & _); [discriminate|exact Hstatus].
Defined.

Lemma details_for_unknown_user_witness :
  fst (userDetails (H := demoPlatform) (net (H := demoPlatform)) 0 soon
         (managerAsksFor "9") (Gateway.init, world))
  = json 404 (JObj [("success", JBool false); ("error", JStr "User not found")]).
Proof.
  apply (AggregationFacts.details_for_unknown_user (H := demoPlatform)
           (net (H := demoPlatform)) 0 soon (managerAsksFor "9") Gateway.init world world
           20 (JObj [("error", JStr "User not found")])).
  - reflexivity.
  - reflexivity.
  - lia.
Defined.

Lemma user_check_decides_creation_witness :
  fst (net (H := demoPlatform)
         {| circuit := ordersCircuit; url := ORDERS_SERVICE_URL +:+ "/orders";
            options := {| method := POST; data := orderBody 7 "Pen" |} |} world)
  = Responded 20 404 (JObj [("success", JBool false); ("error", JStr "User not found")])
  /\ exists o,
       fst (OrdersService.create (orderBody 7 "Pen")
              (checkUserExists (H := demoPlatform) None) "5"
              fourOrders)
       = OrdersService.success 201 (OrdersService.orderObj o)
       /\ OrdersService.userId o = 7.
Proof.
  destruct (AggregationFacts.user_check_decides_creation (H := demoPlatform)
              (orderBody 7 "Pen") (orderData 7 "Pen") world "5" fourOrders
              eq_refl eq_refl) as [Hreached Hfailed].
  split.
  - exact (proj1 Hreached).
  - destruct Hfailed as (o & Hout & _ & Hu). exists o. split; assumption.
Defined.

End Checks.
